(** * Verification of the Hadoop HA dashboard core

    A shallow embedding of the two modules that carry the logic of the
    dashboard:

    - [dashboard/app/api/monitoring.py], class [ClusterMonitor]
      (module [Monitoring] below): health score, bounded history and log
      buffers, event detection, read accessors;
    - [dashboard/app/api/failover.py], class [FailoverManager]
      (module [Failover] below): the three-step failover workflows.

    Python dictionaries that the code uses as records are records here; a
    key that the code reads with [.get] is an [option] field, [None]
    standing for an absent key (or for the value [None]).  Python [int]
    is [Z] and a length is [N].  The health score is computed on IEEE 754
    doubles, as in the code (module [Binary64], over [SpecFloat] of the
    standard library); the memory usage of the performance checks is
    carried out on exact rationals ([Q]).
    In module [Failover] exceptions are modelled by their message
    ([str(e)]) and every raise is an [Exception]; module [Cancellation]
    holds the same workflows for a task that can also be cancelled, where
    [asyncio.CancelledError] passes through [except Exception]. *)

From Stdlib Require Import ZArith QArith Qround String Ascii List Lia.
From Stdlib Require Import DecimalString.
From Stdlib Require Import Floats.SpecFloat.
From stdpp Require Import base decidable option list strings gmap.

Import ListNotations.
Local Open Scope string_scope.
Local Open Scope Z_scope.

(** ** Python primitives used by both modules *)

Module Py.

(** Truthiness of the result of [d.get(key)] for a boolean entry. *)
Definition truthy (o : option bool) : bool := default false o.

(** [a / b] on numbers: true division. *)
Definition truediv (a b : Z) : Q := Qdiv (inject_Z a) (inject_Z b).

(** [int(x)] on a float: truncation towards zero. *)
Definition int (x : Q) : Z := Z.quot (Qnum x) (Zpos (Qden x)).

(** [str(n)] on an integer. *)
Definition str_int (n : Z) : string := NilZero.string_of_int (Z.to_int n).

(** [lst[start:]]: a negative start counts from the end and is clamped
    at the beginning, a start beyond the end yields the empty list. *)
Definition slice_from {A} (start : Z) (lst : list A) : list A :=
  let len := Z.of_nat (length lst) in
  let start' := if start <? 0 then Z.max (len + start) 0 else Z.min start len in
  drop (Z.to_nat start') lst.

(** [lst.append(x)]. *)
Definition append {A} (lst : list A) (x : A) : list A := (lst ++ [x])%list.

(** [lst[i]] for a negative index [i = -k]; [None] is [IndexError]. *)
Definition index_from_end {A} (k : nat) (lst : list A) : option A :=
  if (length lst <? k)%nat then None
  else match k with
       | O => None
       | S _ => lst !! (length lst - k)%nat
       end.

End Py.

(** ** The float computations on IEEE 754 binary64 *)

Module Binary64.

(** [float(z)]. *)
Definition of_int (z : Z) : spec_float := binary_normalize 53 1024 z 0 false.

(** An integer as a mantissa at exponent 0, whatever its size. *)
Definition of_mantissa (z : Z) : spec_float :=
  match z with
  | Z0 => S754_zero false
  | Zpos m => S754_finite false m 0
  | Zneg m => S754_finite true m 0
  end.

(** [a / b] on integers: the quotient of the two integers themselves,
    rounded once to the nearest double.  The division of [SpecFloat]
    takes the integers as mantissas at exponent 0.  The code divides by
    a positive number only. *)
Definition truediv (a b : Z) : spec_float :=
  SFdiv 53 1024 (of_mantissa a) (of_mantissa b).

(** [x * y]. *)
Definition mul (x y : spec_float) : spec_float := SFmul 53 1024 x y.

(** [int(x)]: truncation towards zero ([0] stands for the error that
    Python raises on an infinity or a NaN). *)
Definition int (x : spec_float) : Z :=
  match x with
  | S754_finite s m e =>
      let v := if 0 <=? e then Z.pos m * 2 ^ e else Z.pos m / 2 ^ (- e) in
      if s then - v else v
  | _ => 0
  end.

(** [x >= k] for an integer [k]. *)
Definition ge (x : spec_float) (k : Z) : bool := SFleb (of_int k) x.

(** [int((healthy / total) * 15)] when [total > 0]. *)
Definition node_share (total healthy : N) : Z :=
  if 0 <? Z.of_N total
  then int (mul (truediv (Z.of_N healthy) (Z.of_N total)) (of_int 15))
  else 0.

(** [(health_score / max_score) * 100]. *)
Definition percentage (health_score : Z) : spec_float :=
  mul (truediv health_score 100) (of_int 100).

(** The status chosen from the float percentage. *)
Definition status (health_score : Z) : string :=
  let health_percentage := percentage health_score in
  if ge health_percentage 90 then "excellent"
  else if ge health_percentage 75 then "good"
  else if ge health_percentage 50 then "warning"
  else "critical".


Definition statuses_agree (exact : Z -> string) (bound : nat) : bool :=
  forallb (fun s => bool_decide (status (Z.of_nat s) = exact (Z.of_nat s)))
          (seq 0 (S bound)).

(** The double [x] is not negative and its value, [m * 2 ^ e], is at
    most the integer [K]. *)
Definition at_most (K : Z) (x : spec_float) : Prop :=
  match x with
  | S754_zero _ => True
  | S754_finite false m e => e <= 0 /\ Z.pos m <= K * 2 ^ (- e)
  | _ => False
  end.

(** The number that a shift record stands for, in units of [2 ^ e], is
    at most [K]: its mantissa when nothing was shifted out, the next
    integer otherwise. *)
Definition record_at_most (K : Z) (mrs : shr_record) (e : Z) : Prop :=
  e <= 0 /\ 0 <= shr_m mrs
  /\ (if shr_r mrs || shr_s mrs then shr_m mrs + 1 else shr_m mrs) <= K * 2 ^ (- e).

End Binary64.

(** ** monitoring.py *)

Module Monitoring.

(** [metrics["namenode_metrics"]] and [metrics["resourcemanager_metrics"]]. *)
Record HAMetrics := {
  active_healthy : option bool;
  standby_healthy : option bool;
  active_state : option string;
  standby_state : option string;
  ha_enabled : option bool
}.

(** [metrics["node_metrics"]].  [_calculate_cluster_health] is called
    by [_collect_metrics] alone, which fills every entry with a
    [len(...)]: the counts are natural numbers. *)
Record NodeMetrics := {
  total_datanodes : option N;
  healthy_datanodes : option N;
  total_nodemanagers : option N;
  healthy_nodemanagers : option N;
  total_journalnodes : option N;
  healthy_journalnodes : option N
}.

(** [metrics["service_metrics"]]. *)
Record ServiceMetrics := {
  historyserver_healthy : option bool;
  hive_healthy : option bool
}.

(** [metrics["performance_metrics"]]. *)
Record PerformanceMetrics := {
  total_memory : option Z;
  available_memory : option Z;
  allocated_memory : option Z;
  total_vcores : option Z;
  available_vcores : option Z;
  allocated_vcores : option Z;
  active_nodes : option Z;
  decommissioned_nodes : option Z;
  lost_nodes : option Z;
  unhealthy_nodes : option Z;
  running_apps : option Z;
  pending_apps : option Z
}.

(** The dictionary returned by [_calculate_cluster_health]. *)
Record ClusterHealth := {
  score : Z;
  max_score : Z;
  percentage : spec_float;
  status : string;
  issues : list string
}.

(** One snapshot, as built by [_collect_metrics].  [cluster_health] is
    [None] while it is still the empty dictionary. *)
Record Metrics := {
  timestamp : string;
  cluster_health : option ClusterHealth;
  namenode_metrics : HAMetrics;
  resourcemanager_metrics : HAMetrics;
  node_metrics : NodeMetrics;
  service_metrics : ServiceMetrics;
  performance_metrics : PerformanceMetrics;
  error : option string
}.

(** The empty dictionaries [{}]. *)
Definition empty_ha : HAMetrics := Build_HAMetrics None None None None None.
Definition empty_nodes : NodeMetrics := Build_NodeMetrics None None None None None None.
Definition empty_services : ServiceMetrics := Build_ServiceMetrics None None.
Definition empty_performance : PerformanceMetrics :=
  Build_PerformanceMetrics None None None None None None None None None None None None.

(** [f"{x:.1f}"]: one digit after the point, ties to even. *)
Definition round_half_even (x : Q) : Z :=
  let fl := Qfloor x in
  let twice := Qfloor (x * 2)%Q in
  let up := twice - 2 * fl in
  if negb (up =? 1) then fl
  else if Qeq_bool (inject_Z twice) (x * 2)%Q
       then (if Z.even fl then fl else fl + 1)
       else fl + 1.

Definition format_1f (x : Q) : string :=
  let tenths := round_half_even (x * 10)%Q in
  let a := Z.abs tenths in
  (if tenths <? 0 then "-" else "") ++
  Py.str_int (a / 10) ++ "." ++ Py.str_int (a mod 10).

(** [(allocated_memory / total_memory) * 100]. *)
Definition memory_usage_of (perf_metrics : PerformanceMetrics) : Q :=
  let allocated := default 0 (allocated_memory perf_metrics) in
  let total := default 1 (total_memory perf_metrics) in
  (Py.truediv allocated total * 100)%Q.

(** [ClusterMonitor._identify_issues]. *)
Definition _identify_issues (metrics : Metrics) : list string :=
  let issues := [] in
  let nn_metrics := namenode_metrics metrics in
  let issues := if negb (Py.truthy (active_healthy nn_metrics))
    then Py.append issues "Active NameNode is unhealthy" else issues in
  let issues := if negb (Py.truthy (standby_healthy nn_metrics))
    then Py.append issues "Standby NameNode is unhealthy" else issues in
  let issues := if negb (bool_decide (active_state nn_metrics = Some "active"))
    then Py.append issues ("Active NameNode is in '" ++ default "None" (active_state nn_metrics) ++ "' state")
    else issues in
  let issues := if negb (bool_decide (standby_state nn_metrics = Some "standby"))
    then Py.append issues ("Standby NameNode is in '" ++ default "None" (standby_state nn_metrics) ++ "' state")
    else issues in
  let rm_metrics := resourcemanager_metrics metrics in
  let issues := if negb (Py.truthy (active_healthy rm_metrics))
    then Py.append issues "Active ResourceManager is unhealthy" else issues in
  let issues := if negb (Py.truthy (standby_healthy rm_metrics))
    then Py.append issues "Standby ResourceManager is unhealthy" else issues in
  let issues := if negb (bool_decide (active_state rm_metrics = Some "active"))
    then Py.append issues ("Active ResourceManager is in '" ++ default "None" (active_state rm_metrics) ++ "' state")
    else issues in
  let issues := if negb (bool_decide (standby_state rm_metrics = Some "standby"))
    then Py.append issues ("Standby ResourceManager is in '" ++ default "None" (standby_state rm_metrics) ++ "' state")
    else issues in
  let node_metrics := node_metrics metrics in
  let unhealthy_datanodes :=
    Z.of_N (default 0%N (total_datanodes node_metrics))
    - Z.of_N (default 0%N (healthy_datanodes node_metrics)) in
  let issues := if 0 <? unhealthy_datanodes
    then Py.append issues (Py.str_int unhealthy_datanodes ++ " DataNode(s) are unhealthy") else issues in
  let unhealthy_nodemanagers :=
    Z.of_N (default 0%N (total_nodemanagers node_metrics))
    - Z.of_N (default 0%N (healthy_nodemanagers node_metrics)) in
  let issues := if 0 <? unhealthy_nodemanagers
    then Py.append issues (Py.str_int unhealthy_nodemanagers ++ " NodeManager(s) are unhealthy") else issues in
  let unhealthy_journalnodes :=
    Z.of_N (default 0%N (total_journalnodes node_metrics))
    - Z.of_N (default 0%N (healthy_journalnodes node_metrics)) in
  let issues := if 0 <? unhealthy_journalnodes
    then Py.append issues (Py.str_int unhealthy_journalnodes ++ " JournalNode(s) are unhealthy") else issues in
  let service_metrics := service_metrics metrics in
  let issues := if negb (Py.truthy (historyserver_healthy service_metrics))
    then Py.append issues "History Server is unhealthy" else issues in
  let issues := if negb (Py.truthy (hive_healthy service_metrics))
    then Py.append issues "Hive WebUI is unhealthy" else issues in
  let perf_metrics := performance_metrics metrics in
  let issues :=
    if 0 <? default 0 (total_memory perf_metrics) then
      let memory_usage := memory_usage_of perf_metrics in
      if negb (Qle_bool memory_usage 90)
      then Py.append issues ("High memory usage: " ++ format_1f memory_usage ++ "%")
      else issues
    else issues in
  let issues := if 5 <? default 0 (pending_apps perf_metrics)
    then Py.append issues (match pending_apps perf_metrics with
                    | Some n => Py.str_int n | None => "None" end
                    ++ " applications are pending")
    else issues in
  issues.

(** [ClusterMonitor._calculate_cluster_health]. *)
Definition _calculate_cluster_health (metrics : Metrics) : ClusterHealth :=
  let health_score := 0 in
  let max_score := 100 in
  (* NameNode health (25 points) *)
  let nn_metrics := namenode_metrics metrics in
  let health_score :=
    if Py.truthy (active_healthy nn_metrics)
       && bool_decide (active_state nn_metrics = Some "active")
    then health_score + 15 else health_score in
  let health_score :=
    if Py.truthy (standby_healthy nn_metrics)
       && bool_decide (standby_state nn_metrics = Some "standby")
    then health_score + 10 else health_score in
  (* ResourceManager health (25 points) *)
  let rm_metrics := resourcemanager_metrics metrics in
  let health_score :=
    if Py.truthy (active_healthy rm_metrics)
       && bool_decide (active_state rm_metrics = Some "active")
    then health_score + 15 else health_score in
  let health_score :=
    if Py.truthy (standby_healthy rm_metrics)
       && bool_decide (standby_state rm_metrics = Some "standby")
    then health_score + 10 else health_score in
  (* Node health (30 points) *)
  let node_metrics := node_metrics metrics in
  let total_datanodes := Z.of_N (default 1%N (total_datanodes node_metrics)) in
  let healthy_datanodes := Z.of_N (default 0%N (healthy_datanodes node_metrics)) in
  let health_score :=
    if 0 <? total_datanodes
    then health_score
         + Binary64.int (Binary64.mul (Binary64.truediv healthy_datanodes total_datanodes)
                                      (Binary64.of_int 15))
    else health_score in
  let total_nodemanagers := Z.of_N (default 1%N (total_nodemanagers node_metrics)) in
  let healthy_nodemanagers := Z.of_N (default 0%N (healthy_nodemanagers node_metrics)) in
  let health_score :=
    if 0 <? total_nodemanagers
    then health_score
         + Binary64.int (Binary64.mul (Binary64.truediv healthy_nodemanagers total_nodemanagers)
                                      (Binary64.of_int 15))
    else health_score in
  (* Service health (20 points) *)
  let service_metrics := service_metrics metrics in
  let health_score :=
    if Py.truthy (historyserver_healthy service_metrics)
    then health_score + 10 else health_score in
  let health_score :=
    if Py.truthy (hive_healthy service_metrics)
    then health_score + 10 else health_score in
  (* Determine health status *)
  let health_percentage :=
    Binary64.mul (Binary64.truediv health_score max_score) (Binary64.of_int 100) in
  let status :=
    if Binary64.ge health_percentage 90 then "excellent"
    else if Binary64.ge health_percentage 75 then "good"
    else if Binary64.ge health_percentage 50 then "warning"
    else "critical" in
  {| score := health_score;
     max_score := max_score;
     percentage := health_percentage;
     status := status;
     issues := _identify_issues metrics |}.

(** *** Collecting a snapshot *)

(** The "clusterMetrics" object of the ResourceManager. *)
Record ClusterMetrics := {
  totalMB : option Z;
  availableMB : option Z;
  allocatedMB : option Z;
  totalVirtualCores : option Z;
  availableVirtualCores : option Z;
  allocatedVirtualCores : option Z;
  activeNodes : option Z;
  decommissionedNodes : option Z;
  lostNodes : option Z;
  unhealthyNodes : option Z;
  appsPending : option Z;
  appsRunning : option Z
}.

(** What the client reports for one role slot; [metrics] is [None] when
    the entry is absent or empty. *)
Record SlotStatus := {
  healthy : option bool;
  ha_state : option string;
  metrics : option ClusterMetrics
}.

(** [cluster_status["namenode"]] and [cluster_status["resourcemanager"]]. *)
Record PairStatus := {
  active : option SlotStatus;
  standby : option SlotStatus;
  pair_ha_enabled : option bool
}.

(** An entry of one of the node lists. *)
Record NodeInfo := {
  node_state : option string;
  node_healthy : option bool
}.

(** [cluster_status["nodes"]]. *)
Record NodesHealth := {
  datanodes : option (list NodeInfo);
  nodemanagers : option (list NodeInfo);
  journalnodes : option (list NodeInfo)
}.

(** [cluster_status["services"]]; a service is given by its "healthy" entry. *)
Record ServicesStatus := {
  historyserver : option (option bool);
  hive : option (option bool)
}.

(** The result of [hadoop_client.get_cluster_status()]. *)
Record ClusterStatus := {
  namenode : option PairStatus;
  resourcemanager : option PairStatus;
  nodes : option NodesHealth;
  services : option ServicesStatus
}.

(** [status.get(slot, {}).get("healthy", False)] and
    [status.get(slot, {}).get("ha_state", "unknown")]. *)
Definition slot_healthy (slot : option SlotStatus) : bool :=
  default false (slot ≫= healthy).

Definition slot_state (slot : option SlotStatus) : string :=
  default "unknown" (slot ≫= ha_state).

(** [services.get(name, {}).get("healthy", False)]. *)
Definition service_healthy (service : option (option bool)) : bool :=
  match service with
  | Some (Some b) => b
  | _ => false
  end.

(** The extraction of the metrics of one pair. *)
Definition ha_metrics_of (status : option PairStatus) : HAMetrics :=
  {| active_healthy := Some (slot_healthy (status ≫= active));
     standby_healthy := Some (slot_healthy (status ≫= standby));
     active_state := Some (slot_state (status ≫= active));
     standby_state := Some (slot_state (status ≫= standby));
     ha_enabled := Some (default false (status ≫= pair_ha_enabled)) |}.

(** [len(lst)] and [len([x for x in lst if keep(x)])]. *)
Definition len {A} (lst : list A) : N := N.of_nat (length lst).

Definition count {A} (keep : A -> bool) (lst : list A) : N :=
  N.of_nat (length (List.filter keep lst)).

(** [ClusterMonitor._collect_metrics]; [timestamp] is the value of
    [datetime.now().isoformat()] at the call and [outcome] what
    [get_cluster_status()] does: it raises ([inl]) or returns ([inr]).
    The response times, which nothing below reads, are left out. *)
Definition _collect_metrics (timestamp : string) (outcome : string + ClusterStatus)
    : Metrics :=
  let initial :=
    {| timestamp := timestamp; cluster_health := None;
       namenode_metrics := empty_ha; resourcemanager_metrics := empty_ha;
       node_metrics := empty_nodes; service_metrics := empty_services;
       performance_metrics := empty_performance; error := None |} in
  match outcome with
  | inl e =>
      {| timestamp := timestamp; cluster_health := None;
         namenode_metrics := empty_ha; resourcemanager_metrics := empty_ha;
         node_metrics := empty_nodes; service_metrics := empty_services;
         performance_metrics := empty_performance; error := Some e |}
  | inr cluster_status =>
      (* Extract NameNode metrics *)
      let nn_status := namenode cluster_status in
      let namenode_metrics := ha_metrics_of nn_status in
      (* Extract ResourceManager metrics *)
      let rm_status := resourcemanager cluster_status in
      let resourcemanager_metrics := ha_metrics_of rm_status in
      (* Extract cluster metrics from ResourceManager *)
      let performance_metrics :=
        match (rm_status ≫= active) ≫= metrics with
        | Some rm_metrics =>
            {| total_memory := Some (default 0 (totalMB rm_metrics));
               available_memory := Some (default 0 (availableMB rm_metrics));
               allocated_memory := Some (default 0 (allocatedMB rm_metrics));
               total_vcores := Some (default 0 (totalVirtualCores rm_metrics));
               available_vcores := Some (default 0 (availableVirtualCores rm_metrics));
               allocated_vcores := Some (default 0 (allocatedVirtualCores rm_metrics));
               active_nodes := Some (default 0 (activeNodes rm_metrics));
               decommissioned_nodes := Some (default 0 (decommissionedNodes rm_metrics));
               lost_nodes := Some (default 0 (lostNodes rm_metrics));
               unhealthy_nodes := Some (default 0 (unhealthyNodes rm_metrics));
               running_apps := Some (default 0 (appsPending rm_metrics)
                                     + default 0 (appsRunning rm_metrics));
               pending_apps := Some (default 0 (appsPending rm_metrics)) |}
        | None => performance_metrics initial
        end in
      (* Extract node health metrics *)
      let nodes_health := nodes cluster_status in
      let dns : list NodeInfo := default [] (nodes_health ≫= datanodes) in
      let nms : list NodeInfo := default [] (nodes_health ≫= nodemanagers) in
      let jns : list NodeInfo := default [] (nodes_health ≫= journalnodes) in
      let node_metrics :=
        {| total_datanodes := Some (len dns);
           healthy_datanodes :=
             Some (count (fun dn => bool_decide (node_state dn = Some "NORMAL")) dns);
           total_nodemanagers := Some (len nms);
           healthy_nodemanagers :=
             Some (count (fun nm => bool_decide (node_state nm = Some "RUNNING")) nms);
           total_journalnodes := Some (len jns);
           healthy_journalnodes :=
             Some (count (fun jn => default false (node_healthy jn)) jns) |} in
      (* Extract service metrics *)
      let services := services cluster_status in
      let service_metrics :=
        {| historyserver_healthy := Some (service_healthy (services ≫= historyserver));
           hive_healthy := Some (service_healthy (services ≫= hive)) |} in
      let metrics :=
        {| timestamp := timestamp; cluster_health := None;
           namenode_metrics := namenode_metrics;
           resourcemanager_metrics := resourcemanager_metrics;
           node_metrics := node_metrics; service_metrics := service_metrics;
           performance_metrics := performance_metrics; error := None |} in
      (* Calculate overall cluster health *)
      {| timestamp := timestamp;
         cluster_health := Some (_calculate_cluster_health metrics);
         namenode_metrics := namenode_metrics;
         resourcemanager_metrics := resourcemanager_metrics;
         node_metrics := node_metrics; service_metrics := service_metrics;
         performance_metrics := performance_metrics; error := None |}
  end.

(** *** The monitor object and its buffers *)

(** An entry of [self.logs]. *)
Record LogEntry := {
  log_timestamp : string;
  level : string;
  message : string
}.

(** The attributes of a [ClusterMonitor] (the client handle apart). *)
Record ClusterMonitor := {
  monitoring : bool;
  current_metrics : option Metrics;
  metrics_history : list Metrics;
  logs : list LogEntry;
  max_history_size : Z;
  max_logs_size : Z
}.

(** What the functions below act on: the monitor object [self] and the
    records handed to the module-level [logger], oldest first, each with
    the name of the logging method that was called. *)
Record State := {
  self : ClusterMonitor;
  logger : list (string * string)
}.

(** [ClusterMonitor.__init__]. *)
Definition __init__ : ClusterMonitor :=
  {| monitoring := false;
     current_metrics := None;
     metrics_history := [];
     logs := [];
     max_history_size := 100;
     max_logs_size := 200 |}.

Definition set_metrics_history (h : list Metrics) (m : ClusterMonitor) : ClusterMonitor :=
  {| monitoring := monitoring m; current_metrics := current_metrics m;
     metrics_history := h; logs := logs m;
     max_history_size := max_history_size m; max_logs_size := max_logs_size m |}.

Definition set_logs (l : list LogEntry) (m : ClusterMonitor) : ClusterMonitor :=
  {| monitoring := monitoring m; current_metrics := current_metrics m;
     metrics_history := metrics_history m; logs := l;
     max_history_size := max_history_size m; max_logs_size := max_logs_size m |}.

Definition set_current_metrics (c : Metrics) (m : ClusterMonitor) : ClusterMonitor :=
  {| monitoring := monitoring m; current_metrics := Some c;
     metrics_history := metrics_history m; logs := logs m;
     max_history_size := max_history_size m; max_logs_size := max_logs_size m |}.

Definition on_self (f : ClusterMonitor -> ClusterMonitor) (st : State) : State :=
  {| self := f (self st); logger := logger st |}.

(** [logger.error(message)], [logger.warning(message)], [logger.info(message)]. *)
Definition logger_call (method message : string) (st : State) : State :=
  {| self := self st; logger := Py.append (logger st) (method, message) |}.

(** [ClusterMonitor._add_to_history]. *)
Definition _add_to_history (metrics : Metrics) (self : ClusterMonitor) : ClusterMonitor :=
  let self := set_metrics_history (Py.append (metrics_history self) metrics) self in
  if max_history_size self <? Z.of_nat (length (metrics_history self))
  then set_metrics_history
         (Py.slice_from (- max_history_size self) (metrics_history self)) self
  else self.

(** [ClusterMonitor._add_log]. *)
Definition _add_log (level message timestamp : string) (st : State) : State :=
  let log_entry :=
    {| log_timestamp := timestamp; level := level; message := message |} in
  let st := on_self (fun self => set_logs (Py.append (logs self) log_entry) self) st in
  let st :=
    if max_logs_size (self st) <? Z.of_nat (length (logs (self st)))
    then on_self (fun self =>
           set_logs (Py.slice_from (- max_logs_size self) (logs self)) self) st
    else st in
  if bool_decide (level = "error") then logger_call "error" message st
  else if bool_decide (level = "warning") then logger_call "warning" message st
  else logger_call "info" message st.

(** [f"{x}"] for the result of [d.get(key)] on a string entry. *)
Definition fmt (x : option string) : string := default "None" x.

(** [ClusterMonitor._check_ha_state_changes]. *)
Definition _check_ha_state_changes (current previous : Metrics) (timestamp : string)
    (st : State) : State :=
  let curr_nn := namenode_metrics current in
  let prev_nn := namenode_metrics previous in
  let st :=
    if negb (bool_decide (active_state curr_nn = active_state prev_nn))
    then _add_log "warning"
           ("NameNode active state changed: " ++ fmt (active_state prev_nn)
            ++ " → " ++ fmt (active_state curr_nn)) timestamp st
    else st in
  let st :=
    if negb (bool_decide (standby_state curr_nn = standby_state prev_nn))
    then _add_log "warning"
           ("NameNode standby state changed: " ++ fmt (standby_state prev_nn)
            ++ " → " ++ fmt (standby_state curr_nn)) timestamp st
    else st in
  let curr_rm := resourcemanager_metrics current in
  let prev_rm := resourcemanager_metrics previous in
  let st :=
    if negb (bool_decide (active_state curr_rm = active_state prev_rm))
    then _add_log "warning"
           ("ResourceManager active state changed: " ++ fmt (active_state prev_rm)
            ++ " → " ++ fmt (active_state curr_rm)) timestamp st
    else st in
  let st :=
    if negb (bool_decide (standby_state curr_rm = standby_state prev_rm))
    then _add_log "warning"
           ("ResourceManager standby state changed: " ++ fmt (standby_state prev_rm)
            ++ " → " ++ fmt (standby_state curr_rm)) timestamp st
    else st in
  st.

(** [for issue in issue_set: self._add_log(level, f"{prefix}{issue}", timestamp)].
    Python leaves the iteration order of a set open; here it is the
    order of [elements]. *)
Definition log_each_issue (level prefix : string) (issue_set : gset string)
    (timestamp : string) (st : State) : State :=
  foldl (fun st issue => _add_log level (prefix ++ issue) timestamp st)
        st (elements issue_set).

(** [ClusterMonitor._check_health_changes]. *)
Definition _check_health_changes (current previous : Metrics) (timestamp : string)
    (st : State) : State :=
  let curr_health := cluster_health current in
  let prev_health := cluster_health previous in
  let curr_status := status <$> curr_health in
  let prev_status := status <$> prev_health in
  let st :=
    if negb (bool_decide (curr_status = prev_status))
    then
      let level :=
        if bool_decide (curr_status = Some "warning")
           || bool_decide (curr_status = Some "critical")
        then "error" else "info" in
      _add_log level
        ("Cluster health status changed: " ++ fmt prev_status
         ++ " → " ++ fmt curr_status) timestamp st
    else st in
  let curr_issues : gset string := list_to_set (default [] (issues <$> curr_health)) in
  let prev_issues : gset string := list_to_set (default [] (issues <$> prev_health)) in
  let new_issues := curr_issues ∖ prev_issues in
  let resolved_issues := prev_issues ∖ curr_issues in
  let st := log_each_issue "warning" "New issue detected: " new_issues timestamp st in
  let st := log_each_issue "info" "Issue resolved: " resolved_issues timestamp st in
  st.

(** [ClusterMonitor._check_performance_issues]. *)
Definition _check_performance_issues (current : Metrics) (timestamp : string)
    (st : State) : State :=
  let perf_metrics := performance_metrics current in
  let st :=
    if 0 <? default 0 (total_memory perf_metrics) then
      let memory_usage := memory_usage_of perf_metrics in
      if negb (Qle_bool memory_usage 95)
      then _add_log "error"
             ("Critical memory usage: " ++ format_1f memory_usage ++ "%") timestamp st
      else if negb (Qle_bool memory_usage 85)
      then _add_log "warning"
             ("High memory usage: " ++ format_1f memory_usage ++ "%") timestamp st
      else st
    else st in
  let pending_apps := default 0 (pending_apps perf_metrics) in
  if 10 <? pending_apps
  then _add_log "warning"
         ("High number of pending applications: " ++ Py.str_int pending_apps) timestamp st
  else st.

(** [ClusterMonitor._check_for_events]; [now] is the value of
    [datetime.now().isoformat()] at the call. *)
Definition _check_for_events (metrics : Metrics) (now : string) (st : State) : State :=
  if (length (metrics_history (self st)) <? 2)%nat then st
  else
    let current := metrics in
    match Py.index_from_end 2 (metrics_history (self st)) with
    | None => st
    | Some previous =>
        let timestamp := now in
        let st := _check_ha_state_changes current previous timestamp st in
        let st := _check_health_changes current previous timestamp st in
        _check_performance_issues current timestamp st
    end.

(** One round of [_monitoring_loop] once [_collect_metrics] has returned
    [metrics]. *)
Definition monitoring_cycle (metrics : Metrics) (now : string) (st : State) : State :=
  let st := on_self (set_current_metrics metrics) st in
  let st := on_self (_add_to_history metrics) st in
  _check_for_events metrics now st.

(** [ClusterMonitor.get_metrics_history]. *)
Definition get_metrics_history (limit : Z) (self : ClusterMonitor) : list Metrics :=
  match metrics_history self with
  | [] => []
  | _ :: _ => Py.slice_from (- limit) (metrics_history self)
  end.

(** [ClusterMonitor.get_recent_logs]. *)
Definition get_recent_logs (limit : Z) (self : ClusterMonitor) : list LogEntry :=
  match logs self with
  | [] => []
  | _ :: _ => Py.slice_from (- limit) (logs self)
  end.

End Monitoring.

(** ** failover.py *)

Module Failover.

(** *** Data *)

(** The record that the client returns for one role slot
    ([_check_namenode_health], [_check_resourcemanager_health]). *)
Record HealthRecord := {
  url : string;
  healthy : bool;
  ha_state : string;
  is_active : bool;
  expected_role : string;
  role_correct : bool;
  probe_error : option string
}.

(** The result of [get_namenode_status] / [get_resourcemanager_status]. *)
Record HAStatus := {
  active : HealthRecord;
  standby : HealthRecord;
  ha_enabled : bool
}.

(** [step_result["data"]] of a successful [check_status] step. *)
Record CheckData := {
  current_active : string;
  current_standby : string;
  active_status : HealthRecord;
  standby_status : HealthRecord
}.

(** [step_result["data"]] of a [verify_failover] step; a key that the
    dictionary does not have is [None]. *)
Record VerifyData := {
  failover_verified : bool;
  new_active : option string;
  new_standby : option string;
  attempts : option nat;
  final_status : HAStatus
}.

Inductive StepData :=
| EmptyData                      (* {} *)
| CheckStatus (d : CheckData)
| VerifyFailover (d : VerifyData).

(** A step dictionary.  [data], [command] and [output] are [None] where
    the dictionary has no such key; [step_error] is the value under
    ["error"], [None] for Python's [None]. *)
Record StepResult := {
  step : string;
  step_success : bool;
  step_timestamp : nat;
  data : option StepData;
  command : option string;
  output : option string;
  step_error : option string
}.

(** The dictionary returned by a workflow. *)
Record FailoverResult := {
  type : string;
  timestamp : nat;
  success : bool;
  steps : list StepResult;
  error : option string
}.

Definition set_data (d : StepData) (s : StepResult) : StepResult :=
  {| step := step s; step_success := step_success s; step_timestamp := step_timestamp s;
     data := Some d; command := command s; output := output s;
     step_error := step_error s |}.

Definition set_step_success (b : bool) (s : StepResult) : StepResult :=
  {| step := step s; step_success := b; step_timestamp := step_timestamp s;
     data := data s; command := command s; output := output s;
     step_error := step_error s |}.

Definition set_step_error (e : string) (s : StepResult) : StepResult :=
  {| step := step s; step_success := step_success s; step_timestamp := step_timestamp s;
     data := data s; command := command s; output := output s;
     step_error := Some e |}.

Definition set_command (c : string) (s : StepResult) : StepResult :=
  {| step := step s; step_success := step_success s; step_timestamp := step_timestamp s;
     data := data s; command := Some c; output := output s;
     step_error := step_error s |}.

Definition set_output (o : string) (s : StepResult) : StepResult :=
  {| step := step s; step_success := step_success s; step_timestamp := step_timestamp s;
     data := data s; command := command s; output := Some o;
     step_error := step_error s |}.

Definition append_step (s : StepResult) (r : FailoverResult) : FailoverResult :=
  {| type := type r; timestamp := timestamp r; success := success r;
     steps := Py.append (steps r) s; error := error r |}.

Definition set_success (b : bool) (r : FailoverResult) : FailoverResult :=
  {| type := type r; timestamp := timestamp r; success := b;
     steps := steps r; error := error r |}.

Definition set_error (e : string) (r : FailoverResult) : FailoverResult :=
  {| type := type r; timestamp := timestamp r; success := success r;
     steps := steps r; error := Some e |}.

(** *** The world outside the manager

    [clock] is the wall clock in seconds, read by [datetime.now()] and
    advanced by [asyncio.sleep]; [nn_calls] and [rm_calls] count the
    status requests made so far; [log] holds the records handed to the
    module-level [logger]. *)
Record World := {
  clock : nat;
  nn_calls : nat;
  rm_calls : nat;
  log : list (string * string)
}.

(** The client object that the manager is built with.  The outcome of
    the k-th status request is [inl msg] when it raises an exception
    with message [msg], and [inr status] when it returns. *)
Record HadoopClient := {
  get_namenode_status : nat -> string + HAStatus;
  get_resourcemanager_status : nat -> string + HAStatus
}.

(** [FailoverManager.__init__]. *)
Record FailoverManager := { hadoop_client : HadoopClient }.

(** *** Computations that may raise

    A computation acts on a state and either returns a value or raises
    an exception; the changes it made to the state up to the [raise]
    stay. *)
Definition M (S A : Type) : Type := S -> (string + A) * S.

Definition ret {S A} (a : A) : M S A := fun s => (inr a, s).

Definition bind {S A B} (c : M S A) (k : A -> M S B) : M S B :=
  fun s => match c s with
           | (inl e, s') => (inl e, s')
           | (inr a, s') => k a s'
           end.

(** [raise Exception(msg)]. *)
Definition raise {S A} (msg : string) : M S A := fun s => (inl msg, s).

(** [try: body  except Exception as e: handler(str(e))]. *)
Definition try_except {S A} (body : M S A) (handler : string -> M S A) : M S A :=
  fun s => match body s with
           | (inl e, s') => handler e s'
           | (inr a, s') => (inr a, s')
           end.

(** A local variable [l] that [body] updates in place: it is part of
    the state while [body] runs and is returned at the end. *)
Definition with_local {S L A} (l : L) (body : M (S * L) A) : M S L :=
  fun s => match body (s, l) with
           | (inl e, (s', _)) => (inl e, s')
           | (inr _, (s', l')) => (inr l', s')
           end.

(** A computation on the outer state, run beside a local variable. *)
Definition outer {S L A} (c : M S A) : M (S * L) A :=
  fun sl => match c (fst sl) with (r, s') => (r, (s', snd sl)) end.

Definition get_local {S L} : M (S * L) L := fun sl => (inr (snd sl), sl).

Definition update_local {S L} (f : L -> L) : M (S * L) unit :=
  fun sl => (inr tt, (fst sl, f (snd sl))).

Declare Scope py_scope.
Delimit Scope py_scope with py.
Notation "x <- c ;; k" := (bind c (fun x => k))
  (at level 100, c at next level, right associativity) : py_scope.
Notation "c ;; k" := (bind c (fun _ => k))
  (at level 100, right associativity) : py_scope.
Local Open Scope py_scope.

(** [datetime.now().isoformat()]. *)
Definition now : M World nat := fun w => (inr (clock w), w).

(** [await asyncio.sleep(seconds)]. *)
Definition sleep (seconds : nat) : M World unit :=
  fun w => (inr tt, {| clock := clock w + seconds; nn_calls := nn_calls w;
                       rm_calls := rm_calls w; log := log w |}).

(** [logger.info(message)] and [logger.error(message)]. *)
Definition logger_call (method message : string) : M World unit :=
  fun w => (inr tt, {| clock := clock w; nn_calls := nn_calls w;
                       rm_calls := rm_calls w;
                       log := Py.append (log w) (method, message) |}).

(** [await self.hadoop_client.get_namenode_status()]. *)
Definition call_get_namenode_status (self : FailoverManager) : M World HAStatus :=
  fun w => (get_namenode_status (hadoop_client self) (nn_calls w),
            {| clock := clock w; nn_calls := S (nn_calls w);
               rm_calls := rm_calls w; log := log w |}).

(** [await self.hadoop_client.get_resourcemanager_status()]. *)
Definition call_get_resourcemanager_status (self : FailoverManager) : M World HAStatus :=
  fun w => (get_resourcemanager_status (hadoop_client self) (rm_calls w),
            {| clock := clock w; nn_calls := nn_calls w;
               rm_calls := S (rm_calls w); log := log w |}).

(** [f"{x}"] for a value that is a string or [None]. *)
Definition fmt (x : option string) : string := default "None" x.

(** *** NameNode workflow *)

(** [FailoverManager._check_namenode_status]. *)
Definition _check_namenode_status (self : FailoverManager) : M World StepResult :=
  ts <- now;;
  with_local
    {| step := "check_status"; step_success := false; step_timestamp := ts;
       data := Some EmptyData; command := None; output := None;
       step_error := None |}
    (try_except
       (nn_status <- outer (call_get_namenode_status self);;
        nodes <-
          (if is_active (active nn_status) then ret ("active-nn", "standby-nn")
           else if is_active (standby nn_status) then ret ("standby-nn", "active-nn")
           else raise "No active NameNode found");;
        let active_node := fst nodes in
        let standby_node := snd nodes in
        update_local (set_data (CheckStatus
          {| current_active := active_node;
             current_standby := standby_node;
             active_status := active nn_status;
             standby_status := standby nn_status |}));;
        update_local (set_step_success true))
       (fun e => update_local (set_step_error e))).

(** [FailoverManager._execute_namenode_failover]. *)
Definition _execute_namenode_failover (self : FailoverManager)
    (current_active current_standby : string) (force : bool) : M World StepResult :=
  ts <- now;;
  with_local
    {| step := "execute_failover"; step_success := false; step_timestamp := ts;
       data := None; command := Some ""; output := Some "";
       step_error := None |}
    (try_except
       (let force_flag := if force then "--forcemanual" else "" in
        let command :=
          "docker exec active-nn /usr/local/hadoop/bin/hdfs haadmin -failover "
          ++ force_flag ++ " " ++ current_active ++ " " ++ current_standby in
        update_local (set_command command);;
        (* Simulate command execution *)
        outer (sleep 2);;
        update_local (set_output
          ("Failover from " ++ current_active ++ " to " ++ current_standby
           ++ " initiated"));;
        update_local (set_step_success true))
       (fun e => update_local (set_step_error e))).

(** The [for attempt in range(max_attempts)] loop of
    [_verify_namenode_failover], from iteration [attempt] on, with
    [remaining] iterations to go.  It returns the last binding of the
    loop variable [nn_status], [None] while it is unbound. *)
Fixpoint verify_namenode_attempts (self : FailoverManager) (old_active : string)
    (nn_status : option HAStatus) (attempt remaining : nat)
    : M (World * StepResult) (option HAStatus) :=
  match remaining with
  | O => ret nn_status
  | S remaining =>
      outer (sleep 5);;
      nn_status <- outer (call_get_namenode_status self);;
      let expected :=
        if String.eqb old_active "active-nn"
        then (is_active (standby nn_status), negb (is_active (active nn_status)))
        else (is_active (active nn_status), negb (is_active (standby nn_status))) in
      let expected_new_active := fst expected in
      let expected_new_standby := snd expected in
      if expected_new_active && expected_new_standby then
        update_local (set_data (VerifyFailover
          {| failover_verified := true;
             new_active := Some (if String.eqb old_active "active-nn"
                                 then "standby-nn" else "active-nn");
             new_standby := Some old_active;
             attempts := Some (attempt + 1)%nat;
             final_status := nn_status |}));;
        update_local (set_step_success true);;
        ret (Some nn_status)
      else
        verify_namenode_attempts self old_active (Some nn_status) (S attempt) remaining
  end.

(** [FailoverManager._verify_namenode_failover]. *)
Definition _verify_namenode_failover (self : FailoverManager)
    (old_active old_standby : string) : M World StepResult :=
  ts <- now;;
  with_local
    {| step := "verify_failover"; step_success := false; step_timestamp := ts;
       data := Some EmptyData; command := None; output := None;
       step_error := None |}
    (try_except
       (let max_attempts := 6%nat in
        nn_status <- verify_namenode_attempts self old_active None 0 max_attempts;;
        step_result <- get_local;;
        if negb (step_success step_result) then
          update_local (set_step_error
            ("Failover verification failed after "
             ++ Py.str_int (Z.of_nat max_attempts) ++ " attempts"));;
          match nn_status with
          | Some nn_status =>
              update_local (set_data (VerifyFailover
                {| failover_verified := false;
                   new_active := None; new_standby := None; attempts := None;
                   final_status := nn_status |}))
          | None =>
              raise "cannot access local variable 'nn_status' where it is not associated with a value"
          end
        else ret tt)
       (fun e => update_local (set_step_error e))).

(** [FailoverManager.namenode_failover]. *)
Definition namenode_failover (self : FailoverManager) (force : bool)
    : M World FailoverResult :=
  logger_call "info" "Starting NameNode failover...";;
  ts <- now;;
  with_local
    {| type := "namenode_failover"; timestamp := ts; success := false;
       steps := []; error := None |}
    (try_except
       ((* Step 1: Check current HA status *)
        step1 <- outer (_check_namenode_status self);;
        update_local (append_step step1);;
        if negb (step_success step1)
        then raise "Failed to get initial NameNode status"
        else
          d <- match data step1 with
               | Some (CheckStatus d) => ret d
               | _ => raise "'current_active'"
               end;;
          let current_active := current_active d in
          let current_standby := current_standby d in
          (* Step 2: Perform failover using hdfs haadmin command *)
          step2 <- outer (_execute_namenode_failover self current_active
                            current_standby force);;
          update_local (append_step step2);;
          if negb (step_success step2)
          then raise ("Failover command failed: " ++ fmt (step_error step2))
          else
            (* Step 3: Wait and verify new status *)
            outer (sleep 10);;
            step3 <- outer (_verify_namenode_failover self current_active
                              current_standby);;
            update_local (append_step step3);;
            update_local (set_success (step_success step3));;
            failover_result <- get_local;;
            if success failover_result
            then outer (logger_call "info" "NameNode failover completed successfully")
            else outer (logger_call "error" "NameNode failover verification failed"))
       (fun error_msg =>
          outer (logger_call "error" ("NameNode failover failed: " ++ error_msg));;
          update_local (set_error error_msg);;
          ts <- outer now;;
          update_local (append_step
            {| step := "error"; step_success := false; step_error := Some error_msg;
               step_timestamp := ts;
               data := None; command := None; output := None |}))).

(** *** ResourceManager workflow *)

(** [FailoverManager._check_resourcemanager_status]. *)
Definition _check_resourcemanager_status (self : FailoverManager) : M World StepResult :=
  ts <- now;;
  with_local
    {| step := "check_status"; step_success := false; step_timestamp := ts;
       data := Some EmptyData; command := None; output := None;
       step_error := None |}
    (try_except
       (rm_status <- outer (call_get_resourcemanager_status self);;
        nodes <-
          (if is_active (active rm_status) then ret ("active-rm", "standby-rm")
           else if is_active (standby rm_status) then ret ("standby-rm", "active-rm")
           else raise "No active ResourceManager found");;
        let active_node := fst nodes in
        let standby_node := snd nodes in
        update_local (set_data (CheckStatus
          {| current_active := active_node;
             current_standby := standby_node;
             active_status := active rm_status;
             standby_status := standby rm_status |}));;
        update_local (set_step_success true))
       (fun e => update_local (set_step_error e))).

(** [FailoverManager._execute_resourcemanager_failover]. *)
Definition _execute_resourcemanager_failover (self : FailoverManager)
    (current_active current_standby : string) (force : bool) : M World StepResult :=
  ts <- now;;
  with_local
    {| step := "execute_failover"; step_success := false; step_timestamp := ts;
       data := None; command := Some ""; output := Some "";
       step_error := None |}
    (try_except
       (let force_flag := if force then "--forcemanual" else "" in
        let command :=
          "docker exec active-rm /usr/local/hadoop/bin/yarn rmadmin -failover "
          ++ force_flag ++ " " ++ current_active ++ " " ++ current_standby in
        update_local (set_command command);;
        (* Simulate command execution *)
        outer (sleep 2);;
        update_local (set_output
          ("ResourceManager failover from " ++ current_active ++ " to " ++ current_standby
           ++ " initiated"));;
        update_local (set_step_success true))
       (fun e => update_local (set_step_error e))).

(** The [for attempt in range(max_attempts)] loop of
    [_verify_resourcemanager_failover], from iteration [attempt] on, with
    [remaining] iterations to go.  It returns the last binding of the
    loop variable [rm_status], [None] while it is unbound. *)
Fixpoint verify_resourcemanager_attempts (self : FailoverManager) (old_active : string)
    (rm_status : option HAStatus) (attempt remaining : nat)
    : M (World * StepResult) (option HAStatus) :=
  match remaining with
  | O => ret rm_status
  | S remaining =>
      outer (sleep 5);;
      rm_status <- outer (call_get_resourcemanager_status self);;
      let expected :=
        if String.eqb old_active "active-rm"
        then (is_active (standby rm_status), negb (is_active (active rm_status)))
        else (is_active (active rm_status), negb (is_active (standby rm_status))) in
      let expected_new_active := fst expected in
      let expected_new_standby := snd expected in
      if expected_new_active && expected_new_standby then
        update_local (set_data (VerifyFailover
          {| failover_verified := true;
             new_active := Some (if String.eqb old_active "active-rm"
                                 then "standby-rm" else "active-rm");
             new_standby := Some old_active;
             attempts := Some (attempt + 1)%nat;
             final_status := rm_status |}));;
        update_local (set_step_success true);;
        ret (Some rm_status)
      else
        verify_resourcemanager_attempts self old_active (Some rm_status) (S attempt) remaining
  end.

(** [FailoverManager._verify_resourcemanager_failover]. *)
Definition _verify_resourcemanager_failover (self : FailoverManager)
    (old_active old_standby : string) : M World StepResult :=
  ts <- now;;
  with_local
    {| step := "verify_failover"; step_success := false; step_timestamp := ts;
       data := Some EmptyData; command := None; output := None;
       step_error := None |}
    (try_except
       (let max_attempts := 6%nat in
        rm_status <- verify_resourcemanager_attempts self old_active None 0 max_attempts;;
        step_result <- get_local;;
        if negb (step_success step_result) then
          update_local (set_step_error
            ("Failover verification failed after "
             ++ Py.str_int (Z.of_nat max_attempts) ++ " attempts"));;
          match rm_status with
          | Some rm_status =>
              update_local (set_data (VerifyFailover
                {| failover_verified := false;
                   new_active := None; new_standby := None; attempts := None;
                   final_status := rm_status |}))
          | None =>
              raise "cannot access local variable 'rm_status' where it is not associated with a value"
          end
        else ret tt)
       (fun e => update_local (set_step_error e))).

(** [FailoverManager.resourcemanager_failover]. *)
Definition resourcemanager_failover (self : FailoverManager) (force : bool)
    : M World FailoverResult :=
  logger_call "info" "Starting ResourceManager failover...";;
  ts <- now;;
  with_local
    {| type := "resourcemanager_failover"; timestamp := ts; success := false;
       steps := []; error := None |}
    (try_except
       ((* Step 1: Check current RM status *)
        step1 <- outer (_check_resourcemanager_status self);;
        update_local (append_step step1);;
        if negb (step_success step1)
        then raise "Failed to get initial ResourceManager status"
        else
          d <- match data step1 with
               | Some (CheckStatus d) => ret d
               | _ => raise "'current_active'"
               end;;
          let current_active := current_active d in
          let current_standby := current_standby d in
          (* Step 2: Perform failover *)
          step2 <- outer (_execute_resourcemanager_failover self current_active
                            current_standby force);;
          update_local (append_step step2);;
          if negb (step_success step2)
          then raise ("Failover command failed: " ++ fmt (step_error step2))
          else
            (* Step 3: Wait and verify *)
            outer (sleep 10);;
            step3 <- outer (_verify_resourcemanager_failover self current_active
                              current_standby);;
            update_local (append_step step3);;
            update_local (set_success (step_success step3));;
            failover_result <- get_local;;
            if success failover_result
            then outer (logger_call "info" "ResourceManager failover completed successfully")
            else outer (logger_call "error" "ResourceManager failover verification failed"))
       (fun error_msg =>
          outer (logger_call "error" ("ResourceManager failover failed: " ++ error_msg));;
          update_local (set_error error_msg);;
          ts <- outer now;;
          update_local (append_step
            {| step := "error"; step_success := false; step_error := Some error_msg;
               step_timestamp := ts;
               data := None; command := None; output := None |}))).

End Failover.

(** ** dashboard/app/api/failover.py in a task that can be cancelled

    Every handler of the workflows reads [except Exception].  A task
    that is cancelled while it awaits raises [asyncio.CancelledError]
    at that await, and [CancelledError] derives from [BaseException]:
    the handlers let it pass.  Module [Failover] above takes every raise
    for an [Exception]; here the same workflows run in a task that may
    be cancelled at each of its awaits: a status request or a sleep. *)

Module Cancellation.
Import Failover.

(** What a coroutine raises: an exception derived from [Exception],
    given by its message [str(e)], or [asyncio.CancelledError]. *)
Inductive Raised :=
| Exception (msg : string)
| CancelledError.

(** The task that runs the workflow.  It is cancelled while it awaits
    its k-th NameNode status request, its k-th ResourceManager status
    request, or the sleep that it starts when the clock shows [c],
    where the field is [true]. *)
Record Task := {
  cancelled_in_namenode_request : nat -> bool;
  cancelled_in_resourcemanager_request : nat -> bool;
  cancelled_in_sleep : nat -> bool
}.

(** *** Computations that may raise *)
Definition M (S A : Type) : Type := S -> (Raised + A) * S.

Definition ret {S A} (a : A) : M S A := fun s => (inr a, s).

Definition bind {S A B} (c : M S A) (k : A -> M S B) : M S B :=
  fun s => match c s with
           | (inl e, s') => (inl e, s')
           | (inr a, s') => k a s'
           end.

(** [raise e]. *)
Definition raise {S A} (e : Raised) : M S A := fun s => (inl e, s).

(** [try: body  except Exception as e: handler(str(e))]: a
    [CancelledError] is not caught. *)
Definition try_except {S A} (body : M S A) (handler : string -> M S A) : M S A :=
  fun s => match body s with
           | (inl (Exception msg), s') => handler msg s'
           | (inl CancelledError, s') => (inl CancelledError, s')
           | (inr a, s') => (inr a, s')
           end.

(** A local variable [l] that [body] updates in place. *)
Definition with_local {S L A} (l : L) (body : M (S * L) A) : M S L :=
  fun s => match body (s, l) with
           | (inl e, (s', _)) => (inl e, s')
           | (inr _, (s', l')) => (inr l', s')
           end.

(** A computation on the outer state, run beside a local variable. *)
Definition outer {S L A} (c : M S A) : M (S * L) A :=
  fun sl => match c (fst sl) with (r, s') => (r, (s', snd sl)) end.

Definition get_local {S L} : M (S * L) L := fun sl => (inr (snd sl), sl).

Definition update_local {S L} (f : L -> L) : M (S * L) unit :=
  fun sl => (inr tt, (fst sl, f (snd sl))).

Declare Scope task_scope.
Delimit Scope task_scope with task.
Notation "x <- c ;; k" := (bind c (fun x => k))
  (at level 100, c at next level, right associativity) : task_scope.
Notation "c ;; k" := (bind c (fun _ => k))
  (at level 100, right associativity) : task_scope.
Local Open Scope task_scope.

(** [datetime.now().isoformat()]. *)
Definition now : M World nat := fun w => (inr (clock w), w).

(** [await asyncio.sleep(seconds)]: the task sleeps, or is cancelled
    while it does. *)
Definition sleep (task : Task) (seconds : nat) : M World unit :=
  fun w => if cancelled_in_sleep task (clock w)
           then (inl CancelledError, w)
           else (inr tt, {| clock := clock w + seconds; nn_calls := nn_calls w;
                            rm_calls := rm_calls w; log := log w |}).

(** [logger.info(message)] and [logger.error(message)]. *)
Definition logger_call (method message : string) : M World unit :=
  fun w => (inr tt, {| clock := clock w; nn_calls := nn_calls w;
                       rm_calls := rm_calls w;
                       log := Py.append (log w) (method, message) |}).

(** What an awaited status request gives: the task is cancelled while
    it waits, or the client raises an exception or returns. *)
Definition awaited {A} (cancelled : bool) (outcome : string + A) : Raised + A :=
  if cancelled then inl CancelledError
  else match outcome with
       | inl msg => inl (Exception msg)
       | inr a => inr a
       end.

(** [await self.hadoop_client.get_namenode_status()]. *)
Definition call_get_namenode_status (task : Task) (self : FailoverManager)
    : M World HAStatus :=
  fun w => (awaited (cancelled_in_namenode_request task (nn_calls w))
                    (get_namenode_status (hadoop_client self) (nn_calls w)),
            {| clock := clock w; nn_calls := S (nn_calls w);
               rm_calls := rm_calls w; log := log w |}).

(** [await self.hadoop_client.get_resourcemanager_status()]. *)
Definition call_get_resourcemanager_status (task : Task) (self : FailoverManager)
    : M World HAStatus :=
  fun w => (awaited (cancelled_in_resourcemanager_request task (rm_calls w))
                    (get_resourcemanager_status (hadoop_client self) (rm_calls w)),
            {| clock := clock w; nn_calls := nn_calls w;
               rm_calls := S (rm_calls w); log := log w |}).

(** *** NameNode workflow *)

(** [FailoverManager._check_namenode_status]. *)
Definition _check_namenode_status (task : Task) (self : FailoverManager) : M World StepResult :=
  ts <- now;;
  with_local
    {| step := "check_status"; step_success := false; step_timestamp := ts;
       data := Some EmptyData; command := None; output := None;
       step_error := None |}
    (try_except
       (nn_status <- outer (call_get_namenode_status task self);;
        nodes <-
          (if is_active (active nn_status) then ret ("active-nn", "standby-nn")
           else if is_active (standby nn_status) then ret ("standby-nn", "active-nn")
           else raise (Exception "No active NameNode found"));;
        let active_node := fst nodes in
        let standby_node := snd nodes in
        update_local (set_data (CheckStatus
          {| current_active := active_node;
             current_standby := standby_node;
             active_status := active nn_status;
             standby_status := standby nn_status |}));;
        update_local (set_step_success true))
       (fun e => update_local (set_step_error e))).

(** [FailoverManager._execute_namenode_failover]. *)
Definition _execute_namenode_failover (task : Task) (self : FailoverManager)
    (current_active current_standby : string) (force : bool) : M World StepResult :=
  ts <- now;;
  with_local
    {| step := "execute_failover"; step_success := false; step_timestamp := ts;
       data := None; command := Some ""; output := Some "";
       step_error := None |}
    (try_except
       (let force_flag := if force then "--forcemanual" else "" in
        let command :=
          "docker exec active-nn /usr/local/hadoop/bin/hdfs haadmin -failover "
          ++ force_flag ++ " " ++ current_active ++ " " ++ current_standby in
        update_local (set_command command);;
        (* Simulate command execution *)
        outer (sleep task 2);;
        update_local (set_output
          ("Failover from " ++ current_active ++ " to " ++ current_standby
           ++ " initiated"));;
        update_local (set_step_success true))
       (fun e => update_local (set_step_error e))).

(** The [for attempt in range(max_attempts)] loop of
    [_verify_namenode_failover], from iteration [attempt] on, with
    [remaining] iterations to go.  It returns the last binding of the
    loop variable [nn_status], [None] while it is unbound. *)
Fixpoint verify_namenode_attempts (task : Task) (self : FailoverManager) (old_active : string)
    (nn_status : option HAStatus) (attempt remaining : nat)
    : M (World * StepResult) (option HAStatus) :=
  match remaining with
  | O => ret nn_status
  | S remaining =>
      outer (sleep task 5);;
      nn_status <- outer (call_get_namenode_status task self);;
      let expected :=
        if String.eqb old_active "active-nn"
        then (is_active (standby nn_status), negb (is_active (active nn_status)))
        else (is_active (active nn_status), negb (is_active (standby nn_status))) in
      let expected_new_active := fst expected in
      let expected_new_standby := snd expected in
      if expected_new_active && expected_new_standby then
        update_local (set_data (VerifyFailover
          {| failover_verified := true;
             new_active := Some (if String.eqb old_active "active-nn"
                                 then "standby-nn" else "active-nn");
             new_standby := Some old_active;
             attempts := Some (attempt + 1)%nat;
             final_status := nn_status |}));;
        update_local (set_step_success true);;
        ret (Some nn_status)
      else
        verify_namenode_attempts task self old_active (Some nn_status) (S attempt) remaining
  end.

(** [FailoverManager._verify_namenode_failover]. *)
Definition _verify_namenode_failover (task : Task) (self : FailoverManager)
    (old_active old_standby : string) : M World StepResult :=
  ts <- now;;
  with_local
    {| step := "verify_failover"; step_success := false; step_timestamp := ts;
       data := Some EmptyData; command := None; output := None;
       step_error := None |}
    (try_except
       (let max_attempts := 6%nat in
        nn_status <- verify_namenode_attempts task self old_active None 0 max_attempts;;
        step_result <- get_local;;
        if negb (step_success step_result) then
          update_local (set_step_error
            ("Failover verification failed after "
             ++ Py.str_int (Z.of_nat max_attempts) ++ " attempts"));;
          match nn_status with
          | Some nn_status =>
              update_local (set_data (VerifyFailover
                {| failover_verified := false;
                   new_active := None; new_standby := None; attempts := None;
                   final_status := nn_status |}))
          | None =>
              raise (Exception "cannot access local variable 'nn_status' where it is not associated with a value")
          end
        else ret tt)
       (fun e => update_local (set_step_error e))).

(** [FailoverManager.namenode_failover]. *)
Definition namenode_failover (task : Task) (self : FailoverManager) (force : bool)
    : M World FailoverResult :=
  logger_call "info" "Starting NameNode failover...";;
  ts <- now;;
  with_local
    {| type := "namenode_failover"; timestamp := ts; success := false;
       steps := []; error := None |}
    (try_except
       ((* Step 1: Check current HA status *)
        step1 <- outer (_check_namenode_status task self);;
        update_local (append_step step1);;
        if negb (step_success step1)
        then raise (Exception "Failed to get initial NameNode status")
        else
          d <- match data step1 with
               | Some (CheckStatus d) => ret d
               | _ => raise (Exception "'current_active'")
               end;;
          let current_active := current_active d in
          let current_standby := current_standby d in
          (* Step 2: Perform failover using hdfs haadmin command *)
          step2 <- outer (_execute_namenode_failover task self current_active
                            current_standby force);;
          update_local (append_step step2);;
          if negb (step_success step2)
          then raise (Exception ("Failover command failed: " ++ fmt (step_error step2)))
          else
            (* Step 3: Wait and verify new status *)
            outer (sleep task 10);;
            step3 <- outer (_verify_namenode_failover task self current_active
                              current_standby);;
            update_local (append_step step3);;
            update_local (set_success (step_success step3));;
            failover_result <- get_local;;
            if success failover_result
            then outer (logger_call "info" "NameNode failover completed successfully")
            else outer (logger_call "error" "NameNode failover verification failed"))
       (fun error_msg =>
          outer (logger_call "error" ("NameNode failover failed: " ++ error_msg));;
          update_local (set_error error_msg);;
          ts <- outer now;;
          update_local (append_step
            {| step := "error"; step_success := false; step_error := Some error_msg;
               step_timestamp := ts;
               data := None; command := None; output := None |}))).

(** *** ResourceManager workflow *)

(** [FailoverManager._check_resourcemanager_status]. *)
Definition _check_resourcemanager_status (task : Task) (self : FailoverManager) : M World StepResult :=
  ts <- now;;
  with_local
    {| step := "check_status"; step_success := false; step_timestamp := ts;
       data := Some EmptyData; command := None; output := None;
       step_error := None |}
    (try_except
       (rm_status <- outer (call_get_resourcemanager_status task self);;
        nodes <-
          (if is_active (active rm_status) then ret ("active-rm", "standby-rm")
           else if is_active (standby rm_status) then ret ("standby-rm", "active-rm")
           else raise (Exception "No active ResourceManager found"));;
        let active_node := fst nodes in
        let standby_node := snd nodes in
        update_local (set_data (CheckStatus
          {| current_active := active_node;
             current_standby := standby_node;
             active_status := active rm_status;
             standby_status := standby rm_status |}));;
        update_local (set_step_success true))
       (fun e => update_local (set_step_error e))).

(** [FailoverManager._execute_resourcemanager_failover]. *)
Definition _execute_resourcemanager_failover (task : Task) (self : FailoverManager)
    (current_active current_standby : string) (force : bool) : M World StepResult :=
  ts <- now;;
  with_local
    {| step := "execute_failover"; step_success := false; step_timestamp := ts;
       data := None; command := Some ""; output := Some "";
       step_error := None |}
    (try_except
       (let force_flag := if force then "--forcemanual" else "" in
        let command :=
          "docker exec active-rm /usr/local/hadoop/bin/yarn rmadmin -failover "
          ++ force_flag ++ " " ++ current_active ++ " " ++ current_standby in
        update_local (set_command command);;
        (* Simulate command execution *)
        outer (sleep task 2);;
        update_local (set_output
          ("ResourceManager failover from " ++ current_active ++ " to " ++ current_standby
           ++ " initiated"));;
        update_local (set_step_success true))
       (fun e => update_local (set_step_error e))).

(** The [for attempt in range(max_attempts)] loop of
    [_verify_resourcemanager_failover], from iteration [attempt] on, with
    [remaining] iterations to go.  It returns the last binding of the
    loop variable [rm_status], [None] while it is unbound. *)
Fixpoint verify_resourcemanager_attempts (task : Task) (self : FailoverManager) (old_active : string)
    (rm_status : option HAStatus) (attempt remaining : nat)
    : M (World * StepResult) (option HAStatus) :=
  match remaining with
  | O => ret rm_status
  | S remaining =>
      outer (sleep task 5);;
      rm_status <- outer (call_get_resourcemanager_status task self);;
      let expected :=
        if String.eqb old_active "active-rm"
        then (is_active (standby rm_status), negb (is_active (active rm_status)))
        else (is_active (active rm_status), negb (is_active (standby rm_status))) in
      let expected_new_active := fst expected in
      let expected_new_standby := snd expected in
      if expected_new_active && expected_new_standby then
        update_local (set_data (VerifyFailover
          {| failover_verified := true;
             new_active := Some (if String.eqb old_active "active-rm"
                                 then "standby-rm" else "active-rm");
             new_standby := Some old_active;
             attempts := Some (attempt + 1)%nat;
             final_status := rm_status |}));;
        update_local (set_step_success true);;
        ret (Some rm_status)
      else
        verify_resourcemanager_attempts task self old_active (Some rm_status) (S attempt) remaining
  end.

(** [FailoverManager._verify_resourcemanager_failover]. *)
Definition _verify_resourcemanager_failover (task : Task) (self : FailoverManager)
    (old_active old_standby : string) : M World StepResult :=
  ts <- now;;
  with_local
    {| step := "verify_failover"; step_success := false; step_timestamp := ts;
       data := Some EmptyData; command := None; output := None;
       step_error := None |}
    (try_except
       (let max_attempts := 6%nat in
        rm_status <- verify_resourcemanager_attempts task self old_active None 0 max_attempts;;
        step_result <- get_local;;
        if negb (step_success step_result) then
          update_local (set_step_error
            ("Failover verification failed after "
             ++ Py.str_int (Z.of_nat max_attempts) ++ " attempts"));;
          match rm_status with
          | Some rm_status =>
              update_local (set_data (VerifyFailover
                {| failover_verified := false;
                   new_active := None; new_standby := None; attempts := None;
                   final_status := rm_status |}))
          | None =>
              raise (Exception "cannot access local variable 'rm_status' where it is not associated with a value")
          end
        else ret tt)
       (fun e => update_local (set_step_error e))).

(** [FailoverManager.resourcemanager_failover]. *)
Definition resourcemanager_failover (task : Task) (self : FailoverManager) (force : bool)
    : M World FailoverResult :=
  logger_call "info" "Starting ResourceManager failover...";;
  ts <- now;;
  with_local
    {| type := "resourcemanager_failover"; timestamp := ts; success := false;
       steps := []; error := None |}
    (try_except
       ((* Step 1: Check current RM status *)
        step1 <- outer (_check_resourcemanager_status task self);;
        update_local (append_step step1);;
        if negb (step_success step1)
        then raise (Exception "Failed to get initial ResourceManager status")
        else
          d <- match data step1 with
               | Some (CheckStatus d) => ret d
               | _ => raise (Exception "'current_active'")
               end;;
          let current_active := current_active d in
          let current_standby := current_standby d in
          (* Step 2: Perform failover *)
          step2 <- outer (_execute_resourcemanager_failover task self current_active
                            current_standby force);;
          update_local (append_step step2);;
          if negb (step_success step2)
          then raise (Exception ("Failover command failed: " ++ fmt (step_error step2)))
          else
            (* Step 3: Wait and verify *)
            outer (sleep task 10);;
            step3 <- outer (_verify_resourcemanager_failover task self current_active
                              current_standby);;
            update_local (append_step step3);;
            update_local (set_success (step_success step3));;
            failover_result <- get_local;;
            if success failover_result
            then outer (logger_call "info" "ResourceManager failover completed successfully")
            else outer (logger_call "error" "ResourceManager failover verification failed"))
       (fun error_msg =>
          outer (logger_call "error" ("ResourceManager failover failed: " ++ error_msg));;
          update_local (set_error error_msg);;
          ts <- outer now;;
          update_local (append_step
            {| step := "error"; step_success := false; step_error := Some error_msg;
               step_timestamp := ts;
               data := None; command := None; output := None |}))).

End Cancellation.


(** * Vocabulary of the statements *)

(** ** Health score, buffers and events *)

Module MonitoringSpec.
Import Monitoring.

(** *** The scoring policy in words: four pillars *)

(** A slot or a service is reported healthy. *)
Definition reported_healthy (flag : option bool) : bool :=
  bool_decide (flag = Some true).

(** One control-plane service: 15 points for a healthy active slot that
    reports "active", 10 for a healthy standby slot that reports
    "standby". *)
Definition ha_pillar (m : HAMetrics) : Z :=
  (if reported_healthy (active_healthy m)
      && bool_decide (active_state m = Some "active")
   then 15 else 0)
  + (if reported_healthy (standby_healthy m)
        && bool_decide (standby_state m = Some "standby")
     then 10 else 0).

(** One worker-node class: the share healthy/total of 15 points, rounded
    down, when the class has nodes. *)
Definition node_class_share (total healthy : N) : Z :=
  if (0 <? total)%N
  then Qfloor (inject_Z (Z.of_N healthy) / inject_Z (Z.of_N total) * 15)
  else 0.

(** One auxiliary service: 10 points when it is reachable. *)
Definition auxiliary_service (reachable : option bool) : Z :=
  if reported_healthy reachable then 10 else 0.

Definition health_score (m : Metrics) : Z :=
  ha_pillar (namenode_metrics m)
  + ha_pillar (resourcemanager_metrics m)
  + node_class_share (default 1%N (total_datanodes (node_metrics m)))
                     (default 0%N (healthy_datanodes (node_metrics m)))
  + node_class_share (default 1%N (total_nodemanagers (node_metrics m)))
                     (default 0%N (healthy_nodemanagers (node_metrics m)))
  + auxiliary_service (historyserver_healthy (service_metrics m))
  + auxiliary_service (hive_healthy (service_metrics m)).

(** The status thresholds on the integer score. *)
Definition status_of_score (s : Z) : string :=
  if 90 <=? s then "excellent"
  else if 75 <=? s then "good"
  else if 50 <=? s then "warning"
  else "critical".

(** In a class that has nodes, no more nodes are healthy than there are. *)
Definition class_consistent (total healthy : N) : Prop :=
  (0 < total -> healthy <= total)%N.

Definition nodes_consistent (n : NodeMetrics) : Prop :=
  class_consistent (default 1%N (total_datanodes n)) (default 0%N (healthy_datanodes n))
  /\ class_consistent (default 1%N (total_nodemanagers n))
                      (default 0%N (healthy_nodemanagers n)).



(** *** Sample snapshots *)

Definition pair_metrics (active_ok standby_ok : bool) (a s : string) : HAMetrics :=
  {| active_healthy := Some active_ok; standby_healthy := Some standby_ok;
     active_state := Some a; standby_state := Some s; ha_enabled := Some true |}.

Definition node_counts (total_dn healthy_dn total_nm healthy_nm : N) : NodeMetrics :=
  {| total_datanodes := Some total_dn; healthy_datanodes := Some healthy_dn;
     total_nodemanagers := Some total_nm; healthy_nodemanagers := Some healthy_nm;
     total_journalnodes := Some 3%N; healthy_journalnodes := Some 3%N |}.

Definition aux_services (historyserver hive : bool) : ServiceMetrics :=
  {| historyserver_healthy := Some historyserver; hive_healthy := Some hive |}.

Definition snapshot (nn rm : HAMetrics) (n : NodeMetrics) (s : ServiceMetrics)
    (p : PerformanceMetrics) : Metrics :=
  {| timestamp := "2024-01-01T00:00:00"; cluster_health := None;
     namenode_metrics := nn; resourcemanager_metrics := rm;
     node_metrics := n; service_metrics := s; performance_metrics := p;
     error := None |}.

Definition with_health (m : Metrics) : Metrics :=
  {| timestamp := timestamp m;
     cluster_health := Some (_calculate_cluster_health m);
     namenode_metrics := namenode_metrics m;
     resourcemanager_metrics := resourcemanager_metrics m;
     node_metrics := node_metrics m; service_metrics := service_metrics m;
     performance_metrics := performance_metrics m; error := error m |}.

(** Everything healthy, 10 of 10 nodes in both classes. *)
Definition all_healthy : Metrics :=
  snapshot (pair_metrics true true "active" "standby") (pair_metrics true true "active" "standby")
           (node_counts 10 10 10 10) (aux_services true true) empty_performance.


(** What the client reports for a cluster of [dn] DataNodes and three
    NodeManagers, one of them lost, behind two pairs in order. *)
Definition pair_in_order : PairStatus :=
  {| active := Some {| healthy := Some true; ha_state := Some "active"; metrics := None |};
     standby := Some {| healthy := Some true; ha_state := Some "standby"; metrics := None |};
     pair_ha_enabled := Some true |}.

Definition node_in_state (state : string) : NodeInfo :=
  {| node_state := Some state; node_healthy := None |}.

Definition small_cluster : ClusterStatus :=
  {| namenode := Some pair_in_order;
     resourcemanager := Some pair_in_order;
     nodes := Some
       {| datanodes := Some [node_in_state "NORMAL"; node_in_state "NORMAL";
                             node_in_state "DECOMMISSIONED"];
          nodemanagers := Some [node_in_state "RUNNING"; node_in_state "RUNNING";
                                node_in_state "LOST"];
          journalnodes := None |};
     services := Some {| historyserver := Some (Some true); hive := None |} |}.

(** Both pairs in order, no worker node healthy, no auxiliary service. *)
Definition score_50 : Metrics :=
  snapshot (pair_metrics true true "active" "standby") (pair_metrics true true "active" "standby")
           (node_counts 4 0 4 0) (aux_services false false) empty_performance.

(** As [score_50], with the standby ResourceManager down and 3 of 5
    DataNodes healthy. *)
Definition score_49 : Metrics :=
  snapshot (pair_metrics true true "active" "standby") (pair_metrics true false "active" "unreachable")
           (node_counts 5 3 4 0) (aux_services false false) empty_performance.

(** The standby ResourceManager is down, 8 of 10 nodes are healthy in
    each class, both auxiliary services are up. *)
Definition degraded : Metrics :=
  snapshot (pair_metrics true true "active" "standby")
           (pair_metrics true false "active" "unreachable")
           (node_counts 10 8 10 8) (aux_services true true) empty_performance.

(** One of two DataNodes healthy: half of 15 points. *)
Definition half_datanodes : Metrics :=
  snapshot empty_ha empty_ha (node_counts 2 1 0 0) (aux_services false false) empty_performance.

(** A healthy cluster with eleven applications pending. *)
Definition backlog : Metrics :=
  with_health
    (snapshot (pair_metrics true true "active" "standby") (pair_metrics true true "active" "standby")
       (node_counts 10 10 10 10) (aux_services true true)
       {| total_memory := Some 1000; available_memory := Some 900;
          allocated_memory := Some 100; total_vcores := Some 8;
          available_vcores := Some 8; allocated_vcores := Some 0;
          active_nodes := Some 10; decommissioned_nodes := Some 0;
          lost_nodes := Some 0; unhealthy_nodes := Some 0;
          running_apps := Some 11; pending_apps := Some 11 |}).

(** The healthy cluster, and the same cluster after the NameNodes
    swapped roles, the standby ResourceManager went down and two
    DataNodes were lost. *)
Definition before_incident : Metrics := with_health all_healthy.

Definition after_incident : Metrics :=
  with_health
    (snapshot (pair_metrics true true "standby" "active") (pair_metrics true false "active" "unreachable")
       (node_counts 10 8 10 10) (aux_services true true) empty_performance).

(** *** Buffers *)

(** The [n] most recent entries of a buffer, oldest first. *)
Definition most_recent {A} (n : nat) (l : list A) : list A := drop (length l - n) l.

(** An append to one of the two buffers. *)
Inductive Append :=
| AppendSnapshot (metrics : Metrics)
| AppendLog (level message timestamp : string).

Definition perform (st : State) (a : Append) : State :=
  match a with
  | AppendSnapshot metrics => on_self (_add_to_history metrics) st
  | AppendLog level message timestamp => _add_log level message timestamp st
  end.

(** Everything that a sequence of appends handed to each buffer, in order. *)
Definition appended_snapshots (ops : list Append) : list Metrics :=
  omap (fun a => match a with AppendSnapshot m => Some m | _ => None end) ops.

Definition appended_logs (ops : list Append) : list LogEntry :=
  omap (fun a => match a with
                 | AppendLog l m t =>
                     Some {| log_timestamp := t; level := l; message := m |}
                 | _ => None
                 end) ops.

(** A monitor right after construction. *)
Definition fresh : State := {| self := __init__; logger := [] |}.

(** A monitor holding more snapshots than a read asks for. *)
Definition three_snapshots : ClusterMonitor :=
  set_logs [ {| log_timestamp := "t1"; level := "info"; message := "first" |};
             {| log_timestamp := "t2"; level := "info"; message := "second" |} ]
    (set_metrics_history [score_50; score_49; all_healthy] __init__).

(** *** Events *)

(** The three kinds of difference that the event check reports. *)
Definition reported_states (m : Metrics) : list (option string) :=
  [ active_state (namenode_metrics m); standby_state (namenode_metrics m);
    active_state (resourcemanager_metrics m);
    standby_state (resourcemanager_metrics m) ].

Definition status_category (m : Metrics) : option string :=
  status <$> cluster_health m.

Definition issue_set (m : Metrics) : gset string :=
  list_to_set (default [] (issues <$> cluster_health m)).

Definition differing_categories (previous current : Metrics) : nat :=
  (if decide (reported_states current = reported_states previous) then 0 else 1)
  + (if decide (status_category current = status_category previous) then 0 else 1)
  + (if decide (issue_set current = issue_set previous) then 0 else 1).

(** No performance threshold is crossed: memory use is at most 85 %
    (or no memory is reported) and at most 10 applications are pending. *)
Definition performance_quiet (m : Metrics) : Prop :=
  let perf := performance_metrics m in
  (default 0 (total_memory perf) <= 0 \/ (memory_usage_of perf <= 85)%Q)
  /\ default 0 (pending_apps perf) <= 10.

(** A monitor whose history ends with [previous] and [current]. *)
Definition after_two_cycles (previous current : Metrics) : State :=
  on_self (_add_to_history current) (on_self (_add_to_history previous) fresh).

End MonitoringSpec.

(** ** Failover workflows *)

Module FailoverSpec.
Import Failover.

(** *** How the world moves *)

Definition logged (method message : string) (w : World) : World :=
  {| clock := clock w; nn_calls := nn_calls w; rm_calls := rm_calls w;
     log := Py.append (log w) (method, message) |}.

Definition slept (seconds : nat) (w : World) : World :=
  {| clock := clock w + seconds; nn_calls := nn_calls w; rm_calls := rm_calls w;
     log := log w |}.

(** One more status request has been answered. *)
Definition nn_polled (w : World) : World :=
  {| clock := clock w; nn_calls := S (nn_calls w); rm_calls := rm_calls w;
     log := log w |}.

Definition rm_polled (w : World) : World :=
  {| clock := clock w; nn_calls := nn_calls w; rm_calls := S (rm_calls w);
     log := log w |}.

(** [n] verification attempts have been made: each sleeps 5 seconds and
    makes one status request. *)
Definition nn_attempts_made (n : nat) (w : World) : World :=
  {| clock := clock w + 5 * n; nn_calls := nn_calls w + n;
     rm_calls := rm_calls w; log := log w |}.

Definition rm_attempts_made (n : nat) (w : World) : World :=
  {| clock := clock w + 5 * n; nn_calls := nn_calls w;
     rm_calls := rm_calls w + n; log := log w |}.

(** *** The switch condition

    The node that was standby now reports active, and the node that was
    active no longer does. *)
Definition nn_switch_seen (old_active : string) (st : HAStatus) : bool :=
  if String.eqb old_active "active-nn"
  then is_active (standby st) && negb (is_active (active st))
  else is_active (active st) && negb (is_active (standby st)).

Definition rm_switch_seen (old_active : string) (st : HAStatus) : bool :=
  if String.eqb old_active "active-rm"
  then is_active (standby st) && negb (is_active (active st))
  else is_active (active st) && negb (is_active (standby st)).

(** The [k] status requests from request number [from] on all return,
    and none of them shows the switch. *)
Definition nn_no_switch (self : FailoverManager) (old_active : string)
    (from k : nat) : Prop :=
  forall j, (j < k)%nat ->
    exists st, get_namenode_status (hadoop_client self) (from + j) = inr st
               /\ nn_switch_seen old_active st = false.

Definition rm_no_switch (self : FailoverManager) (old_active : string)
    (from k : nat) : Prop :=
  forall j, (j < k)%nat ->
    exists st, get_resourcemanager_status (hadoop_client self) (from + j) = inr st
               /\ rm_switch_seen old_active st = false.

(** The status check finds the roles: the first status request returns
    with at least one slot active, and [old_active] is the node that the
    check takes as the active one. *)
Definition nn_roles_found (self : FailoverManager) (w : World)
    (old_active : string) : Prop :=
  exists st, get_namenode_status (hadoop_client self) (nn_calls w) = inr st
    /\ is_active (active st) || is_active (standby st) = true
    /\ old_active = (if is_active (active st) then "active-nn" else "standby-nn").

Definition rm_roles_found (self : FailoverManager) (w : World)
    (old_active : string) : Prop :=
  exists st, get_resourcemanager_status (hadoop_client self) (rm_calls w) = inr st
    /\ is_active (active st) || is_active (standby st) = true
    /\ old_active = (if is_active (active st) then "active-rm" else "standby-rm").

(** *** Step dictionaries *)

Definition check_passed (ts : nat) (current_active current_standby : string)
    (st : HAStatus) : StepResult :=
  {| step := "check_status"; step_success := true; step_timestamp := ts;
     data := Some (CheckStatus
       {| current_active := current_active; current_standby := current_standby;
          active_status := active st; standby_status := standby st |});
     command := None; output := None; step_error := None |}.

Definition check_failed (ts : nat) (msg : string) : StepResult :=
  {| step := "check_status"; step_success := false; step_timestamp := ts;
     data := Some EmptyData; command := None; output := None;
     step_error := Some msg |}.

Definition verify_start (ts : nat) : StepResult :=
  {| step := "verify_failover"; step_success := false; step_timestamp := ts;
     data := Some EmptyData; command := None; output := None; step_error := None |}.

Definition verified (old_active new_active : string) (attempt : nat) (st : HAStatus)
    (sr : StepResult) : StepResult :=
  set_step_success true (set_data (VerifyFailover
    {| failover_verified := true; new_active := Some new_active;
       new_standby := Some old_active; attempts := Some attempt;
       final_status := st |}) sr).

Definition unverified (ts : nat) (st : HAStatus) : StepResult :=
  {| step := "verify_failover"; step_success := false; step_timestamp := ts;
     data := Some (VerifyFailover
       {| failover_verified := false; new_active := None; new_standby := None;
          attempts := None; final_status := st |});
     command := None; output := None;
     step_error := Some "Failover verification failed after 6 attempts" |}.

Definition error_step (ts : nat) (msg : string) : StepResult :=
  {| step := "error"; step_success := false; step_timestamp := ts;
     data := None; command := None; output := None; step_error := Some msg |}.

(** *** Shapes of a workflow result *)

(** The verification step was reached and succeeded. *)
Definition verification_succeeded (r : FailoverResult) : Prop :=
  exists s1 s2 s3, steps r = [s1; s2; s3]
    /\ step s3 = "verify_failover" /\ step_success s3 = true.

(** The workflow stopped after an unsuccessful status check. *)
Definition aborted_at_check (msg : string) (r : FailoverResult) : Prop :=
  exists s1 ts, steps r = [s1; error_step ts msg]
    /\ step s1 = "check_status" /\ step_success s1 = false
    /\ success r = false /\ error r = Some msg.

(** The workflow ran all three steps. *)
Definition ran_to_verification (r : FailoverResult) : Prop :=
  exists s1 s2 s3, steps r = [s1; s2; s3]
    /\ step s1 = "check_status" /\ step_success s1 = true
    /\ step s2 = "execute_failover" /\ step_success s2 = true
    /\ step s3 = "verify_failover"
    /\ success r = step_success s3 /\ error r = None.

(** A status request numbered in [first, next) raised [e]. *)
Definition raised_during (probe : nat -> string + HAStatus) (first next : nat)
    (e : string) : Prop :=
  exists k, (first <= k < next)%nat /\ probe k = inl e.

(** The exception [e] shows as the top-level error and as a closing
    step of kind "error". *)
Definition surfaced (r : FailoverResult) (e : string) : Prop :=
  error r = Some e
  /\ exists s, last (steps r) = Some s /\ step s = "error" /\ step_error s = Some e.

(** *** Sample clients *)

Definition slot (role : string) (is_active : bool) : HealthRecord :=
  let ha_state := if is_active then "active" else "standby" in
  {| url := "http://" ++ role ++ ":9870"; healthy := true; ha_state := ha_state;
     is_active := is_active; expected_role := role;
     role_correct := String.eqb ha_state role; probe_error := None |}.

Definition pair (active_is_active standby_is_active : bool) : HAStatus :=
  {| active := slot "active" active_is_active;
     standby := slot "standby" standby_is_active; ha_enabled := true |}.

Definition manager (probe : nat -> string + HAStatus) : FailoverManager :=
  {| hadoop_client :=
       {| get_namenode_status := probe; get_resourcemanager_status := probe |} |}.

(** The active node stays active whatever is asked of it. *)
Definition steady : FailoverManager := manager (fun _ => inr (pair true false)).

(** Both nodes report active. *)
Definition split_brain : FailoverManager := manager (fun _ => inr (pair true true)).

(** Neither node reports active. *)
Definition no_active : FailoverManager := manager (fun _ => inr (pair false false)).

(** The client answers once and raises from then on. *)
Definition flaky : FailoverManager :=
  manager (fun k => match k with
                    | O => inr (pair true false)
                    | S _ => inl "connection refused"
                    end).

(** The client is down from the start. *)
Definition unreachable : FailoverManager := manager (fun _ => inl "connection refused").

(** The roles switch between the third and the fourth request. *)
Definition switching : FailoverManager :=
  manager (fun k => if (k <? 3)%nat then inr (pair true false)
                    else inr (pair false true)).

Definition start : World := {| clock := 0; nn_calls := 0; rm_calls := 0; log := [] |}.

End FailoverSpec.

(** ** Words used to state the facts about cancellation *)

Module CancellationSpec.
Import Failover FailoverSpec.
Import Cancellation.

(** A task that nobody cancels. *)
Definition quiet (task : Task) : Prop :=
  (forall k, cancelled_in_namenode_request task k = false)
  /\ (forall k, cancelled_in_resourcemanager_request task k = false)
  /\ (forall c, cancelled_in_sleep task c = false).

(** An outcome of module [Failover], read as an outcome here: what it
    raises is an [Exception]. *)
Definition as_exception {S A} (r : (string + A) * S) : (Raised + A) * S :=
  match r with
  | (inl msg, s) => (inl (Exception msg), s)
  | (inr a, s) => (inr a, s)
  end.

(** The computation [c] does what [c0] does in module [Failover],
    unless the task is cancelled on the way; then it raises
    [CancelledError]. *)
Definition follows {S A} (task : Task) (c : Cancellation.M S A) (c0 : Failover.M S A)
    : Prop :=
  forall s, c s = as_exception (c0 s)
            \/ (~ quiet task /\ exists s', c s = (inl CancelledError, s')).

(** The run returns a value of which [P] holds. *)
Definition returns {S A} (run : (Raised + A) * S) (P : A -> Prop) : Prop :=
  exists a s', run = (inr a, s') /\ P a.

(** The run ends with [CancelledError] raised to the caller. *)
Definition cancelled {S A} (run : (Raised + A) * S) : Prop :=
  exists s', run = (inl CancelledError, s').

(** The run ends with an exception derived from [Exception] raised to
    the caller. *)
Definition raises_exception {S A} (run : (Raised + A) * S) : Prop :=
  exists msg s', run = (inl (Exception msg), s').

(** What a returned NameNode result tells. *)
Definition namenode_result_complete (self : FailoverManager) (w : World)
    (r : FailoverResult) : Prop :=
  (success r = true <-> verification_succeeded r)
  /\ (aborted_at_check "Failed to get initial NameNode status" r
      \/ ran_to_verification r)
  /\ (forall e,
        get_namenode_status (hadoop_client self) (nn_calls w) = inl e ->
        steps r = [check_failed (clock w) e;
                   error_step (clock w) "Failed to get initial NameNode status"]
        /\ error r = Some "Failed to get initial NameNode status")
  /\ (forall old_active k e,
        nn_roles_found self w old_active -> (k < 6)%nat ->
        nn_no_switch self old_active (S (nn_calls w)) k ->
        get_namenode_status (hadoop_client self) (S (nn_calls w) + k) = inl e ->
        exists s1 s2 s3, steps r = [s1; s2; s3]
          /\ step s3 = "verify_failover" /\ step_success s3 = false
          /\ step_error s3 = Some e
          /\ success r = false /\ error r = None).

(** What a returned ResourceManager result tells. *)
Definition resourcemanager_result_complete (self : FailoverManager) (w : World)
    (r : FailoverResult) : Prop :=
  (success r = true <-> verification_succeeded r)
  /\ (aborted_at_check "Failed to get initial ResourceManager status" r
      \/ ran_to_verification r)
  /\ (forall e,
        get_resourcemanager_status (hadoop_client self) (rm_calls w) = inl e ->
        steps r = [check_failed (clock w) e;
                   error_step (clock w) "Failed to get initial ResourceManager status"]
        /\ error r = Some "Failed to get initial ResourceManager status")
  /\ (forall old_active k e,
        rm_roles_found self w old_active -> (k < 6)%nat ->
        rm_no_switch self old_active (S (rm_calls w)) k ->
        get_resourcemanager_status (hadoop_client self) (S (rm_calls w) + k) = inl e ->
        exists s1 s2 s3, steps r = [s1; s2; s3]
          /\ step s3 = "verify_failover" /\ step_success s3 = false
          /\ step_error s3 = Some e
          /\ success r = false /\ error r = None).

(** *** Sample tasks *)

(** Nobody cancels the task. *)
Definition undisturbed : Task :=
  {| cancelled_in_namenode_request := fun _ => false;
     cancelled_in_resourcemanager_request := fun _ => false;
     cancelled_in_sleep := fun _ => false |}.

(** The task is cancelled while the command runs: during the sleep of
    the execute step, which starts when the clock shows 0. *)
Definition cancelled_during_command : Task :=
  {| cancelled_in_namenode_request := fun _ => false;
     cancelled_in_resourcemanager_request := fun _ => false;
     cancelled_in_sleep := fun c => (c =? 0)%nat |}.

(** The task is cancelled during the wait of 10 seconds between the
    command and the verification, which starts when the clock shows 2. *)
Definition cancelled_before_verification : Task :=
  {| cancelled_in_namenode_request := fun _ => false;
     cancelled_in_resourcemanager_request := fun _ => false;
     cancelled_in_sleep := fun c => (c =? 2)%nat |}.

(** The task is cancelled while it awaits its first status request. *)
Definition cancelled_at_first_request : Task :=
  {| cancelled_in_namenode_request := fun k => (k =? 0)%nat;
     cancelled_in_resourcemanager_request := fun k => (k =? 0)%nat;
     cancelled_in_sleep := fun _ => false |}.

End CancellationSpec.


(** * Facts about monitoring.py *)

Module MonitoringFacts.
Import Monitoring MonitoringSpec.

(** ** Arithmetic of the score *)

(** Rounding down the exact share is integer division of [15 * healthy]
    by [total]. *)
Lemma node_class_share_div (t h : N) :
  node_class_share t h = if (0 <? t)%N then (15 * Z.of_N h) / Z.of_N t else 0.
Proof.
  unfold node_class_share. destruct t as [|p]; [reflexivity|].
  cbn [N.ltb N.compare]. unfold Qfloor, Qdiv, Qmult, Qinv. simpl.
  f_equal; lia.
Qed.

(** The truth value that [if flag:] takes is that of "reported healthy". *)
Lemma truthy_reported (flag : option bool) : Py.truthy flag = reported_healthy flag.
Proof. by destruct flag as [[|]|]. Qed.

Lemma ha_pillar_range (m : HAMetrics) : 0 <= ha_pillar m <= 25.
Proof.
  unfold ha_pillar.
  repeat match goal with |- context [if ?b then _ else _] => destruct b end; lia.
Qed.

Lemma auxiliary_service_range (r : option bool) : 0 <= auxiliary_service r <= 10.
Proof. unfold auxiliary_service. destruct (reported_healthy r); lia. Qed.

(** The accumulation of [health_score] in the code, read as a sum. *)
Lemma score_unfold (m : Metrics) :
  score (_calculate_cluster_health m) =
    ha_pillar (namenode_metrics m)
    + ha_pillar (resourcemanager_metrics m)
    + Binary64.node_share (default 1%N (total_datanodes (node_metrics m)))
                          (default 0%N (healthy_datanodes (node_metrics m)))
    + Binary64.node_share (default 1%N (total_nodemanagers (node_metrics m)))
                          (default 0%N (healthy_nodemanagers (node_metrics m)))
    + auxiliary_service (historyserver_healthy (service_metrics m))
    + auxiliary_service (hive_healthy (service_metrics m)).
Proof.
  unfold _calculate_cluster_health, ha_pillar, auxiliary_service, Binary64.node_share.
  cbn [score]. rewrite <- !truthy_reported.
  repeat match goal with
         | |- context [if ?b then _ else _] => destruct b
         end; lia.
Qed.

(** The status is chosen from the double [(score / 100) * 100]. *)
Lemma status_of_health (m : Metrics) :
  status (_calculate_cluster_health m)
  = Binary64.status (score (_calculate_cluster_health m)).
Proof. reflexivity. Qed.

Lemma percentage_of_health (m : Metrics) :
  percentage (_calculate_cluster_health m)
  = Binary64.percentage (score (_calculate_cluster_health m)).
Proof. reflexivity. Qed.

(** ** Doubles that stay below an integer bound

    The share of a node class is computed by a division and a product
    on doubles.  Each of them rounds a number that is at most an integer
    [K], and the result is then at most [K]: rounding never steps over
    a number that is itself a double. *)

Lemma pow2_step (e : Z) : e + 1 <= 0 -> 2 ^ (- e) = 2 * 2 ^ (- (e + 1)).
Proof.
  intros He. replace (- e) with (Z.succ (- (e + 1))) by lia.
  rewrite Z.pow_succ_r by lia. reflexivity.
Qed.

Lemma shr_1_at_most (K : Z) (mrs : shr_record) (e : Z) :
  Binary64.record_at_most K mrs e -> e + 1 <= 0 ->
  Binary64.record_at_most K (shr_1 mrs) (e + 1).
Proof.
  intros (He & Hm & Hle) He'. rewrite (pow2_step e He') in Hle.
  destruct mrs as [m r s]. cbn [shr_m shr_r shr_s] in *.
  split; [exact He'|].
  destruct m as [|p|p]; [| |lia].
  - destruct r, s; cbn in *; split; lia.
  - destruct p as [p|p|]; destruct r, s; cbn [shr_1 shr_m shr_r shr_s orb] in *;
      split; lia.
Qed.

Lemma iter_shr_1_at_most (K : Z) (n : positive) :
  forall (mrs : shr_record) (e : Z),
    Binary64.record_at_most K mrs e -> e + Z.pos n <= 0 ->
    Binary64.record_at_most K (SpecFloat.iter_pos shr_1 n mrs) (e + Z.pos n).
Proof.
  induction n as [n IH|n IH|]; intros mrs e H He; cbn [SpecFloat.iter_pos].
  - replace (e + Z.pos n~1) with ((e + 1 + Z.pos n) + Z.pos n) by lia.
    apply IH; [|lia]. apply IH; [|lia]. apply shr_1_at_most; [exact H|lia].
  - replace (e + Z.pos n~0) with ((e + Z.pos n) + Z.pos n) by lia.
    apply IH; [|lia]. apply IH; [exact H|lia].
  - apply shr_1_at_most; [exact H|lia].
Qed.

Lemma shr_at_most (K : Z) (mrs : shr_record) (e n : Z) :
  Binary64.record_at_most K mrs e -> e + n <= 0 ->
  Binary64.record_at_most K (fst (shr mrs e n)) (snd (shr mrs e n)).
Proof.
  intros H He. destruct n as [|n|n]; cbn [shr fst snd]; [exact H| |exact H].
  by apply iter_shr_1_at_most.
Qed.

(** A positive number is at least [2 ^ (d - 1)] for its number [d] of
    binary digits. *)
Lemma digits2_pos_lower (p : positive) :
  2 ^ (Z.pos (digits2_pos p) - 1) <= Z.pos p.
Proof.
  induction p as [p IH|p IH|]; cbn [digits2_pos]; [| |reflexivity].
  - rewrite Pos2Z.inj_succ. replace (Z.succ (Z.pos (digits2_pos p)) - 1)
      with (Z.succ (Z.pos (digits2_pos p) - 1)) by lia.
    rewrite Z.pow_succ_r by lia. lia.
  - rewrite Pos2Z.inj_succ. replace (Z.succ (Z.pos (digits2_pos p)) - 1)
      with (Z.succ (Z.pos (digits2_pos p) - 1)) by lia.
    rewrite Z.pow_succ_r by lia. lia.
Qed.

(** A number of at most [K < 2 ^ 53] units of [2 ^ e] is rounded at an
    exponent that is not positive. *)
Lemma fexp_not_positive (K m e : Z) :
  0 < K < 2 ^ 53 -> e <= 0 -> 0 <= m -> m <= K * 2 ^ (- e) ->
  fexp 53 1024 (Zdigits2 m + e) <= 0.
Proof.
  intros HK He Hm Hle. unfold fexp, emin.
  destruct m as [|p|p]; [cbn; lia| |lia].
  cbn [Zdigits2]. pose proof (digits2_pos_lower p) as Hd.
  assert (Hlt : 2 ^ (Z.pos (digits2_pos p) - 1) < 2 ^ (53 - e)).
  { eapply Z.le_lt_trans; [exact Hd|]. eapply Z.le_lt_trans; [exact Hle|].
    replace (53 - e) with (53 + - e) by lia. rewrite Z.pow_add_r by lia.
    apply Z.mul_lt_mono_pos_r; [apply Z.pow_pos_nonneg; lia|lia]. }
  apply Z.pow_lt_mono_r_iff in Hlt; lia.
Qed.

Lemma shr_fexp_at_most (K m e : Z) (l : location) :
  0 < K < 2 ^ 53 -> e <= 0 -> 0 <= m ->
  (match l with loc_Exact => m | loc_Inexact _ => m + 1 end) <= K * 2 ^ (- e) ->
  Binary64.record_at_most K (fst (shr_fexp 53 1024 m e l))
                            (snd (shr_fexp 53 1024 m e l)).
Proof.
  intros HK He Hm Hle. unfold shr_fexp. apply shr_at_most.
  - split; [exact He|]. destruct l as [|[| |]]; cbn; (split; [exact Hm|exact Hle]).
  - assert (Hm' : m <= K * 2 ^ (- e)) by (destruct l; lia).
    pose proof (fexp_not_positive K m e HK He Hm Hm'). lia.
Qed.

Lemma round_nearest_even_at_most (K : Z) (mrs : shr_record) (e : Z) :
  Binary64.record_at_most K mrs e ->
  0 <= round_nearest_even (shr_m mrs) (loc_of_shr_record mrs) <= K * 2 ^ (- e).
Proof.
  intros (He & Hm & Hle). destruct mrs as [m r s]. cbn [shr_m shr_r shr_s] in *.
  destruct r, s; cbn [loc_of_shr_record round_nearest_even orb] in *;
    try destruct (Z.even m); lia.
Qed.

(** Rounding a number that is at most [K] gives a double that is at
    most [K]. *)
Lemma binary_round_aux_at_most (K m e : Z) (l : location) :
  0 < K < 2 ^ 53 -> e <= 0 -> 0 <= m ->
  (match l with loc_Exact => m | loc_Inexact _ => m + 1 end) <= K * 2 ^ (- e) ->
  Binary64.at_most K (binary_round_aux 53 1024 false m e l).
Proof.
  intros HK He Hm Hle. unfold binary_round_aux.
  pose proof (shr_fexp_at_most K m e l HK He Hm Hle) as H1.
  destruct (shr_fexp 53 1024 m e l) as [mrs' e']. cbn [fst snd] in H1.
  pose proof (round_nearest_even_at_most K mrs' e' H1) as [H2 H3].
  destruct H1 as (He' & _).
  pose proof (shr_fexp_at_most K _ e' loc_Exact HK He' H2 H3) as H4.
  destruct (shr_fexp 53 1024 _ e' loc_Exact) as [mrs'' e'']. cbn [fst snd] in H4.
  destruct H4 as (He'' & Hm'' & Hle'').
  destruct (shr_m mrs'') as [|p|p] eqn:E; [exact I| |lia].
  replace (e'' <=? 1024 - 53) with true by (symmetry; apply Z.leb_le; lia).
  cbn [Binary64.at_most]. split; [exact He''|].
  destruct (shr_r mrs'' || shr_s mrs''); lia.
Qed.

(** The quotient of two lengths, the first at most the second, is at
    most 1. *)
Lemma truediv_at_most_1 (a b : Z) :
  0 <= a <= b -> 0 < b -> Binary64.at_most 1 (Binary64.truediv a b).
Proof.
  intros Ha Hb. unfold Binary64.truediv.
  destruct b as [|q|q]; [lia| |lia].
  destruct a as [|p|p]; [exact I| |lia].
  cbn [Binary64.of_mantissa SFdiv xorb].
  unfold SFdiv_core_binary. cbv zeta.
  set (e' := Z.min _ _).
  assert (He' : e' <= 0) by (subst e'; etransitivity; [apply Z.le_min_r|lia]).
  set (s := 0 - 0 - e'). assert (Hs : s = - e') by (subst s; lia).
  set (m' := match s with Z.pos _ => Z.shiftl (Z.pos p) s | 0 => Z.pos p | Z.neg _ => 0 end).
  assert (Hm' : m' = Z.pos p * 2 ^ s).
  { subst m'. destruct s as [|s'|s'] eqn:Es; [cbn; lia| |lia].
    rewrite Z.shiftl_mul_pow2 by lia. reflexivity. }
  pose proof (Z_div_mod m' (Z.pos q) ltac:(lia)) as Hdiv.
  destruct (Z.div_eucl m' (Z.pos q)) as [qt r]. destruct Hdiv as [Heq Hr].
  assert (Hpow : 0 < 2 ^ s) by (apply Z.pow_pos_nonneg; lia).
  assert (Hq0 : 0 <= qt) by nia.
  apply binary_round_aux_at_most; [lia|exact He'|exact Hq0|].
  rewrite <- Hs, Z.mul_1_l.
  assert (Hbound : Z.pos q * qt + r <= Z.pos q * 2 ^ s) by (rewrite <- Heq, Hm'; nia).
  assert (Hloc : new_location (Z.pos q) r
                 = if r =? 0 then loc_Exact
                   else match new_location (Z.pos q) r with
                        | loc_Exact => loc_Inexact Eq
                        | l => l
                        end).
  { unfold new_location, new_location_even, new_location_odd.
    destruct (IntDef.Z.even (Z.pos q)); destruct (r =? 0); reflexivity. }
  rewrite Hloc. destruct (Z.eqb_spec r 0) as [Hr0|Hr0]; [nia|].
  assert (qt < 2 ^ s) by nia. destruct (new_location (Z.pos q) r); lia.
Qed.

(** The product of a double that is at most 1 with 15 is at most 15. *)
Lemma mul_15_at_most (x : spec_float) :
  Binary64.at_most 1 x -> Binary64.at_most 15 (Binary64.mul x (Binary64.of_int 15)).
Proof.
  intros Hx.
  change (Binary64.of_int 15) with (S754_finite false 8444249301319680 (-49)).
  destruct x as [sx| | |[|] m e]; try contradiction; [exact I|].
  destruct Hx as [He Hm]. cbn [Binary64.mul SFmul xorb].
  apply binary_round_aux_at_most; [lia|lia|lia|].
  rewrite Pos2Z.inj_mul.
  replace (- (e + -49)) with (- e + 49) by lia. rewrite Z.pow_add_r by lia.
  change (Z.pos 8444249301319680) with (15 * 2 ^ 49).
  assert (0 < 2 ^ 49) by (apply Z.pow_pos_nonneg; lia).
  nia.
Qed.

Lemma int_at_most (K : Z) (x : spec_float) :
  0 <= K -> Binary64.at_most K x -> 0 <= Binary64.int x <= K.
Proof.
  intros HK Hx. destruct x as [sx| | |[|] m e]; try contradiction; cbn; [lia|].
  destruct Hx as [He Hm].
  destruct (Z.leb_spec 0 e) as [H0|H0].
  - assert (e = 0) by lia. subst e. cbn in *. lia.
  - assert (Hp : 0 < 2 ^ (- e)) by (apply Z.pow_pos_nonneg; lia).
    split; [apply Z.div_pos; lia|].
    apply Z.div_le_upper_bound; lia.
Qed.

(** The share of a class in which no more nodes are healthy than there
    are lies between 0 and 15, whatever the size of the class. *)
Lemma node_share_range (total healthy : N) :
  class_consistent total healthy ->
  0 <= Binary64.node_share total healthy <= 15.
Proof.
  intros H. unfold Binary64.node_share.
  destruct (Z.ltb_spec 0 (Z.of_N total)) as [Ht|Ht]; [|lia].
  assert (Hle : (healthy <= total)%N) by (apply H; lia).
  apply int_at_most; [lia|]. apply mul_15_at_most.
  apply truediv_at_most_1; lia.
Qed.

(** ** Agreement of the doubles with the exact values *)

Lemma forallb_upto (f : nat -> bool) (bound n : nat) :
  forallb f (seq 0 (S bound)) = true -> (n <= bound)%nat -> f n = true.
Proof.
  intros H Hn. rewrite forallb_forall in H. apply H. apply in_seq. lia.
Qed.


Lemma statuses_agree_sound (exact : Z -> string) (bound : nat) :
  Binary64.statuses_agree exact bound = true ->
  forall s : Z, 0 <= s -> (Z.to_nat s <= bound)%nat -> Binary64.status s = exact s.
Proof.
  unfold Binary64.statuses_agree. intros Hall s Hs Hb.
  pose proof (forallb_upto _ _ _ Hall Hb) as H1. cbv beta in H1.
  rewrite Z2Nat.id in H1 by lia. by apply bool_decide_eq_true in H1.
Qed.


Lemma statuses_agree_100 : Binary64.statuses_agree status_of_score 100 = true.
Proof. vm_compute. reflexivity. Qed.


(** On every score from 0 to 100 the status chosen from the double
    percentage is the status that the thresholds give on the score. *)
Lemma binary64_status_agrees (s : Z) :
  0 <= s <= 100 -> Binary64.status s = status_of_score s.
Proof.
  intros Hs. apply (statuses_agree_sound status_of_score 100 statuses_agree_100); lia.
Qed.

(** The double percentage itself can fall just below the score:
    (57 / 100) * 100 is 56.99999999999999. *)
Example binary64_percentage_of_57 :
  Binary64.percentage 57 = S754_finite false 8022036836253695 (-47)
  /\ Binary64.int (Binary64.percentage 57) = 56.
Proof. split; vm_compute; reflexivity. Qed.

(** Integers beyond 53 bits are divided as they are: the quotient of
    [2 ^ 60 + 1] by itself is 1. *)
Example truediv_of_long_integers :
  Binary64.truediv (2 ^ 60 + 1) (2 ^ 60 + 1) = Binary64.of_int 1
  /\ Binary64.truediv 1 3 = S754_finite false 6004799503160661 (-54)
  /\ Binary64.truediv 2 3 = S754_finite false 6004799503160661 (-53).
Proof. repeat split; vm_compute; reflexivity. Qed.

Example status_at_50 :
  score (_calculate_cluster_health score_50) = 50
  /\ status (_calculate_cluster_health score_50) = "warning".
Proof. split; vm_compute; reflexivity. Qed.

Example status_at_49 :
  score (_calculate_cluster_health score_49) = 49
  /\ status (_calculate_cluster_health score_49) = "critical".
Proof. split; vm_compute; reflexivity. Qed.

Example status_at_100 :
  score (_calculate_cluster_health all_healthy) = 100
  /\ status (_calculate_cluster_health all_healthy) = "excellent".
Proof. split; vm_compute; reflexivity. Qed.

(** Standby scheduler down and 8 of 10 workers healthy in each class:
    the score is below 100 and the issue is listed. *)
Example degraded_cluster :
  score (_calculate_cluster_health degraded) = 84
  /\ status (_calculate_cluster_health degraded) = "good"
  /\ In "Standby ResourceManager is unhealthy"
        (issues (_calculate_cluster_health degraded)).
Proof. vm_compute. repeat split. left. reflexivity. Qed.

(** Half of 15 points is 7, not 8. *)
Example share_is_truncated : score (_calculate_cluster_health half_datanodes) = 7.
Proof. vm_compute. reflexivity. Qed.

(** ** The range of the score and the status *)

(** With consistent node counts the score stays within the budget. *)
Lemma score_in_range (m : Metrics) :
  nodes_consistent (node_metrics m) ->
  0 <= score (_calculate_cluster_health m) <= 100.
Proof.
  intros [Hdn Hnm]. rewrite score_unfold.
  pose proof (ha_pillar_range (namenode_metrics m)).
  pose proof (ha_pillar_range (resourcemanager_metrics m)).
  pose proof (node_share_range _ _ Hdn).
  pose proof (node_share_range _ _ Hnm).
  pose proof (auxiliary_service_range (historyserver_healthy (service_metrics m))).
  pose proof (auxiliary_service_range (hive_healthy (service_metrics m))).
  lia.
Qed.

(** The thresholds, read on a score. *)
Lemma status_of_score_thresholds (s : Z) :
  (90 <= s -> status_of_score s = "excellent")
  /\ (75 <= s < 90 -> status_of_score s = "good")
  /\ (50 <= s < 75 -> status_of_score s = "warning")
  /\ (s < 50 -> status_of_score s = "critical").
Proof.
  unfold status_of_score.
  repeat split; intros Hs;
    repeat match goal with
           | |- context [?a <=? ?b] => destruct (Z.leb_spec a b); try lia
           end; reflexivity.
Qed.

(** A record with consistent node counts: the score is in range and
    the status follows the thresholds. *)
Lemma consistent_record_health (m : Metrics) :
  nodes_consistent (node_metrics m) ->
  let h := _calculate_cluster_health m in
  0 <= score h <= 100 /\ status h = status_of_score (score h).
Proof.
  intros Hc h. subst h. pose proof (score_in_range m Hc) as Hr.
  split; [exact Hr|]. rewrite status_of_health. by apply binary64_status_agrees.
Qed.

(** The counts that [_collect_metrics] produces are consistent: the
    healthy nodes of a class are picked from the list of its nodes. *)
Lemma count_le_len {A} (keep : A -> bool) (lst : list A) :
  (count keep lst <= len lst)%N.
Proof.
  unfold count, len. pose proof (List.filter_length_le keep lst). lia.
Qed.

Lemma collected_nodes_consistent (now : string) (outcome : string + ClusterStatus) :
  nodes_consistent (node_metrics (_collect_metrics now outcome)).
Proof.
  destruct outcome as [e|cs]; cbn.
  - split; intros _; cbn; lia.
  - split; intros _; apply count_le_len.
Qed.

(** The health of a collected snapshot is the health of a record with
    consistent node counts. *)
Lemma collected_health (now : string) (outcome : string + ClusterStatus)
    (h : ClusterHealth) :
  cluster_health (_collect_metrics now outcome) = Some h ->
  exists m, nodes_consistent (node_metrics m) /\ h = _calculate_cluster_health m.
Proof.
  pose proof (collected_nodes_consistent now outcome) as Hc.
  destruct outcome as [e|cs]; cbn [_collect_metrics cluster_health]; [discriminate|].
  intros [= <-]. eexists. split; [|reflexivity]. exact Hc.
Qed.

(** Every snapshot that the monitor collects has a score from 0 to 100. *)
Lemma collected_score_in_range (now : string) (outcome : string + ClusterStatus)
    (h : ClusterHealth) :
  cluster_health (_collect_metrics now outcome) = Some h -> 0 <= score h <= 100.
Proof.
  intros H. destruct (collected_health now outcome h H) as (m & Hc & ->).
  by apply score_in_range.
Qed.

(** C2: [_calculate_cluster_health] is called by [_collect_metrics]
    alone, on the record that it has just filled from the answer of the
    client.  For every such record, whatever the client answered and
    however long its node lists are, the score lies between 0 and 100
    and the status follows the thresholds on the score: at least 90
    excellent, 75 to 89 good, 50 to 74 warning, below 50 critical. *)
Theorem health_score_range_and_status (now : string)
    (outcome : string + ClusterStatus) (h : ClusterHealth) :
  cluster_health (_collect_metrics now outcome) = Some h ->
  0 <= score h <= 100
  /\ (90 <= score h -> status h = "excellent")
  /\ (75 <= score h < 90 -> status h = "good")
  /\ (50 <= score h < 75 -> status h = "warning")
  /\ (score h < 50 -> status h = "critical").
Proof.
  intros H. destruct (collected_health now outcome h H) as (m & Hc & ->).
  destruct (consistent_record_health m Hc) as [Hr ->].
  split; [exact Hr|]. apply status_of_score_thresholds.
Qed.

Lemma health_score_range_and_status_at_small_cluster :
  exists h,
    cluster_health (_collect_metrics "2024-01-01T00:00:00" (inr small_cluster)) = Some h
    /\ score h = 80 /\ status h = "good".
Proof.
  eexists. split; [reflexivity|]. split; [vm_compute; reflexivity|].
  refine (proj1 (proj2 (proj2
    (health_score_range_and_status "2024-01-01T00:00:00" (inr small_cluster) _ eq_refl))) _).
  vm_compute. split; [discriminate|reflexivity].
Defined.




(** ** Slices and bounded buffers *)

Section Slices.
Context {A : Type}.
Implicit Types l : list A.

(** [lst[-n:]] for a positive [n]. *)
Lemma slice_from_neg l (n : Z) :
  0 < n -> Py.slice_from (- n) l = most_recent (Z.to_nat n) l.
Proof.
  intros Hn. unfold Py.slice_from, most_recent.
  replace (- n <? 0) with true by (symmetry; apply Z.ltb_lt; lia).
  f_equal. lia.
Qed.

(** [lst[-0:]] is [lst[0:]]. *)
Lemma slice_from_neg_zero l : Py.slice_from (- 0) l = l.
Proof. unfold Py.slice_from. simpl. rewrite Z.min_l by lia. reflexivity. Qed.

Lemma most_recent_length n l : length (most_recent n l) = (n `min` length l)%nat.
Proof. unfold most_recent. rewrite length_drop. lia. Qed.

Lemma most_recent_suffix n l : exists older, l = (older ++ most_recent n l)%list.
Proof. exists (take (length l - n) l). unfold most_recent. by rewrite take_drop. Qed.

Lemma most_recent_all n l : (length l <= n)%nat -> most_recent n l = l.
Proof. intros H. unfold most_recent. by replace (length l - n)%nat with O by lia. Qed.

Lemma most_recent_snoc n l x :
  (0 < n)%nat ->
  most_recent n (most_recent n l ++ [x]) = most_recent n (l ++ [x]).
Proof.
  intros Hn. unfold most_recent.
  rewrite !length_app, length_drop. simpl.
  destruct (decide (length l < n)%nat) as [Hl|Hl].
  - replace (length l - n)%nat with O by lia. simpl.
    f_equal. lia.
  - rewrite !drop_app_le by (rewrite ?length_drop; lia).
    rewrite drop_drop. do 2 f_equal. lia.
Qed.

(** Append, then cut back to the capacity when it is exceeded. *)
Lemma append_bounded (cap : Z) l (x : A) :
  0 < cap ->
  (if cap <? Z.of_nat (length (Py.append (most_recent (Z.to_nat cap) l) x))
   then Py.slice_from (- cap) (Py.append (most_recent (Z.to_nat cap) l) x)
   else Py.append (most_recent (Z.to_nat cap) l) x)
  = most_recent (Z.to_nat cap) (Py.append l x).
Proof.
  intros Hc. unfold Py.append.
  rewrite <- (most_recent_snoc (Z.to_nat cap) l x) by lia.
  destruct (Z.ltb_spec cap (Z.of_nat (length (most_recent (Z.to_nat cap) l ++ [x])))).
  - by apply slice_from_neg.
  - symmetry. apply most_recent_all. lia.
Qed.
End Slices.

Lemma add_to_history_recent (cap : Z) (all : list Metrics) (m : Metrics)
    (s : ClusterMonitor) :
  0 < cap -> max_history_size s = cap ->
  metrics_history s = most_recent (Z.to_nat cap) all ->
  metrics_history (_add_to_history m s) = most_recent (Z.to_nat cap) (Py.append all m)
  /\ logs (_add_to_history m s) = logs s
  /\ max_history_size (_add_to_history m s) = cap
  /\ max_logs_size (_add_to_history m s) = max_logs_size s.
Proof.
  intros Hc Hm Hh. unfold _add_to_history.
  cbn [set_metrics_history max_history_size metrics_history].
  rewrite Hm, Hh. rewrite <- (append_bounded cap all m Hc).
  destruct (cap <? _); cbn; rewrite ?Hm; auto.
Qed.

Lemma add_log_recent (cap : Z) (all : list LogEntry) (l m t : string) (st : State) :
  0 < cap -> max_logs_size (self st) = cap ->
  logs (self st) = most_recent (Z.to_nat cap) all ->
  logs (self (_add_log l m t st))
    = most_recent (Z.to_nat cap)
        (Py.append all {| log_timestamp := t; level := l; message := m |})
  /\ metrics_history (self (_add_log l m t st)) = metrics_history (self st)
  /\ max_history_size (self (_add_log l m t st)) = max_history_size (self st)
  /\ max_logs_size (self (_add_log l m t st)) = cap.
Proof.
  intros Hc Hm Hl. unfold _add_log.
  cbn [on_self self set_logs max_logs_size logs].
  rewrite Hm, Hl. rewrite <- (append_bounded cap all _ Hc).
  destruct (cap <? _); repeat case_bool_decide; cbn; rewrite ?Hm, ?Hl; auto.
Qed.

(** Every call of [_add_log] hands exactly one record to the logger. *)
Lemma add_log_logger_length (l m t : string) (st : State) :
  length (logger (_add_log l m t st)) = S (length (logger st)).
Proof.
  unfold _add_log.
  repeat match goal with |- context [if ?b then _ else _] => destruct b end;
    cbn; unfold Py.append; rewrite length_app; simpl; lia.
Qed.

(** What holds of the two buffers after any sequence of appends to a
    monitor that was just constructed. *)
Lemma buffers_invariant (ops : list Append) :
  max_history_size (self (foldl perform fresh ops)) = 100
  /\ max_logs_size (self (foldl perform fresh ops)) = 200
  /\ metrics_history (self (foldl perform fresh ops))
     = most_recent 100 (appended_snapshots ops)
  /\ logs (self (foldl perform fresh ops)) = most_recent 200 (appended_logs ops).
Proof.
  induction ops as [|a ops IH] using rev_ind; [done|].
  rewrite foldl_app. cbn [foldl].
  destruct IH as (Hh & Hl & Hhist & Hlogs).
  unfold appended_snapshots, appended_logs in *. rewrite !omap_app.
  destruct a as [m | l m t]; cbn [perform omap on_self self].
  - destruct (add_to_history_recent 100 _ m _ ltac:(lia) Hh Hhist) as (-> & -> & -> & ->).
    rewrite app_nil_r. auto.
  - destruct (add_log_recent 200 _ l m t _ ltac:(lia) Hl Hlogs) as (-> & -> & -> & ->).
    rewrite app_nil_r. auto.
Qed.

(** C4: after any finite sequence of snapshot appends and log appends
    to a fresh monitor, the history holds at most [max_history_size] =
    100 entries and the log buffer at most [max_logs_size] = 200; what
    each buffer holds is the most recent part of what was appended to
    it, in insertion order: the oldest entries are the ones dropped. *)
Theorem buffers_bounded_fifo (ops : list Append) :
  let st := foldl perform fresh ops in
  max_history_size (self st) = 100 /\ max_logs_size (self st) = 200
  /\ (length (metrics_history (self st)) <= 100)%nat
  /\ (length (logs (self st)) <= 200)%nat
  /\ metrics_history (self st) = most_recent 100 (appended_snapshots ops)
  /\ logs (self st) = most_recent 200 (appended_logs ops)
  /\ (exists evicted,
        appended_snapshots ops = (evicted ++ metrics_history (self st))%list)
  /\ (exists evicted, appended_logs ops = (evicted ++ logs (self st))%list).
Proof.
  cbv zeta. destruct (buffers_invariant ops) as (Hh & Hl & Hhist & Hlogs).
  repeat split; try assumption.
  - rewrite Hhist, most_recent_length. lia.
  - rewrite Hlogs, most_recent_length. lia.
  - rewrite Hhist. apply most_recent_suffix.
  - rewrite Hlogs. apply most_recent_suffix.
Qed.

(** C10: on a non-empty buffer, a read with limit 0 returns the whole
    buffer; for every limit of at least 1 a read returns the last
    min(limit, length) entries in insertion order, most recent last. *)
Theorem limited_reads (self : ClusterMonitor) (limit : Z) :
  (metrics_history self <> [] -> get_metrics_history 0 self = metrics_history self)
  /\ (logs self <> [] -> get_recent_logs 0 self = logs self)
  /\ (1 <= limit ->
      get_metrics_history limit self
        = most_recent (Z.to_nat limit) (metrics_history self)
      /\ get_recent_logs limit self = most_recent (Z.to_nat limit) (logs self)
      /\ length (get_metrics_history limit self)
         = (Z.to_nat limit `min` length (metrics_history self))%nat
      /\ length (get_recent_logs limit self)
         = (Z.to_nat limit `min` length (logs self))%nat).
Proof.
  unfold get_metrics_history, get_recent_logs.
  split; [|split].
  - intros _. destruct (metrics_history self); [done|]. apply slice_from_neg_zero.
  - intros _. destruct (logs self); [done|]. apply slice_from_neg_zero.
  - intros Hl.
    assert (Hh : match metrics_history self with
                 | [] => []
                 | _ :: _ => Py.slice_from (- limit) (metrics_history self)
                 end = most_recent (Z.to_nat limit) (metrics_history self)).
    { destruct (metrics_history self) eqn:E; [done|]. apply slice_from_neg. lia. }
    assert (Hg : match logs self with
                 | [] => []
                 | _ :: _ => Py.slice_from (- limit) (logs self)
                 end = most_recent (Z.to_nat limit) (logs self)).
    { destruct (logs self) eqn:E; [done|]. apply slice_from_neg. lia. }
    rewrite Hh, Hg, !most_recent_length. done.
Qed.

Lemma limited_reads_of_three :
  get_metrics_history 0 three_snapshots = [score_50; score_49; all_healthy]
  /\ get_recent_logs 0 three_snapshots = logs three_snapshots
  /\ get_metrics_history 2 three_snapshots = [score_49; all_healthy]
  /\ length (get_recent_logs 2 three_snapshots) = 2%nat.
Proof.
  destruct (limited_reads three_snapshots 2) as (H0 & L0 & Hl).
  split; [apply H0; discriminate|].
  split; [apply L0; discriminate|].
  destruct (Hl ltac:(lia)) as (Hm & _ & _ & Hn).
  split; [exact Hm|exact Hn].
Defined.

(** ** Event check *)

Lemma log_each_issue_length (l p : string) (X : gset string) (t : string) (st : State) :
  length (logger (log_each_issue l p X t st)) = (length (logger st) + size X)%nat.
Proof.
  unfold log_each_issue, size, set_size. simpl.
  generalize (elements X). intros xs. revert st.
  induction xs as [|x xs IH]; intros st; simpl; [lia|].
  rewrite IH, add_log_logger_length. lia.
Qed.

Lemma check_ha_state_changes_same (s : Metrics) (t : string) (st : State) :
  _check_ha_state_changes s s t st = st.
Proof. unfold _check_ha_state_changes. by rewrite !bool_decide_eq_true_2. Qed.

Lemma check_health_changes_same (s : Metrics) (t : string) (st : State) :
  _check_health_changes s s t st = st.
Proof.
  unfold _check_health_changes. rewrite bool_decide_eq_true_2 by done.
  cbn [negb]. rewrite difference_diag_L. unfold log_each_issue.
  by rewrite elements_empty.
Qed.

Lemma check_performance_issues_quiet (s : Metrics) (t : string) (st : State) :
  performance_quiet s -> _check_performance_issues s t st = st.
Proof.
  intros [Hmem Hpend]. unfold _check_performance_issues.
  replace (10 <? default 0 (pending_apps (performance_metrics s))) with false
    by (symmetry; apply Z.ltb_ge; lia).
  destruct (Z.ltb_spec 0 (default 0 (total_memory (performance_metrics s)))) as [Ht|Ht];
    [|done].
  destruct Hmem as [Hmem|Hmem]; [lia|].
  assert (H85 : Qle_bool (memory_usage_of (performance_metrics s)) 85 = true)
    by by apply Qle_bool_iff.
  assert (H95 : Qle_bool (memory_usage_of (performance_metrics s)) 95 = true).
  { apply Qle_bool_iff. eapply Qle_trans; [exact Hmem|]. by vm_compute. }
  by rewrite H85, H95.
Qed.

Lemma check_ha_state_changes_length (cur prev : Metrics) (t : string) (st : State) :
  (length (logger st)
   + (if decide (reported_states cur = reported_states prev) then 0 else 1)
   <= length (logger (_check_ha_state_changes cur prev t st)))%nat.
Proof.
  unfold _check_ha_state_changes, reported_states.
  destruct (decide _) as [E|E].
  - injection E as -> -> -> ->. rewrite !bool_decide_eq_true_2 by done. simpl. lia.
  - repeat case_bool_decide; cbn [negb]; rewrite ?add_log_logger_length; try lia.
    congruence.
Qed.

(** Two different sets differ by an element of one of them. *)
Lemma differing_sets_size (X Y : gset string) :
  X <> Y -> (1 <= size (X ∖ Y) + size (Y ∖ X))%nat.
Proof.
  intros E.
  destruct (decide (X ∖ Y = ∅)) as [E1|E1].
  - destruct (decide (Y ∖ X = ∅)) as [E2|E2].
    + exfalso. apply E. apply set_eq. intros x. split; intros Hx.
      * destruct (decide (x ∈ Y)) as [|Hn]; [done|]. exfalso.
        apply (not_elem_of_empty (C:=gset string) x). rewrite <- E1.
        by apply elem_of_difference.
      * destruct (decide (x ∈ X)) as [|Hn]; [done|]. exfalso.
        apply (not_elem_of_empty (C:=gset string) x). rewrite <- E2.
        by apply elem_of_difference.
    + assert (size (Y ∖ X) <> 0)%nat
        by (rewrite size_non_empty_iff; by intros ?%leibniz_equiv).
      lia.
  - assert (size (X ∖ Y) <> 0)%nat
      by (rewrite size_non_empty_iff; by intros ?%leibniz_equiv).
    lia.
Qed.

Lemma check_health_changes_length (cur prev : Metrics) (t : string) (st : State) :
  (length (logger st)
   + (if decide (status_category cur = status_category prev) then 0 else 1)
   + (if decide (issue_set cur = issue_set prev) then 0 else 1)
   <= length (logger (_check_health_changes cur prev t st)))%nat.
Proof.
  unfold _check_health_changes. fold (status_category cur) (status_category prev).
  fold (issue_set cur) (issue_set prev).
  rewrite !log_each_issue_length.
  assert (Hi : ((if decide (issue_set cur = issue_set prev) then 0 else 1)
                <= size (issue_set cur ∖ issue_set prev)
                   + size (issue_set prev ∖ issue_set cur))%nat).
  { destruct (decide _) as [E|E]; [lia|]. by apply differing_sets_size. }
  destruct (decide (status_category cur = status_category prev)) as [E|E].
  - rewrite bool_decide_eq_true_2 by done. cbn [negb]. lia.
  - rewrite bool_decide_eq_false_2 by done. cbn [negb].
    rewrite add_log_logger_length. lia.
Qed.

Lemma check_performance_issues_length (cur : Metrics) (t : string) (st : State) :
  (length (logger st) <= length (logger (_check_performance_issues cur t st)))%nat.
Proof.
  unfold _check_performance_issues.
  repeat match goal with |- context [if ?b then _ else _] => destruct b end;
    rewrite ?add_log_logger_length; lia.
Qed.

(** With a previous snapshot in the history, the event check is the
    three checks in a row. *)
Lemma check_for_events_unfold (previous current : Metrics) (now : string) (st : State) :
  Py.index_from_end 2 (metrics_history (self st)) = Some previous ->
  _check_for_events current now st
  = _check_performance_issues current now
      (_check_health_changes current previous now
         (_check_ha_state_changes current previous now st)).
Proof.
  intros Hprev. unfold _check_for_events. rewrite Hprev.
  destruct (Nat.ltb_spec (length (metrics_history (self st))) 2) as [Hlen|Hlen]; [|done].
  unfold Py.index_from_end in Hprev.
  destruct (Nat.ltb_spec (length (metrics_history (self st))) 2); [done|lia].
Qed.

(** C8, as stated, fails: two identical snapshots of a cluster with
    eleven pending applications make the event check emit an entry. *)
Lemma identical_snapshots_with_backlog_emit :
  let st := after_two_cycles backlog backlog in
  Py.index_from_end 2 (metrics_history (self st)) = Some backlog
  /\ logger st = []
  /\ logger (_check_for_events backlog "2024-01-01T00:00:05" st)
     = [("warning", "High number of pending applications: 11")]
  /\ length (logs (self (_check_for_events backlog "2024-01-01T00:00:05" st))) = 1%nat
  /\ logger (monitoring_cycle backlog "2024-01-01T00:00:05"
               (monitoring_cycle backlog "2024-01-01T00:00:00" fresh))
     = [("warning", "High number of pending applications: 11")].
Proof. cbv zeta. repeat split; vm_compute; reflexivity. Qed.

(** C8 (amended): when the event check runs on a snapshot equal to the
    previous one, it emits no entry for a state change, a status change
    or an issue: it does what the check of the performance thresholds
    on the current snapshot does, and nothing at all when memory use is
    at most 85 % and at most 10 applications are pending.  For any two
    snapshots it emits at least one entry for each category in which
    they differ (reported states, status, set of issues). *)
Theorem event_check_entries (previous current : Metrics) (now : string) (st : State) :
  Py.index_from_end 2 (metrics_history (self st)) = Some previous ->
  (current = previous ->
     _check_for_events current now st = _check_performance_issues current now st)
  /\ (current = previous -> performance_quiet current ->
        _check_for_events current now st = st)
  /\ (length (logger st) + differing_categories previous current
      <= length (logger (_check_for_events current now st)))%nat.
Proof.
  intros Hprev.
  rewrite (check_for_events_unfold previous current now st Hprev).
  split; [|split].
  - intros ->. by rewrite check_ha_state_changes_same, check_health_changes_same.
  - intros -> Hq.
    rewrite check_ha_state_changes_same, check_health_changes_same.
    by apply check_performance_issues_quiet.
  - unfold differing_categories.
    pose proof (check_ha_state_changes_length current previous now st).
    pose proof (check_health_changes_length current previous now
                  (_check_ha_state_changes current previous now st)).
    pose proof (check_performance_issues_length current now
                  (_check_health_changes current previous now
                     (_check_ha_state_changes current previous now st))).
    lia.
Qed.

Lemma event_check_entries_at_incident :
  (let st := after_two_cycles before_incident before_incident in
   _check_for_events before_incident "2024-01-01T00:00:05" st = st)
  /\ (let st := after_two_cycles before_incident after_incident in
      differing_categories before_incident after_incident = 3%nat
      /\ (3 <= length (logger (_check_for_events after_incident
                                 "2024-01-01T00:00:05" st)))%nat).
Proof.
  split.
  - cbv zeta.
    assert (Hprev : Py.index_from_end 2
                      (metrics_history
                         (self (after_two_cycles before_incident before_incident)))
                    = Some before_incident) by (vm_compute; reflexivity).
    apply (event_check_entries before_incident before_incident
             "2024-01-01T00:00:05" _ Hprev); [reflexivity|].
    split; [left; vm_compute; discriminate | vm_compute; discriminate].
  - cbv zeta.
    assert (D : differing_categories before_incident after_incident = 3%nat)
      by (vm_compute; reflexivity).
    split; [exact D|].
    assert (Hprev : Py.index_from_end 2
                      (metrics_history
                         (self (after_two_cycles before_incident after_incident)))
                    = Some before_incident) by (vm_compute; reflexivity).
    pose proof (event_check_entries before_incident after_incident
                  "2024-01-01T00:00:05"
                  (after_two_cycles before_incident after_incident) Hprev)
      as (_ & _ & H).
    rewrite D in H. exact H.
Defined.

End MonitoringFacts.

(** * Facts about failover.py *)

Module FailoverFacts.
Import Failover FailoverSpec.

Ltac world_fields := cbn [clock nn_calls rm_calls log].

Ltac world_eq :=
  unfold nn_attempts_made, rm_attempts_made; world_fields; f_equal; lia.

(** Run the workflow down to its three steps. *)
Ltac run_workflow :=
  cbv beta iota zeta delta
    [bind with_local try_except outer update_local get_local ret raise now
     logger_call sleep fst snd append_step set_success set_error success].

(** ** NameNode: the steps one by one *)

Lemma check_nn_eq self w :
  _check_namenode_status self w =
  (inr (match get_namenode_status (hadoop_client self) (nn_calls w) with
        | inl e => check_failed (clock w) e
        | inr st =>
            if is_active (active st)
            then check_passed (clock w) "active-nn" "standby-nn" st
            else if is_active (standby st)
            then check_passed (clock w) "standby-nn" "active-nn" st
            else check_failed (clock w) "No active NameNode found"
        end), nn_polled w).
Proof.
  unfold _check_namenode_status, bind, now, with_local, try_except, outer,
    call_get_namenode_status, update_local, ret, raise. cbn [fst snd].
  destruct (get_namenode_status _ _) as [e|st]; [reflexivity|].
  destruct (is_active (active st)); [reflexivity|].
  destruct (is_active (standby st)); reflexivity.
Qed.

Lemma check_nn_total self w :
  exists s1, _check_namenode_status self w = (inr s1, nn_polled w)
    /\ step s1 = "check_status"
    /\ (step_success s1 = true -> exists d, data s1 = Some (CheckStatus d)).
Proof.
  rewrite check_nn_eq. eexists. split; [reflexivity|].
  destruct (get_namenode_status _ _) as [e|st]; [by split|].
  destruct (is_active (active st)); [split; eauto|].
  destruct (is_active (standby st)); [split; eauto|by split].
Qed.

Lemma execute_nn_eq self current_active current_standby force w :
  _execute_namenode_failover self current_active current_standby force w =
  (inr {| step := "execute_failover"; step_success := true; step_timestamp := clock w;
          data := None;
          command :=
            Some ("docker exec active-nn /usr/local/hadoop/bin/hdfs haadmin -failover "
                  ++ (if force then "--forcemanual" else "") ++ " "
                  ++ current_active ++ " " ++ current_standby);
          output := Some ("Failover from " ++ current_active ++ " to "
                          ++ current_standby ++ " initiated");
          step_error := None |},
   slept 2 w).
Proof. reflexivity. Qed.

(** One iteration of the verification loop. *)
Lemma nn_attempts_step self old last attempt n w sr :
  verify_namenode_attempts self old last attempt (S n) (w, sr) =
  match get_namenode_status (hadoop_client self) (nn_calls w) with
  | inl e => (inl e, (nn_attempts_made 1 w, sr))
  | inr st =>
      if nn_switch_seen old st
      then (inr (Some st),
            (nn_attempts_made 1 w,
             verified old
               (if String.eqb old "active-nn" then "standby-nn" else "active-nn")
               (attempt + 1) st sr))
      else verify_namenode_attempts self old (Some st) (S attempt) n
             (nn_attempts_made 1 w, sr)
  end.
Proof.
  cbn [verify_namenode_attempts].
  unfold bind at 1. unfold outer at 1. cbn [fst snd sleep].
  unfold bind at 1. unfold outer at 1.
  cbn [fst snd call_get_namenode_status]. world_fields.
  replace (nn_attempts_made 1 w) with
    {| clock := clock w + 5; nn_calls := S (nn_calls w);
       rm_calls := rm_calls w; log := log w |}
    by world_eq.
  destruct (get_namenode_status _ _) as [e|st]; [reflexivity|].
  unfold nn_switch_seen.
  destruct (String.eqb old "active-nn"); cbn [fst snd];
    destruct (_ && _); reflexivity.
Qed.

Lemma nn_attempts_made_0 w : nn_attempts_made 0 w = w.
Proof. destruct w. unfold nn_attempts_made. cbn. f_equal; lia. Qed.

Lemma nn_attempts_made_add j k w :
  nn_attempts_made k (nn_attempts_made j w) = nn_attempts_made (j + k) w.
Proof. world_eq. Qed.

(** While no request shows the switch, the loop goes on. *)
Lemma nn_attempts_prefix self old k : forall n last attempt w sr,
  nn_no_switch self old (nn_calls w) k ->
  exists last',
    verify_namenode_attempts self old last attempt (k + n) (w, sr)
    = verify_namenode_attempts self old last' (attempt + k) n (nn_attempts_made k w, sr)
    /\ match k with
       | O => last' = last
       | S m => exists st, last' = Some st
                  /\ get_namenode_status (hadoop_client self) (nn_calls w + m) = inr st
       end.
Proof.
  induction k as [|k IH]; intros n last attempt w sr Hk.
  - exists last. rewrite nn_attempts_made_0, Nat.add_0_r. done.
  - destruct (Hk 0%nat ltac:(lia)) as (st0 & E0 & S0). rewrite Nat.add_0_r in E0.
    cbn [Nat.add]. rewrite nn_attempts_step, E0, S0.
    destruct (IH n (Some st0) (S attempt) (nn_attempts_made 1 w) sr) as (last' & E & Hl).
    { intros j Hj. destruct (Hk (S j) ltac:(lia)) as (st & Est & Sst).
      exists st. split; [|done]. rewrite <- Est. f_equal. cbn. lia. }
    exists last'. rewrite E, nn_attempts_made_add.
    replace (S attempt + k)%nat with (attempt + S k)%nat by lia. split; [done|].
    destruct k as [|m].
    + exists st0. subst last'. by rewrite Nat.add_0_r.
    + destruct Hl as (st & -> & Est). exists st. split; [done|].
      rewrite <- Est. f_equal. cbn. lia.
Qed.

Lemma nn_attempts_preserve_step self old n : forall last attempt w sr,
  step (snd (snd (verify_namenode_attempts self old last attempt n (w, sr)))) = step sr.
Proof.
  induction n as [|n IH]; intros last attempt w sr; [reflexivity|].
  rewrite nn_attempts_step.
  destruct (get_namenode_status _ _) as [e|st]; [reflexivity|].
  destruct (nn_switch_seen old st); [reflexivity|]. apply IH.
Qed.

(** The verification step around its loop. *)
Lemma verify_nn_unfold self old_active old_standby w :
  _verify_namenode_failover self old_active old_standby w =
  match verify_namenode_attempts self old_active None 0 6 (w, verify_start (clock w)) with
  | (inl e, (w', sr')) => (inr (set_step_error e sr'), w')
  | (inr fin, (w', sr')) =>
      if step_success sr' then (inr sr', w')
      else match fin with
           | Some st =>
               (inr (set_data (VerifyFailover
                       {| failover_verified := false; new_active := None;
                          new_standby := None; attempts := None; final_status := st |})
                     (set_step_error "Failover verification failed after 6 attempts" sr')),
                w')
           | None =>
               (inr (set_step_error
                       "cannot access local variable 'nn_status' where it is not associated with a value"
                       (set_step_error "Failover verification failed after 6 attempts" sr')),
                w')
           end
  end.
Proof.
  unfold _verify_namenode_failover, verify_start.
  unfold bind at 1. unfold now at 1. cbn beta iota.
  unfold with_local, try_except. unfold bind at 1.
  destruct (verify_namenode_attempts _ _ _ _ _ _) as [[e|fin] [w' sr']]; [reflexivity|].
  unfold bind at 1. unfold get_local at 1. cbn [fst snd].
  destruct (step_success sr'); [reflexivity|]. cbn [negb].
  destruct fin; reflexivity.
Qed.

(** The verification step always returns a step of its own kind. *)
Lemma verify_nn_total self old_active old_standby w :
  exists s3 w3, _verify_namenode_failover self old_active old_standby w = (inr s3, w3)
                /\ step s3 = "verify_failover".
Proof.
  rewrite verify_nn_unfold.
  pose proof (nn_attempts_preserve_step self old_active 6 None 0 w (verify_start (clock w)))
    as Hs.
  destruct (verify_namenode_attempts _ _ _ _ _ _) as [[e|fin] [w' sr']]; cbn [snd] in Hs.
  - eauto.
  - destruct (step_success sr'); [eauto|]. destruct fin; eauto.
Qed.

(** All six attempts are used up. *)
Lemma verify_nn_exhausted self old_active old_standby w :
  nn_no_switch self old_active (nn_calls w) 6 ->
  exists st, get_namenode_status (hadoop_client self) (nn_calls w + 5) = inr st
    /\ _verify_namenode_failover self old_active old_standby w
       = (inr (unverified (clock w) st), nn_attempts_made 6 w).
Proof.
  intros H. rewrite verify_nn_unfold.
  destruct (nn_attempts_prefix self old_active 6 0 None 0 w (verify_start (clock w)) H)
    as (last' & E & st & -> & Est).
  cbn [Nat.add] in E. rewrite E.
  cbn [verify_namenode_attempts ret verify_start step_success].
  exists st. split; [done|]. reflexivity.
Qed.

(** A status request raises during attempt [k + 1]. *)
Lemma verify_nn_raised self old_active old_standby w k e :
  (k < 6)%nat -> nn_no_switch self old_active (nn_calls w) k ->
  get_namenode_status (hadoop_client self) (nn_calls w + k) = inl e ->
  _verify_namenode_failover self old_active old_standby w
  = (inr (set_step_error e (verify_start (clock w))), nn_attempts_made (S k) w).
Proof.
  intros Hk H He. rewrite verify_nn_unfold.
  destruct (nn_attempts_prefix self old_active k (S (5 - k)) None 0 w
              (verify_start (clock w)) H) as (last' & E & _).
  replace (k + S (5 - k))%nat with 6%nat in E by lia. rewrite E.
  rewrite nn_attempts_step. cbn [nn_attempts_made nn_calls]. rewrite He.
  rewrite nn_attempts_made_add. do 2 f_equal. lia.
Qed.

(** The switch shows at attempt [k + 1]. *)
Lemma verify_nn_switched self old_active old_standby w k st :
  (k < 6)%nat -> nn_no_switch self old_active (nn_calls w) k ->
  get_namenode_status (hadoop_client self) (nn_calls w + k) = inr st ->
  nn_switch_seen old_active st = true ->
  _verify_namenode_failover self old_active old_standby w
  = (inr (verified old_active
            (if String.eqb old_active "active-nn" then "standby-nn" else "active-nn")
            (k + 1) st (verify_start (clock w))),
     nn_attempts_made (S k) w).
Proof.
  intros Hk H He Hs. rewrite verify_nn_unfold.
  destruct (nn_attempts_prefix self old_active k (S (5 - k)) None 0 w
              (verify_start (clock w)) H) as (last' & E & _).
  replace (k + S (5 - k))%nat with 6%nat in E by lia. rewrite E.
  rewrite nn_attempts_step. cbn [nn_attempts_made nn_calls]. rewrite He, Hs.
  cbn [verified set_step_success step_success Nat.add].
  rewrite nn_attempts_made_add. do 2 f_equal. lia.
Qed.

(** ** NameNode: the workflow *)

(** The two ways the workflow can go. *)
Lemma nn_failover_cases self force w :
  let w0 := logged "info" "Starting NameNode failover..." w in
  exists s1,
    _check_namenode_status self w0 = (inr s1, nn_polled w0)
    /\ step s1 = "check_status"
    /\ ((step_success s1 = false
         /\ namenode_failover self force w
            = (inr {| type := "namenode_failover"; timestamp := clock w;
                      success := false;
                      steps := [s1; error_step (clock w)
                                      "Failed to get initial NameNode status"];
                      error := Some "Failed to get initial NameNode status" |},
               logged "error"
                 "NameNode failover failed: Failed to get initial NameNode status"
                 (nn_polled w0)))
        \/ (exists d s2 s3 w3,
              step_success s1 = true /\ data s1 = Some (CheckStatus d)
              /\ _execute_namenode_failover self (current_active d) (current_standby d)
                   force (nn_polled w0) = (inr s2, slept 2 (nn_polled w0))
              /\ step s2 = "execute_failover" /\ step_success s2 = true
              /\ _verify_namenode_failover self (current_active d) (current_standby d)
                   (slept 10 (slept 2 (nn_polled w0))) = (inr s3, w3)
              /\ step s3 = "verify_failover"
              /\ namenode_failover self force w
                 = (inr {| type := "namenode_failover"; timestamp := clock w;
                           success := step_success s3;
                           steps := [s1; s2; s3]; error := None |},
                    if step_success s3
                    then logged "info" "NameNode failover completed successfully" w3
                    else logged "error" "NameNode failover verification failed" w3))).
Proof.
  intros w0.
  destruct (check_nn_total self w0) as (s1 & E1 & Hstep1 & Hd).
  exists s1. split; [exact E1|]. split; [exact Hstep1|].
  unfold namenode_failover. run_workflow.
  fold (logged "info" "Starting NameNode failover..." w). fold w0.
  rewrite E1.
  destruct (step_success s1) eqn:Hs1; cbn [negb].
  - right. destruct (Hd eq_refl) as (d & Ed). rewrite Ed.
    rewrite execute_nn_eq. cbn [step_success negb].
    fold (slept 10 (slept 2 (nn_polled w0))).
    destruct (verify_nn_total self (current_active d) (current_standby d)
                (slept 10 (slept 2 (nn_polled w0)))) as (s3 & w3 & E3 & Hstep3).
    rewrite E3.
    eexists d, _, s3, w3. split; [done|]. split; [done|].
    split; [reflexivity|]. split; [reflexivity|]. split; [reflexivity|].
    split; [exact E3|]. split; [exact Hstep3|].
    destruct (step_success s3); reflexivity.
  - left. split; [done|]. reflexivity.
Qed.

(** Whatever the client does, the workflow returns a result of one of
    two shapes. *)
Lemma nn_failover_shape self force w :
  exists r w', namenode_failover self force w = (inr r, w')
    /\ (aborted_at_check "Failed to get initial NameNode status" r
        \/ ran_to_verification r).
Proof.
  destruct (nn_failover_cases self force w) as (s1 & E1 & Hstep1 & [[Hs1 E]|Hrun]).
  - eexists _, _. split; [exact E|]. left.
    exists s1, (clock w). by repeat split.
  - destruct Hrun as (d & s2 & s3 & w3 & Hs1 & Ed & E2 & Hstep2 & Hs2 & E3 & Hstep3 & E).
    eexists _, _. split; [exact E|]. right.
    exists s1, s2, s3. by repeat split.
Qed.

(** The status check raises: the message lands in the check step. *)
Lemma nn_failover_check_raises self force w e :
  get_namenode_status (hadoop_client self) (nn_calls w) = inl e ->
  exists w', namenode_failover self force w
    = (inr {| type := "namenode_failover"; timestamp := clock w; success := false;
              steps := [check_failed (clock w) e;
                        error_step (clock w) "Failed to get initial NameNode status"];
              error := Some "Failed to get initial NameNode status" |}, w').
Proof.
  intros He.
  destruct (nn_failover_cases self force w) as (s1 & E1 & _ & Hcases).
  rewrite check_nn_eq in E1. cbn [logged nn_calls clock] in E1. rewrite He in E1.
  injection E1 as <-.
  destruct Hcases as [[_ E]|(d & s2 & s3 & w3 & Hs1 & _)]; [|discriminate Hs1].
  eexists. exact E.
Qed.

(** Neither slot reports active. *)
Lemma nn_failover_no_active self force w st :
  get_namenode_status (hadoop_client self) (nn_calls w) = inr st ->
  is_active (active st) = false -> is_active (standby st) = false ->
  exists w', namenode_failover self force w
    = (inr {| type := "namenode_failover"; timestamp := clock w; success := false;
              steps := [check_failed (clock w) "No active NameNode found";
                        error_step (clock w) "Failed to get initial NameNode status"];
              error := Some "Failed to get initial NameNode status" |}, w').
Proof.
  intros He Ha Hs.
  destruct (nn_failover_cases self force w) as (s1 & E1 & _ & Hcases).
  rewrite check_nn_eq in E1. cbn [logged nn_calls clock] in E1.
  rewrite He, Ha, Hs in E1. injection E1 as <-.
  destruct Hcases as [[_ E]|(d & s2 & s3 & w3 & Hs1 & _)]; [|discriminate Hs1].
  eexists. exact E.
Qed.

(** The roles are found: the workflow goes on to the verification of
    the pair that the check determined. *)
Lemma nn_failover_roles_found self force w old_active :
  nn_roles_found self w old_active ->
  exists s1 s2 s3 w3 old_standby,
    _verify_namenode_failover self old_active old_standby
      (slept 10 (slept 2 (nn_polled (logged "info" "Starting NameNode failover..." w))))
    = (inr s3, w3)
    /\ step s1 = "check_status" /\ step_success s1 = true
    /\ step s2 = "execute_failover" /\ step_success s2 = true
    /\ namenode_failover self force w
       = (inr {| type := "namenode_failover"; timestamp := clock w;
                 success := step_success s3;
                 steps := [s1; s2; s3]; error := None |},
          if step_success s3
          then logged "info" "NameNode failover completed successfully" w3
          else logged "error" "NameNode failover verification failed" w3).
Proof.
  intros (st0 & He & Hany & ->).
  destruct (nn_failover_cases self force w) as (s1 & E1 & Hstep1 & Hcases).
  rewrite check_nn_eq in E1. cbn [logged nn_calls clock] in E1. rewrite He in E1.
  assert (Hs1 : step_success s1 = true
                /\ data s1 = Some (CheckStatus
                     {| current_active :=
                          if is_active (active st0) then "active-nn" else "standby-nn";
                        current_standby :=
                          if is_active (active st0) then "standby-nn" else "active-nn";
                        active_status := active st0;
                        standby_status := standby st0 |})).
  { destruct (is_active (active st0)); [by injection E1 as <-|].
    cbn [orb] in Hany. rewrite Hany in E1. by injection E1 as <-. }
  destruct Hs1 as [Hs1 Hd1].
  destruct Hcases as [[Hf _]|(d & s2 & s3 & w3 & _ & Ed & _ & Hstep2 & Hs2 & E3 & _ & E)];
    [congruence|].
  rewrite Hd1 in Ed. injection Ed as <-. cbn [current_active current_standby] in E3.
  eexists s1, s2, s3, w3, _. split; [exact E3|]. by repeat split.
Qed.

(** ** ResourceManager: the steps one by one *)

Lemma check_rm_eq self w :
  _check_resourcemanager_status self w =
  (inr (match get_resourcemanager_status (hadoop_client self) (rm_calls w) with
        | inl e => check_failed (clock w) e
        | inr st =>
            if is_active (active st)
            then check_passed (clock w) "active-rm" "standby-rm" st
            else if is_active (standby st)
            then check_passed (clock w) "standby-rm" "active-rm" st
            else check_failed (clock w) "No active ResourceManager found"
        end), rm_polled w).
Proof.
  unfold _check_resourcemanager_status, bind, now, with_local, try_except, outer,
    call_get_resourcemanager_status, update_local, ret, raise. cbn [fst snd].
  destruct (get_resourcemanager_status _ _) as [e|st]; [reflexivity|].
  destruct (is_active (active st)); [reflexivity|].
  destruct (is_active (standby st)); reflexivity.
Qed.

Lemma check_rm_total self w :
  exists s1, _check_resourcemanager_status self w = (inr s1, rm_polled w)
    /\ step s1 = "check_status"
    /\ (step_success s1 = true -> exists d, data s1 = Some (CheckStatus d)).
Proof.
  rewrite check_rm_eq. eexists. split; [reflexivity|].
  destruct (get_resourcemanager_status _ _) as [e|st]; [by split|].
  destruct (is_active (active st)); [split; eauto|].
  destruct (is_active (standby st)); [split; eauto|by split].
Qed.

Lemma execute_rm_eq self current_active current_standby force w :
  _execute_resourcemanager_failover self current_active current_standby force w =
  (inr {| step := "execute_failover"; step_success := true; step_timestamp := clock w;
          data := None;
          command :=
            Some ("docker exec active-rm /usr/local/hadoop/bin/yarn rmadmin -failover "
                  ++ (if force then "--forcemanual" else "") ++ " "
                  ++ current_active ++ " " ++ current_standby);
          output := Some ("ResourceManager failover from " ++ current_active ++ " to "
                          ++ current_standby ++ " initiated");
          step_error := None |},
   slept 2 w).
Proof. reflexivity. Qed.

(** One iteration of the verification loop. *)
Lemma rm_attempts_step self old last attempt n w sr :
  verify_resourcemanager_attempts self old last attempt (S n) (w, sr) =
  match get_resourcemanager_status (hadoop_client self) (rm_calls w) with
  | inl e => (inl e, (rm_attempts_made 1 w, sr))
  | inr st =>
      if rm_switch_seen old st
      then (inr (Some st),
            (rm_attempts_made 1 w,
             verified old
               (if String.eqb old "active-rm" then "standby-rm" else "active-rm")
               (attempt + 1) st sr))
      else verify_resourcemanager_attempts self old (Some st) (S attempt) n
             (rm_attempts_made 1 w, sr)
  end.
Proof.
  cbn [verify_resourcemanager_attempts].
  unfold bind at 1. unfold outer at 1. cbn [fst snd sleep].
  unfold bind at 1. unfold outer at 1.
  cbn [fst snd call_get_resourcemanager_status]. world_fields.
  replace (rm_attempts_made 1 w) with
    {| clock := clock w + 5; nn_calls := nn_calls w;
       rm_calls := S (rm_calls w); log := log w |}
    by world_eq.
  destruct (get_resourcemanager_status _ _) as [e|st]; [reflexivity|].
  unfold rm_switch_seen.
  destruct (String.eqb old "active-rm"); cbn [fst snd];
    destruct (_ && _); reflexivity.
Qed.

Lemma rm_attempts_made_0 w : rm_attempts_made 0 w = w.
Proof. destruct w. unfold rm_attempts_made. cbn. f_equal; lia. Qed.

Lemma rm_attempts_made_add j k w :
  rm_attempts_made k (rm_attempts_made j w) = rm_attempts_made (j + k) w.
Proof. world_eq. Qed.

(** While no request shows the switch, the loop goes on. *)
Lemma rm_attempts_prefix self old k : forall n last attempt w sr,
  rm_no_switch self old (rm_calls w) k ->
  exists last',
    verify_resourcemanager_attempts self old last attempt (k + n) (w, sr)
    = verify_resourcemanager_attempts self old last' (attempt + k) n (rm_attempts_made k w, sr)
    /\ match k with
       | O => last' = last
       | S m => exists st, last' = Some st
                  /\ get_resourcemanager_status (hadoop_client self) (rm_calls w + m) = inr st
       end.
Proof.
  induction k as [|k IH]; intros n last attempt w sr Hk.
  - exists last. rewrite rm_attempts_made_0, Nat.add_0_r. done.
  - destruct (Hk 0%nat ltac:(lia)) as (st0 & E0 & S0). rewrite Nat.add_0_r in E0.
    cbn [Nat.add]. rewrite rm_attempts_step, E0, S0.
    destruct (IH n (Some st0) (S attempt) (rm_attempts_made 1 w) sr) as (last' & E & Hl).
    { intros j Hj. destruct (Hk (S j) ltac:(lia)) as (st & Est & Sst).
      exists st. split; [|done]. rewrite <- Est. f_equal. cbn. lia. }
    exists last'. rewrite E, rm_attempts_made_add.
    replace (S attempt + k)%nat with (attempt + S k)%nat by lia. split; [done|].
    destruct k as [|m].
    + exists st0. subst last'. by rewrite Nat.add_0_r.
    + destruct Hl as (st & -> & Est). exists st. split; [done|].
      rewrite <- Est. f_equal. cbn. lia.
Qed.

Lemma rm_attempts_preserve_step self old n : forall last attempt w sr,
  step (snd (snd (verify_resourcemanager_attempts self old last attempt n (w, sr)))) = step sr.
Proof.
  induction n as [|n IH]; intros last attempt w sr; [reflexivity|].
  rewrite rm_attempts_step.
  destruct (get_resourcemanager_status _ _) as [e|st]; [reflexivity|].
  destruct (rm_switch_seen old st); [reflexivity|]. apply IH.
Qed.

(** The verification step around its loop. *)
Lemma verify_rm_unfold self old_active old_standby w :
  _verify_resourcemanager_failover self old_active old_standby w =
  match verify_resourcemanager_attempts self old_active None 0 6 (w, verify_start (clock w)) with
  | (inl e, (w', sr')) => (inr (set_step_error e sr'), w')
  | (inr fin, (w', sr')) =>
      if step_success sr' then (inr sr', w')
      else match fin with
           | Some st =>
               (inr (set_data (VerifyFailover
                       {| failover_verified := false; new_active := None;
                          new_standby := None; attempts := None; final_status := st |})
                     (set_step_error "Failover verification failed after 6 attempts" sr')),
                w')
           | None =>
               (inr (set_step_error
                       "cannot access local variable 'rm_status' where it is not associated with a value"
                       (set_step_error "Failover verification failed after 6 attempts" sr')),
                w')
           end
  end.
Proof.
  unfold _verify_resourcemanager_failover, verify_start.
  unfold bind at 1. unfold now at 1. cbn beta iota.
  unfold with_local, try_except. unfold bind at 1.
  destruct (verify_resourcemanager_attempts _ _ _ _ _ _) as [[e|fin] [w' sr']]; [reflexivity|].
  unfold bind at 1. unfold get_local at 1. cbn [fst snd].
  destruct (step_success sr'); [reflexivity|]. cbn [negb].
  destruct fin; reflexivity.
Qed.

(** The verification step always returns a step of its own kind. *)
Lemma verify_rm_total self old_active old_standby w :
  exists s3 w3, _verify_resourcemanager_failover self old_active old_standby w = (inr s3, w3)
                /\ step s3 = "verify_failover".
Proof.
  rewrite verify_rm_unfold.
  pose proof (rm_attempts_preserve_step self old_active 6 None 0 w (verify_start (clock w)))
    as Hs.
  destruct (verify_resourcemanager_attempts _ _ _ _ _ _) as [[e|fin] [w' sr']]; cbn [snd] in Hs.
  - eauto.
  - destruct (step_success sr'); [eauto|]. destruct fin; eauto.
Qed.

(** All six attempts are used up. *)
Lemma verify_rm_exhausted self old_active old_standby w :
  rm_no_switch self old_active (rm_calls w) 6 ->
  exists st, get_resourcemanager_status (hadoop_client self) (rm_calls w + 5) = inr st
    /\ _verify_resourcemanager_failover self old_active old_standby w
       = (inr (unverified (clock w) st), rm_attempts_made 6 w).
Proof.
  intros H. rewrite verify_rm_unfold.
  destruct (rm_attempts_prefix self old_active 6 0 None 0 w (verify_start (clock w)) H)
    as (last' & E & st & -> & Est).
  cbn [Nat.add] in E. rewrite E.
  cbn [verify_resourcemanager_attempts ret verify_start step_success].
  exists st. split; [done|]. reflexivity.
Qed.

(** A status request raises during attempt [k + 1]. *)
Lemma verify_rm_raised self old_active old_standby w k e :
  (k < 6)%nat -> rm_no_switch self old_active (rm_calls w) k ->
  get_resourcemanager_status (hadoop_client self) (rm_calls w + k) = inl e ->
  _verify_resourcemanager_failover self old_active old_standby w
  = (inr (set_step_error e (verify_start (clock w))), rm_attempts_made (S k) w).
Proof.
  intros Hk H He. rewrite verify_rm_unfold.
  destruct (rm_attempts_prefix self old_active k (S (5 - k)) None 0 w
              (verify_start (clock w)) H) as (last' & E & _).
  replace (k + S (5 - k))%nat with 6%nat in E by lia. rewrite E.
  rewrite rm_attempts_step. cbn [rm_attempts_made rm_calls]. rewrite He.
  rewrite rm_attempts_made_add. do 2 f_equal. lia.
Qed.

(** The switch shows at attempt [k + 1]. *)
Lemma verify_rm_switched self old_active old_standby w k st :
  (k < 6)%nat -> rm_no_switch self old_active (rm_calls w) k ->
  get_resourcemanager_status (hadoop_client self) (rm_calls w + k) = inr st ->
  rm_switch_seen old_active st = true ->
  _verify_resourcemanager_failover self old_active old_standby w
  = (inr (verified old_active
            (if String.eqb old_active "active-rm" then "standby-rm" else "active-rm")
            (k + 1) st (verify_start (clock w))),
     rm_attempts_made (S k) w).
Proof.
  intros Hk H He Hs. rewrite verify_rm_unfold.
  destruct (rm_attempts_prefix self old_active k (S (5 - k)) None 0 w
              (verify_start (clock w)) H) as (last' & E & _).
  replace (k + S (5 - k))%nat with 6%nat in E by lia. rewrite E.
  rewrite rm_attempts_step. cbn [rm_attempts_made rm_calls]. rewrite He, Hs.
  cbn [verified set_step_success step_success Nat.add].
  rewrite rm_attempts_made_add. do 2 f_equal. lia.
Qed.

(** ** ResourceManager: the workflow *)

(** The two ways the workflow can go. *)
Lemma rm_failover_cases self force w :
  let w0 := logged "info" "Starting ResourceManager failover..." w in
  exists s1,
    _check_resourcemanager_status self w0 = (inr s1, rm_polled w0)
    /\ step s1 = "check_status"
    /\ ((step_success s1 = false
         /\ resourcemanager_failover self force w
            = (inr {| type := "resourcemanager_failover"; timestamp := clock w;
                      success := false;
                      steps := [s1; error_step (clock w)
                                      "Failed to get initial ResourceManager status"];
                      error := Some "Failed to get initial ResourceManager status" |},
               logged "error"
                 "ResourceManager failover failed: Failed to get initial ResourceManager status"
                 (rm_polled w0)))
        \/ (exists d s2 s3 w3,
              step_success s1 = true /\ data s1 = Some (CheckStatus d)
              /\ _execute_resourcemanager_failover self (current_active d) (current_standby d)
                   force (rm_polled w0) = (inr s2, slept 2 (rm_polled w0))
              /\ step s2 = "execute_failover" /\ step_success s2 = true
              /\ _verify_resourcemanager_failover self (current_active d) (current_standby d)
                   (slept 10 (slept 2 (rm_polled w0))) = (inr s3, w3)
              /\ step s3 = "verify_failover"
              /\ resourcemanager_failover self force w
                 = (inr {| type := "resourcemanager_failover"; timestamp := clock w;
                           success := step_success s3;
                           steps := [s1; s2; s3]; error := None |},
                    if step_success s3
                    then logged "info" "ResourceManager failover completed successfully" w3
                    else logged "error" "ResourceManager failover verification failed" w3))).
Proof.
  intros w0.
  destruct (check_rm_total self w0) as (s1 & E1 & Hstep1 & Hd).
  exists s1. split; [exact E1|]. split; [exact Hstep1|].
  unfold resourcemanager_failover. run_workflow.
  fold (logged "info" "Starting ResourceManager failover..." w). fold w0.
  rewrite E1.
  destruct (step_success s1) eqn:Hs1; cbn [negb].
  - right. destruct (Hd eq_refl) as (d & Ed). rewrite Ed.
    rewrite execute_rm_eq. cbn [step_success negb].
    fold (slept 10 (slept 2 (rm_polled w0))).
    destruct (verify_rm_total self (current_active d) (current_standby d)
                (slept 10 (slept 2 (rm_polled w0)))) as (s3 & w3 & E3 & Hstep3).
    rewrite E3.
    eexists d, _, s3, w3. split; [done|]. split; [done|].
    split; [reflexivity|]. split; [reflexivity|]. split; [reflexivity|].
    split; [exact E3|]. split; [exact Hstep3|].
    destruct (step_success s3); reflexivity.
  - left. split; [done|]. reflexivity.
Qed.

(** Whatever the client does, the workflow returns a result of one of
    two shapes. *)
Lemma rm_failover_shape self force w :
  exists r w', resourcemanager_failover self force w = (inr r, w')
    /\ (aborted_at_check "Failed to get initial ResourceManager status" r
        \/ ran_to_verification r).
Proof.
  destruct (rm_failover_cases self force w) as (s1 & E1 & Hstep1 & [[Hs1 E]|Hrun]).
  - eexists _, _. split; [exact E|]. left.
    exists s1, (clock w). by repeat split.
  - destruct Hrun as (d & s2 & s3 & w3 & Hs1 & Ed & E2 & Hstep2 & Hs2 & E3 & Hstep3 & E).
    eexists _, _. split; [exact E|]. right.
    exists s1, s2, s3. by repeat split.
Qed.

(** The status check raises: the message lands in the check step. *)
Lemma rm_failover_check_raises self force w e :
  get_resourcemanager_status (hadoop_client self) (rm_calls w) = inl e ->
  exists w', resourcemanager_failover self force w
    = (inr {| type := "resourcemanager_failover"; timestamp := clock w; success := false;
              steps := [check_failed (clock w) e;
                        error_step (clock w) "Failed to get initial ResourceManager status"];
              error := Some "Failed to get initial ResourceManager status" |}, w').
Proof.
  intros He.
  destruct (rm_failover_cases self force w) as (s1 & E1 & _ & Hcases).
  rewrite check_rm_eq in E1. cbn [logged rm_calls clock] in E1. rewrite He in E1.
  injection E1 as <-.
  destruct Hcases as [[_ E]|(d & s2 & s3 & w3 & Hs1 & _)]; [|discriminate Hs1].
  eexists. exact E.
Qed.

(** Neither slot reports active. *)
Lemma rm_failover_no_active self force w st :
  get_resourcemanager_status (hadoop_client self) (rm_calls w) = inr st ->
  is_active (active st) = false -> is_active (standby st) = false ->
  exists w', resourcemanager_failover self force w
    = (inr {| type := "resourcemanager_failover"; timestamp := clock w; success := false;
              steps := [check_failed (clock w) "No active ResourceManager found";
                        error_step (clock w) "Failed to get initial ResourceManager status"];
              error := Some "Failed to get initial ResourceManager status" |}, w').
Proof.
  intros He Ha Hs.
  destruct (rm_failover_cases self force w) as (s1 & E1 & _ & Hcases).
  rewrite check_rm_eq in E1. cbn [logged rm_calls clock] in E1.
  rewrite He, Ha, Hs in E1. injection E1 as <-.
  destruct Hcases as [[_ E]|(d & s2 & s3 & w3 & Hs1 & _)]; [|discriminate Hs1].
  eexists. exact E.
Qed.

(** The roles are found: the workflow goes on to the verification of
    the pair that the check determined. *)
Lemma rm_failover_roles_found self force w old_active :
  rm_roles_found self w old_active ->
  exists s1 s2 s3 w3 old_standby,
    _verify_resourcemanager_failover self old_active old_standby
      (slept 10 (slept 2 (rm_polled (logged "info" "Starting ResourceManager failover..." w))))
    = (inr s3, w3)
    /\ step s1 = "check_status" /\ step_success s1 = true
    /\ step s2 = "execute_failover" /\ step_success s2 = true
    /\ resourcemanager_failover self force w
       = (inr {| type := "resourcemanager_failover"; timestamp := clock w;
                 success := step_success s3;
                 steps := [s1; s2; s3]; error := None |},
          if step_success s3
          then logged "info" "ResourceManager failover completed successfully" w3
          else logged "error" "ResourceManager failover verification failed" w3).
Proof.
  intros (st0 & He & Hany & ->).
  destruct (rm_failover_cases self force w) as (s1 & E1 & Hstep1 & Hcases).
  rewrite check_rm_eq in E1. cbn [logged rm_calls clock] in E1. rewrite He in E1.
  assert (Hs1 : step_success s1 = true
                /\ data s1 = Some (CheckStatus
                     {| current_active :=
                          if is_active (active st0) then "active-rm" else "standby-rm";
                        current_standby :=
                          if is_active (active st0) then "standby-rm" else "active-rm";
                        active_status := active st0;
                        standby_status := standby st0 |})).
  { destruct (is_active (active st0)); [by injection E1 as <-|].
    cbn [orb] in Hany. rewrite Hany in E1. by injection E1 as <-. }
  destruct Hs1 as [Hs1 Hd1].
  destruct Hcases as [[Hf _]|(d & s2 & s3 & w3 & _ & Ed & _ & Hstep2 & Hs2 & E3 & _ & E)];
    [congruence|].
  rewrite Hd1 in Ed. injection Ed as <-. cbn [current_active current_standby] in E3.
  eexists s1, s2, s3, w3, _. split; [exact E3|]. by repeat split.
Qed.

(** ** NameNode: what a caller gets *)

Lemma nn_failover_complete self force w :
  exists r w', namenode_failover self force w = (inr r, w')
    /\ (success r = true <-> verification_succeeded r)
    /\ (aborted_at_check "Failed to get initial NameNode status" r
        \/ ran_to_verification r)
    /\ (forall e,
          get_namenode_status (hadoop_client self) (nn_calls w) = inl e ->
          steps r = [check_failed (clock w) e;
                     error_step (clock w) "Failed to get initial NameNode status"]
          /\ error r = Some "Failed to get initial NameNode status")
    /\ (forall old_active k e,
          nn_roles_found self w old_active -> (k < 6)%nat ->
          nn_no_switch self old_active (S (nn_calls w)) k ->
          get_namenode_status (hadoop_client self) (S (nn_calls w) + k) = inl e ->
          exists s1 s2 s3, steps r = [s1; s2; s3]
            /\ step s3 = "verify_failover" /\ step_success s3 = false
            /\ step_error s3 = Some e
            /\ success r = false /\ error r = None).
Proof.
  destruct (nn_failover_shape self force w) as (r & w' & E & Hshape).
  exists r, w'. split; [exact E|]. split; [|split; [exact Hshape|split]].
  - destruct Hshape as [(s1 & ts & Hsteps & _ & _ & Hsucc & _)
                       |(s1 & s2 & s3 & Hsteps & _ & _ & _ & _ & Hstep3 & Hsucc & _)].
    + split; [congruence|]. intros (a & b & c & Habc & _). congruence.
    + split.
      * intros Hr. exists s1, s2, s3. repeat split; congruence.
      * intros (a & b & c & Habc & _ & Hc). rewrite Hsteps in Habc.
        injection Habc as -> -> ->. congruence.
  - intros e He.
    destruct (nn_failover_check_raises self force w e He) as (w2 & E2).
    rewrite E in E2. injection E2 as -> _. by split.
  - intros old_active k e Hroles Hk Hno He.
    destruct (nn_failover_roles_found self force w old_active Hroles)
      as (s1 & s2 & s3 & w3 & old_standby & E3 & _ & _ & _ & _ & E2).
    rewrite (verify_nn_raised self old_active old_standby _ k e Hk) in E3;
      [|exact Hno|exact He].
    injection E3 as <- _.
    rewrite E in E2. injection E2 as -> _.
    exists s1, s2, (set_step_error e
      (verify_start (clock (slept 10 (slept 2 (nn_polled
         (logged "info" "Starting NameNode failover..." w))))))).
    by repeat split.
Qed.

Lemma nn_check_outcome self w st :
  get_namenode_status (hadoop_client self) (nn_calls w) = inr st ->
  exists s,
    _check_namenode_status self w = (inr s, nn_polled w)
    /\ step_success s = is_active (active st) || is_active (standby st)
    /\ s = (if is_active (active st)
            then check_passed (clock w) "active-nn" "standby-nn" st
            else if is_active (standby st)
            then check_passed (clock w) "standby-nn" "active-nn" st
            else check_failed (clock w) "No active NameNode found").
Proof.
  intros He. rewrite check_nn_eq, He. eexists. split; [reflexivity|].
  split; [|reflexivity].
  destruct (is_active (active st)); [reflexivity|].
  destruct (is_active (standby st)); reflexivity.
Qed.

Lemma nn_exhausted self force w old_active :
  nn_roles_found self w old_active ->
  nn_no_switch self old_active (S (nn_calls w)) 6 ->
  exists r w' s1 s2 s3 d,
    namenode_failover self force w = (inr r, w')
    /\ success r = false /\ error r = None
    /\ steps r = [s1; s2; s3]
    /\ step s3 = "verify_failover" /\ step_success s3 = false
    /\ step_error s3 = Some "Failover verification failed after 6 attempts"
    /\ data s3 = Some (VerifyFailover d)
    /\ failover_verified d = false /\ attempts d = None
    /\ get_namenode_status (hadoop_client self) (nn_calls w + 6) = inr (final_status d)
    /\ nn_calls w' = (nn_calls w + 7)%nat.
Proof.
  intros Hroles Hno.
  destruct (nn_failover_roles_found self force w old_active Hroles)
    as (s1 & s2 & s3 & w3 & old_standby & E3 & _ & _ & _ & _ & E).
  destruct (verify_nn_exhausted self old_active old_standby
              (slept 10 (slept 2 (nn_polled
                 (logged "info" "Starting NameNode failover..." w)))) Hno)
    as (st & Est & Ev).
  rewrite Ev in E3. injection E3 as <- <-.
  eexists _, _, s1, s2, (unverified _ st),
    {| failover_verified := false; new_active := None; new_standby := None;
       attempts := None; final_status := st |}.
  split; [exact E|].
  cbn [success steps error unverified step_success step step_error data
       failover_verified attempts final_status].
  repeat split.
  - rewrite <- Est. f_equal. cbn. lia.
  - cbn. lia.
Qed.

(** ** ResourceManager: what a caller gets *)

Lemma rm_failover_complete self force w :
  exists r w', resourcemanager_failover self force w = (inr r, w')
    /\ (success r = true <-> verification_succeeded r)
    /\ (aborted_at_check "Failed to get initial ResourceManager status" r
        \/ ran_to_verification r)
    /\ (forall e,
          get_resourcemanager_status (hadoop_client self) (rm_calls w) = inl e ->
          steps r = [check_failed (clock w) e;
                     error_step (clock w) "Failed to get initial ResourceManager status"]
          /\ error r = Some "Failed to get initial ResourceManager status")
    /\ (forall old_active k e,
          rm_roles_found self w old_active -> (k < 6)%nat ->
          rm_no_switch self old_active (S (rm_calls w)) k ->
          get_resourcemanager_status (hadoop_client self) (S (rm_calls w) + k) = inl e ->
          exists s1 s2 s3, steps r = [s1; s2; s3]
            /\ step s3 = "verify_failover" /\ step_success s3 = false
            /\ step_error s3 = Some e
            /\ success r = false /\ error r = None).
Proof.
  destruct (rm_failover_shape self force w) as (r & w' & E & Hshape).
  exists r, w'. split; [exact E|]. split; [|split; [exact Hshape|split]].
  - destruct Hshape as [(s1 & ts & Hsteps & _ & _ & Hsucc & _)
                       |(s1 & s2 & s3 & Hsteps & _ & _ & _ & _ & Hstep3 & Hsucc & _)].
    + split; [congruence|]. intros (a & b & c & Habc & _). congruence.
    + split.
      * intros Hr. exists s1, s2, s3. repeat split; congruence.
      * intros (a & b & c & Habc & _ & Hc). rewrite Hsteps in Habc.
        injection Habc as -> -> ->. congruence.
  - intros e He.
    destruct (rm_failover_check_raises self force w e He) as (w2 & E2).
    rewrite E in E2. injection E2 as -> _. by split.
  - intros old_active k e Hroles Hk Hno He.
    destruct (rm_failover_roles_found self force w old_active Hroles)
      as (s1 & s2 & s3 & w3 & old_standby & E3 & _ & _ & _ & _ & E2).
    rewrite (verify_rm_raised self old_active old_standby _ k e Hk) in E3;
      [|exact Hno|exact He].
    injection E3 as <- _.
    rewrite E in E2. injection E2 as -> _.
    exists s1, s2, (set_step_error e
      (verify_start (clock (slept 10 (slept 2 (rm_polled
         (logged "info" "Starting ResourceManager failover..." w))))))).
    by repeat split.
Qed.

Lemma rm_check_outcome self w st :
  get_resourcemanager_status (hadoop_client self) (rm_calls w) = inr st ->
  exists s,
    _check_resourcemanager_status self w = (inr s, rm_polled w)
    /\ step_success s = is_active (active st) || is_active (standby st)
    /\ s = (if is_active (active st)
            then check_passed (clock w) "active-rm" "standby-rm" st
            else if is_active (standby st)
            then check_passed (clock w) "standby-rm" "active-rm" st
            else check_failed (clock w) "No active ResourceManager found").
Proof.
  intros He. rewrite check_rm_eq, He. eexists. split; [reflexivity|].
  split; [|reflexivity].
  destruct (is_active (active st)); [reflexivity|].
  destruct (is_active (standby st)); reflexivity.
Qed.

Lemma rm_exhausted self force w old_active :
  rm_roles_found self w old_active ->
  rm_no_switch self old_active (S (rm_calls w)) 6 ->
  exists r w' s1 s2 s3 d,
    resourcemanager_failover self force w = (inr r, w')
    /\ success r = false /\ error r = None
    /\ steps r = [s1; s2; s3]
    /\ step s3 = "verify_failover" /\ step_success s3 = false
    /\ step_error s3 = Some "Failover verification failed after 6 attempts"
    /\ data s3 = Some (VerifyFailover d)
    /\ failover_verified d = false /\ attempts d = None
    /\ get_resourcemanager_status (hadoop_client self) (rm_calls w + 6) = inr (final_status d)
    /\ rm_calls w' = (rm_calls w + 7)%nat.
Proof.
  intros Hroles Hno.
  destruct (rm_failover_roles_found self force w old_active Hroles)
    as (s1 & s2 & s3 & w3 & old_standby & E3 & _ & _ & _ & _ & E).
  destruct (verify_rm_exhausted self old_active old_standby
              (slept 10 (slept 2 (rm_polled
                 (logged "info" "Starting ResourceManager failover..." w)))) Hno)
    as (st & Est & Ev).
  rewrite Ev in E3. injection E3 as <- <-.
  eexists _, _, s1, s2, (unverified _ st),
    {| failover_verified := false; new_active := None; new_standby := None;
       attempts := None; final_status := st |}.
  split; [exact E|].
  cbn [success steps error unverified step_success step step_error data
       failover_verified attempts final_status].
  repeat split.
  - rewrite <- Est. f_equal. cbn. lia.
  - cbn. lia.
Qed.

(** ** Both workflows *)

(** The happy path: the roles switch at the third verification attempt. *)
Example switch_at_third_attempt :
  exists r w' s1 s2 s3 d,
    namenode_failover switching false start = (inr r, w')
    /\ success r = true /\ error r = None /\ steps r = [s1; s2; s3]
    /\ data s3 = Some (VerifyFailover d) /\ attempts d = Some 3%nat
    /\ new_active d = Some "standby-nn".
Proof. vm_compute. eexists _, _, _, _, _, _. repeat split. Qed.

(** C1, as stated, fails: the client raises during verification; the
    call returns, but no step of kind "error" is appended and the
    top-level error stays empty. *)
Lemma exception_during_verification_not_surfaced :
  exists r w',
    resourcemanager_failover flaky true start = (inr r, w')
    /\ raised_during (get_resourcemanager_status (hadoop_client flaky))
         (rm_calls start) (rm_calls w') "connection refused"
    /\ ~ surfaced r "connection refused"
    /\ error r = None
    /\ Forall (fun s => step s <> "error") (steps r).
Proof.
  vm_compute. eexists _, _. split; [reflexivity|]. split; [|split; [|split]].
  - exists 1%nat. repeat split; repeat constructor.
  - intros [H _]. discriminate H.
  - reflexivity.
  - repeat constructor; discriminate.
Qed.

(** C5, as stated, fails: when both slots report active the status
    check succeeds and takes the active slot as the active node. *)
Lemma split_brain_check_succeeds :
  get_namenode_status (hadoop_client split_brain) (nn_calls start)
    = inr (pair true true)
  /\ is_active (active (pair true true)) = true
  /\ is_active (standby (pair true true)) = true
  /\ _check_namenode_status split_brain start
     = (inr (check_passed 0 "active-nn" "standby-nn" (pair true true)),
        nn_polled start)
  /\ step_success (check_passed 0 "active-nn" "standby-nn" (pair true true)) = true.
Proof. repeat split. Qed.

(** C5 (amended): for every pair of status records that the client
    returns, the status check succeeds exactly when at least one of the
    two slots reports itself active.  If the active slot does, it is
    taken as the current active node, whatever the standby slot
    reports; otherwise, if the standby slot does, the roles are taken
    as swapped; and the step records both node names and both slot
    records.  Only when neither slot reports active does the step fail,
    with the error "No active NameNode found" ("No active
    ResourceManager found") and empty data. *)
Theorem check_status_outcome (self : FailoverManager) (w : World) :
  (forall st,
     get_namenode_status (hadoop_client self) (nn_calls w) = inr st ->
     exists s,
       _check_namenode_status self w = (inr s, nn_polled w)
       /\ step_success s = is_active (active st) || is_active (standby st)
       /\ s = (if is_active (active st)
               then check_passed (clock w) "active-nn" "standby-nn" st
               else if is_active (standby st)
               then check_passed (clock w) "standby-nn" "active-nn" st
               else check_failed (clock w) "No active NameNode found"))
  /\ (forall st,
        get_resourcemanager_status (hadoop_client self) (rm_calls w) = inr st ->
        exists s,
          _check_resourcemanager_status self w = (inr s, rm_polled w)
          /\ step_success s = is_active (active st) || is_active (standby st)
          /\ s = (if is_active (active st)
                  then check_passed (clock w) "active-rm" "standby-rm" st
                  else if is_active (standby st)
                  then check_passed (clock w) "standby-rm" "active-rm" st
                  else check_failed (clock w) "No active ResourceManager found")).
Proof.
  split; intros st He; [by apply nn_check_outcome | by apply rm_check_outcome].
Qed.

Lemma check_status_outcome_at_steady :
  (exists s, _check_namenode_status steady start = (inr s, nn_polled start)
     /\ s = check_passed 0 "active-nn" "standby-nn" (pair true false))
  /\ (exists s, _check_resourcemanager_status no_active start = (inr s, rm_polled start)
        /\ s = check_failed 0 "No active ResourceManager found").
Proof.
  split.
  - destruct (proj1 (check_status_outcome steady start) (pair true false) eq_refl)
      as (s & E & _ & Hs).
    exists s. split; [exact E|exact Hs].
  - destruct (proj2 (check_status_outcome no_active start) (pair false false) eq_refl)
      as (s & E & _ & Hs).
    exists s. split; [exact E|exact Hs].
Defined.

(** C6, as stated, fails: when the status check finds no active node,
    the result holds two steps, not one. *)
Lemma no_active_records_two_steps :
  exists r w',
    namenode_failover no_active false start = (inr r, w')
    /\ get_namenode_status (hadoop_client no_active) (nn_calls start)
       = inr (pair false false)
    /\ success r = false
    /\ length (steps r) = 2%nat
    /\ length (steps r) <> 1%nat.
Proof. vm_compute. eexists _, _. repeat split. discriminate. Qed.

(** C6 (amended): if both probed records report themselves not active,
    the workflow returns [success] false, a non-empty error ("Failed to
    get initial ... status") and exactly two steps: the unsuccessful
    status check, with the error "No active ... found", and a step of
    kind "error" that repeats the top-level error. *)
Theorem abort_at_check_outcome (self : FailoverManager) (force : bool) (w : World) :
  (forall st,
     get_namenode_status (hadoop_client self) (nn_calls w) = inr st ->
     is_active (active st) = false -> is_active (standby st) = false ->
     exists w', namenode_failover self force w
       = (inr {| type := "namenode_failover"; timestamp := clock w; success := false;
                 steps := [check_failed (clock w) "No active NameNode found";
                           error_step (clock w) "Failed to get initial NameNode status"];
                 error := Some "Failed to get initial NameNode status" |}, w'))
  /\ (forall st,
        get_resourcemanager_status (hadoop_client self) (rm_calls w) = inr st ->
        is_active (active st) = false -> is_active (standby st) = false ->
        exists w', resourcemanager_failover self force w
          = (inr {| type := "resourcemanager_failover"; timestamp := clock w;
                    success := false;
                    steps := [check_failed (clock w) "No active ResourceManager found";
                              error_step (clock w)
                                "Failed to get initial ResourceManager status"];
                    error := Some "Failed to get initial ResourceManager status" |}, w')).
Proof.
  split; intros st He Ha Hs;
    [by apply (nn_failover_no_active self force w st)
    |by apply (rm_failover_no_active self force w st)].
Qed.

Lemma abort_at_check_outcome_at_no_active :
  (exists w', namenode_failover no_active true start
     = (inr {| type := "namenode_failover"; timestamp := 0; success := false;
               steps := [check_failed 0 "No active NameNode found";
                         error_step 0 "Failed to get initial NameNode status"];
               error := Some "Failed to get initial NameNode status" |}, w'))
  /\ (exists w', resourcemanager_failover no_active true start
        = (inr {| type := "resourcemanager_failover"; timestamp := 0; success := false;
                  steps := [check_failed 0 "No active ResourceManager found";
                            error_step 0 "Failed to get initial ResourceManager status"];
                  error := Some "Failed to get initial ResourceManager status" |}, w')).
Proof.
  split.
  - apply (proj1 (abort_at_check_outcome no_active true start) (pair false false));
      reflexivity.
  - apply (proj2 (abort_at_check_outcome no_active true start) (pair false false));
      reflexivity.
Defined.

(** C7, as stated, fails: after six attempts without a switch the data
    of the verification step has no attempt count. *)
Lemma exhausted_verification_has_no_attempt_count :
  exists r w' s1 s2 s3 d,
    namenode_failover steady false start = (inr r, w')
    /\ nn_no_switch steady "active-nn" 1 6
    /\ success r = false
    /\ steps r = [s1; s2; s3]
    /\ step s3 = "verify_failover"
    /\ data s3 = Some (VerifyFailover d)
    /\ attempts d = None
    /\ attempts d <> Some 6%nat.
Proof.
  vm_compute. eexists _, _, _, _, _, _. split; [reflexivity|]. split.
  - intros j _. eexists. split; reflexivity.
  - repeat split. discriminate.
Qed.

(** C7 (amended): if the status check found the roles and none of the
    six verification attempts shows the switch, the workflow returns
    (it does not raise) a result with [success] false, no top-level
    error, and a third step of kind "verify_failover" that is
    unsuccessful like any other: its error is "Failover verification
    failed after 6 attempts", and its data holds [failover_verified]
    false and the status seen at the sixth attempt.  The number of
    attempts is in the error message; the data has no attempt count. *)
Theorem exhausted_verification_outcome (self : FailoverManager) (force : bool)
    (w : World) (old_active : string) :
  (nn_roles_found self w old_active ->
   nn_no_switch self old_active (S (nn_calls w)) 6 ->
   exists r w' s1 s2 s3 d,
     namenode_failover self force w = (inr r, w')
     /\ success r = false /\ error r = None
     /\ steps r = [s1; s2; s3]
     /\ step s3 = "verify_failover" /\ step_success s3 = false
     /\ step_error s3 = Some "Failover verification failed after 6 attempts"
     /\ data s3 = Some (VerifyFailover d)
     /\ failover_verified d = false /\ attempts d = None
     /\ get_namenode_status (hadoop_client self) (nn_calls w + 6) = inr (final_status d)
     /\ nn_calls w' = (nn_calls w + 7)%nat)
  /\ (rm_roles_found self w old_active ->
      rm_no_switch self old_active (S (rm_calls w)) 6 ->
      exists r w' s1 s2 s3 d,
        resourcemanager_failover self force w = (inr r, w')
        /\ success r = false /\ error r = None
        /\ steps r = [s1; s2; s3]
        /\ step s3 = "verify_failover" /\ step_success s3 = false
        /\ step_error s3 = Some "Failover verification failed after 6 attempts"
        /\ data s3 = Some (VerifyFailover d)
        /\ failover_verified d = false /\ attempts d = None
        /\ get_resourcemanager_status (hadoop_client self) (rm_calls w + 6)
           = inr (final_status d)
        /\ rm_calls w' = (rm_calls w + 7)%nat).
Proof.
  split; [apply nn_exhausted | apply rm_exhausted].
Qed.

Lemma exhausted_verification_outcome_at_steady :
  nn_roles_found steady start "active-nn"
  /\ nn_no_switch steady "active-nn" 1 6
  /\ rm_roles_found split_brain start "active-rm"
  /\ rm_no_switch split_brain "active-rm" 1 6
  /\ (exists r w', namenode_failover steady false start = (inr r, w')
        /\ success r = false /\ error r = None /\ nn_calls w' = 7%nat)
  /\ (exists r w', resourcemanager_failover split_brain false start = (inr r, w')
        /\ success r = false /\ error r = None /\ rm_calls w' = 7%nat).
Proof.
  assert (H1 : nn_roles_found steady start "active-nn")
    by (exists (pair true false); repeat split).
  assert (H2 : nn_no_switch steady "active-nn" 1 6)
    by (intros j _; exists (pair true false); split; reflexivity).
  assert (H3 : rm_roles_found split_brain start "active-rm")
    by (exists (pair true true); repeat split).
  assert (H4 : rm_no_switch split_brain "active-rm" 1 6)
    by (intros j _; exists (pair true true); split; reflexivity).
  do 4 (split; [assumption|]). split.
  - destruct (proj1 (exhausted_verification_outcome steady false start "active-nn") H1 H2)
      as (r & w' & s1 & s2 & s3 & d & E & Hs & He & _ & _ & _ & _ & _ & _ & _ & _ & Hn).
    exists r, w'. repeat split; assumption.
  - destruct (proj2 (exhausted_verification_outcome split_brain false start "active-rm")
                H3 H4)
      as (r & w' & s1 & s2 & s3 & d & E & Hs & He & _ & _ & _ & _ & _ & _ & _ & _ & Hn).
    exists r, w'. repeat split; assumption.
Defined.

(** C9: whatever nodes and force flag it is given, the execute step of
    either workflow returns a successful step without an error; so
    every workflow that gets past the status check reaches
    verification: its result is never the abort on a failed command. *)
Theorem execute_step_always_succeeds (self : FailoverManager)
    (current_active current_standby : string) (force : bool) (w : World) :
  (exists s,
     _execute_namenode_failover self current_active current_standby force w
       = (inr s, slept 2 w)
     /\ step s = "execute_failover" /\ step_success s = true /\ step_error s = None)
  /\ (exists s,
        _execute_resourcemanager_failover self current_active current_standby force w
          = (inr s, slept 2 w)
        /\ step s = "execute_failover" /\ step_success s = true
        /\ step_error s = None)
  /\ (exists r w', namenode_failover self force w = (inr r, w')
        /\ (aborted_at_check "Failed to get initial NameNode status" r
            \/ ran_to_verification r))
  /\ (exists r w', resourcemanager_failover self force w = (inr r, w')
        /\ (aborted_at_check "Failed to get initial ResourceManager status" r
            \/ ran_to_verification r)).
Proof.
  split; [|split; [|split]].
  - rewrite execute_nn_eq. eexists. by repeat split.
  - rewrite execute_rm_eq. eexists. by repeat split.
  - apply nn_failover_shape.
  - apply rm_failover_shape.
Qed.

End FailoverFacts.

(** * Facts about failover.py in a task that can be cancelled *)

Module CancellationFacts.
Import Failover FailoverSpec.
Import Cancellation CancellationSpec.

(** ** Each construct follows its counterpart *)

Section Follows.
Context (task : Task).

Lemma follows_ret {S A} (a : A) :
  follows (S := S) task (Cancellation.ret a) (Failover.ret a).
Proof. intros s. by left. Qed.

Lemma follows_raise {S A} (msg : string) :
  follows (S := S) (A := A) task
    (Cancellation.raise (Exception msg)) (Failover.raise msg).
Proof. intros s. by left. Qed.

Lemma follows_bind {S A B} (c : Cancellation.M S A) (c0 : Failover.M S A)
    (k : A -> Cancellation.M S B) (k0 : A -> Failover.M S B) :
  follows task c c0 -> (forall a, follows task (k a) (k0 a)) ->
  follows task (Cancellation.bind c k) (Failover.bind c0 k0).
Proof.
  intros Hc Hk s. unfold Cancellation.bind, Failover.bind.
  destruct (Hc s) as [E|[Hq [s' E]]]; rewrite E.
  - destruct (c0 s) as [[e|a] s1]; cbn; [by left|]. apply Hk.
  - right. split; [exact Hq|]. by exists s'.
Qed.

Lemma follows_try_except {S A} (body : Cancellation.M S A) (body0 : Failover.M S A)
    (handler : string -> Cancellation.M S A) (handler0 : string -> Failover.M S A) :
  follows task body body0 -> (forall e, follows task (handler e) (handler0 e)) ->
  follows task (Cancellation.try_except body handler)
               (Failover.try_except body0 handler0).
Proof.
  intros Hb Hh s. unfold Cancellation.try_except, Failover.try_except.
  destruct (Hb s) as [E|[Hq [s' E]]]; rewrite E.
  - destruct (body0 s) as [[e|a] s1]; cbn; [apply Hh|by left].
  - right. split; [exact Hq|]. by exists s'.
Qed.

Lemma follows_with_local {S L A} (l : L) (body : Cancellation.M (S * L) A)
    (body0 : Failover.M (S * L) A) :
  follows task body body0 ->
  follows task (Cancellation.with_local l body) (Failover.with_local l body0).
Proof.
  intros Hb s. unfold Cancellation.with_local, Failover.with_local.
  destruct (Hb (s, l)) as [E|[Hq [[s' l'] E]]]; rewrite E.
  - destruct (body0 (s, l)) as [[e|a] [s1 l1]]; cbn; by left.
  - right. split; [exact Hq|]. by exists s'.
Qed.

Lemma follows_outer {S L A} (c : Cancellation.M S A) (c0 : Failover.M S A) :
  follows task c c0 ->
  follows (S := S * L) task (Cancellation.outer c) (Failover.outer c0).
Proof.
  intros Hc [s l]. unfold Cancellation.outer, Failover.outer. cbn [fst snd].
  destruct (Hc s) as [E|[Hq [s' E]]]; rewrite E.
  - destruct (c0 s) as [[e|a] s1]; cbn; by left.
  - right. split; [exact Hq|]. by exists (s', l).
Qed.

Lemma follows_get_local {S L} :
  follows (S := S * L) task Cancellation.get_local Failover.get_local.
Proof. intros s. by left. Qed.

Lemma follows_update_local {S L} (f : L -> L) :
  follows (S := S * L) task (Cancellation.update_local f) (Failover.update_local f).
Proof. intros s. by left. Qed.

Lemma follows_now : follows task Cancellation.now Failover.now.
Proof. intros s. by left. Qed.

Lemma follows_logger_call (method message : string) :
  follows task (Cancellation.logger_call method message)
               (Failover.logger_call method message).
Proof. intros s. by left. Qed.

Lemma follows_sleep (seconds : nat) :
  follows task (Cancellation.sleep task seconds) (Failover.sleep seconds).
Proof.
  intros w. unfold Cancellation.sleep, Failover.sleep.
  destruct (cancelled_in_sleep task (clock w)) eqn:E; [right|by left].
  split; [|by exists w]. intros (_ & _ & Hq). rewrite Hq in E. discriminate E.
Qed.

Lemma follows_call_get_namenode_status (self : FailoverManager) :
  follows task (Cancellation.call_get_namenode_status task self)
               (Failover.call_get_namenode_status self).
Proof.
  intros w. unfold Cancellation.call_get_namenode_status,
    Failover.call_get_namenode_status, awaited.
  destruct (cancelled_in_namenode_request task (nn_calls w)) eqn:E.
  - right. split; [|by eexists]. intros (Hq & _). rewrite Hq in E. discriminate E.
  - left. by destruct (get_namenode_status (hadoop_client self) (nn_calls w)).
Qed.

Lemma follows_call_get_resourcemanager_status (self : FailoverManager) :
  follows task (Cancellation.call_get_resourcemanager_status task self)
               (Failover.call_get_resourcemanager_status self).
Proof.
  intros w. unfold Cancellation.call_get_resourcemanager_status,
    Failover.call_get_resourcemanager_status, awaited.
  destruct (cancelled_in_resourcemanager_request task (rm_calls w)) eqn:E.
  - right. split; [|by eexists]. intros (_ & Hq & _). rewrite Hq in E. discriminate E.
  - left. by destruct (get_resourcemanager_status (hadoop_client self) (rm_calls w)).
Qed.

(** ** Each workflow follows its counterpart *)

Ltac follow_step :=
  first
    [ match goal with H : context [follows] |- _ => apply H end
    | apply follows_ret | apply follows_raise
    | apply follows_get_local | apply follows_update_local
    | apply follows_now | apply follows_logger_call | apply follows_sleep
    | apply follows_call_get_namenode_status
    | apply follows_call_get_resourcemanager_status
    | apply follows_outer | apply follows_with_local
    | apply follows_try_except; [|intros ?]
    | apply follows_bind; [|intros ?]
    | match goal with
      | |- follows _ (if ?b then _ else _) _ => destruct b
      | |- follows _ (match ?x with _ => _ end) _ => destruct x
      end
    | progress cbv zeta ].

Ltac follow := cbv zeta; repeat follow_step.

Lemma follows_check_namenode_status (self : FailoverManager) :
  follows task (Cancellation._check_namenode_status task self)
               (Failover._check_namenode_status self).
Proof.
  unfold Cancellation._check_namenode_status, Failover._check_namenode_status.
  follow.
Qed.

Lemma follows_execute_namenode_failover (self : FailoverManager)
    (current_active current_standby : string) (force : bool) :
  follows task
    (Cancellation._execute_namenode_failover task self current_active
       current_standby force)
    (Failover._execute_namenode_failover self current_active current_standby force).
Proof.
  unfold Cancellation._execute_namenode_failover, Failover._execute_namenode_failover.
  follow.
Qed.

Lemma follows_verify_namenode_attempts (self : FailoverManager) (old_active : string)
    (remaining : nat) :
  forall (nn_status : option HAStatus) (attempt : nat),
    follows task
      (Cancellation.verify_namenode_attempts task self old_active nn_status
         attempt remaining)
      (Failover.verify_namenode_attempts self old_active nn_status attempt remaining).
Proof.
  induction remaining as [|remaining IH]; intros nn_status attempt;
    cbn [Cancellation.verify_namenode_attempts Failover.verify_namenode_attempts].
  - apply follows_ret.
  - follow.
Qed.

Lemma follows_verify_namenode_failover (self : FailoverManager)
    (old_active old_standby : string) :
  follows task
    (Cancellation._verify_namenode_failover task self old_active old_standby)
    (Failover._verify_namenode_failover self old_active old_standby).
Proof.
  unfold Cancellation._verify_namenode_failover, Failover._verify_namenode_failover.
  pose proof (follows_verify_namenode_attempts self old_active 6 None 0).
  follow.
Qed.

Lemma follows_namenode_failover (self : FailoverManager) (force : bool) :
  follows task (Cancellation.namenode_failover task self force)
               (Failover.namenode_failover self force).
Proof.
  unfold Cancellation.namenode_failover, Failover.namenode_failover.
  pose proof (follows_check_namenode_status self).
  pose proof (follows_execute_namenode_failover self).
  pose proof (follows_verify_namenode_failover self).
  follow.
Qed.

Lemma follows_check_resourcemanager_status (self : FailoverManager) :
  follows task (Cancellation._check_resourcemanager_status task self)
               (Failover._check_resourcemanager_status self).
Proof.
  unfold Cancellation._check_resourcemanager_status,
    Failover._check_resourcemanager_status.
  follow.
Qed.

Lemma follows_execute_resourcemanager_failover (self : FailoverManager)
    (current_active current_standby : string) (force : bool) :
  follows task
    (Cancellation._execute_resourcemanager_failover task self current_active
       current_standby force)
    (Failover._execute_resourcemanager_failover self current_active current_standby
       force).
Proof.
  unfold Cancellation._execute_resourcemanager_failover,
    Failover._execute_resourcemanager_failover.
  follow.
Qed.

Lemma follows_verify_resourcemanager_attempts (self : FailoverManager)
    (old_active : string) (remaining : nat) :
  forall (rm_status : option HAStatus) (attempt : nat),
    follows task
      (Cancellation.verify_resourcemanager_attempts task self old_active rm_status
         attempt remaining)
      (Failover.verify_resourcemanager_attempts self old_active rm_status attempt
         remaining).
Proof.
  induction remaining as [|remaining IH]; intros rm_status attempt;
    cbn [Cancellation.verify_resourcemanager_attempts
         Failover.verify_resourcemanager_attempts].
  - apply follows_ret.
  - follow.
Qed.

Lemma follows_verify_resourcemanager_failover (self : FailoverManager)
    (old_active old_standby : string) :
  follows task
    (Cancellation._verify_resourcemanager_failover task self old_active old_standby)
    (Failover._verify_resourcemanager_failover self old_active old_standby).
Proof.
  unfold Cancellation._verify_resourcemanager_failover,
    Failover._verify_resourcemanager_failover.
  pose proof (follows_verify_resourcemanager_attempts self old_active 6 None 0).
  follow.
Qed.

Lemma follows_resourcemanager_failover (self : FailoverManager) (force : bool) :
  follows task (Cancellation.resourcemanager_failover task self force)
               (Failover.resourcemanager_failover self force).
Proof.
  unfold Cancellation.resourcemanager_failover, Failover.resourcemanager_failover.
  pose proof (follows_check_resourcemanager_status self).
  pose proof (follows_execute_resourcemanager_failover self).
  pose proof (follows_verify_resourcemanager_failover self).
  follow.
Qed.

End Follows.

(** ** NameNode: what a caller gets *)

Ltac run_namenode_task :=
  unfold returns, cancelled, Cancellation.namenode_failover,
    Cancellation._check_namenode_status, Cancellation.call_get_namenode_status,
    Cancellation._execute_namenode_failover, Cancellation.sleep,
    Cancellation.logger_call, Cancellation.now, Cancellation.with_local,
    Cancellation.try_except, Cancellation.bind, Cancellation.outer,
    Cancellation.update_local, Cancellation.get_local, Cancellation.ret,
    Cancellation.raise;
  cbn.

(** A run gives the result of the same run in module [Failover], or it
    is cancelled. *)
Lemma namenode_failover_outcome task self force w :
  returns (Cancellation.namenode_failover task self force w)
          (namenode_result_complete self w)
  \/ (cancelled (Cancellation.namenode_failover task self force w) /\ ~ quiet task).
Proof.
  destruct (FailoverFacts.nn_failover_complete self force w) as (r & w' & E & Hfacts).
  destruct (follows_namenode_failover task self force w) as [H|[Hq H]].
  - left. exists r, w'. rewrite H, E. split; [reflexivity|exact Hfacts].
  - right. by split.
Qed.

Lemma namenode_request_cancelled task self force w :
  cancelled_in_namenode_request task (nn_calls w) = true ->
  cancelled (Cancellation.namenode_failover task self force w).
Proof.
  intros H. run_namenode_task. rewrite H. cbn. by eexists.
Qed.

Lemma namenode_command_cancelled task self force w :
  cancelled_in_namenode_request task (nn_calls w) = false ->
  (exists old_active, nn_roles_found self w old_active) ->
  cancelled_in_sleep task (clock w) = true ->
  cancelled (Cancellation.namenode_failover task self force w).
Proof.
  intros Hreq (old_active & st & Hst & Hact & _) Hsleep.
  run_namenode_task. rewrite Hreq, Hst. cbn.
  destruct (is_active (active st)); cbn.
  - rewrite Hsleep. cbn. by eexists.
  - cbn in Hact. rewrite Hact. cbn. rewrite Hsleep. cbn. by eexists.
Qed.

Lemma namenode_check_exception task self force w e :
  cancelled_in_namenode_request task (nn_calls w) = false ->
  get_namenode_status (hadoop_client self) (nn_calls w) = inl e ->
  returns (Cancellation.namenode_failover task self force w)
    (fun r => steps r = [check_failed (clock w) e;
                         error_step (clock w) "Failed to get initial NameNode status"]
              /\ success r = false
              /\ error r = Some "Failed to get initial NameNode status").
Proof.
  intros Hreq He. run_namenode_task. rewrite Hreq, He. cbn.
  eexists _, _. split; [reflexivity|]. by cbn.
Qed.

(** ** ResourceManager: what a caller gets *)

Ltac run_resourcemanager_task :=
  unfold returns, cancelled, Cancellation.resourcemanager_failover,
    Cancellation._check_resourcemanager_status, Cancellation.call_get_resourcemanager_status,
    Cancellation._execute_resourcemanager_failover, Cancellation.sleep,
    Cancellation.logger_call, Cancellation.now, Cancellation.with_local,
    Cancellation.try_except, Cancellation.bind, Cancellation.outer,
    Cancellation.update_local, Cancellation.get_local, Cancellation.ret,
    Cancellation.raise;
  cbn.

(** A run gives the result of the same run in module [Failover], or it
    is cancelled. *)
Lemma resourcemanager_failover_outcome task self force w :
  returns (Cancellation.resourcemanager_failover task self force w)
          (resourcemanager_result_complete self w)
  \/ (cancelled (Cancellation.resourcemanager_failover task self force w) /\ ~ quiet task).
Proof.
  destruct (FailoverFacts.rm_failover_complete self force w) as (r & w' & E & Hfacts).
  destruct (follows_resourcemanager_failover task self force w) as [H|[Hq H]].
  - left. exists r, w'. rewrite H, E. split; [reflexivity|exact Hfacts].
  - right. by split.
Qed.

Lemma resourcemanager_request_cancelled task self force w :
  cancelled_in_resourcemanager_request task (rm_calls w) = true ->
  cancelled (Cancellation.resourcemanager_failover task self force w).
Proof.
  intros H. run_resourcemanager_task. rewrite H. cbn. by eexists.
Qed.

Lemma resourcemanager_command_cancelled task self force w :
  cancelled_in_resourcemanager_request task (rm_calls w) = false ->
  (exists old_active, rm_roles_found self w old_active) ->
  cancelled_in_sleep task (clock w) = true ->
  cancelled (Cancellation.resourcemanager_failover task self force w).
Proof.
  intros Hreq (old_active & st & Hst & Hact & _) Hsleep.
  run_resourcemanager_task. rewrite Hreq, Hst. cbn.
  destruct (is_active (active st)); cbn.
  - rewrite Hsleep. cbn. by eexists.
  - cbn in Hact. rewrite Hact. cbn. rewrite Hsleep. cbn. by eexists.
Qed.

Lemma resourcemanager_check_exception task self force w e :
  cancelled_in_resourcemanager_request task (rm_calls w) = false ->
  get_resourcemanager_status (hadoop_client self) (rm_calls w) = inl e ->
  returns (Cancellation.resourcemanager_failover task self force w)
    (fun r => steps r = [check_failed (clock w) e;
                         error_step (clock w) "Failed to get initial ResourceManager status"]
              /\ success r = false
              /\ error r = Some "Failed to get initial ResourceManager status").
Proof.
  intros Hreq He. run_resourcemanager_task. rewrite Hreq, He. cbn.
  eexists _, _. split; [reflexivity|]. by cbn.
Qed.

(** ** Both workflows *)

(** A run that returns or is cancelled raises no [Exception]. *)
Lemma returns_or_cancelled_no_exception {S A} (run : (Raised + A) * S)
    (P : A -> Prop) (Q : Prop) :
  returns run P \/ (cancelled run /\ Q) -> ~ raises_exception run.
Proof.
  intros [(a & s' & E & _)|[(s' & E) _]] (msg & s'' & E'); congruence.
Qed.

(** The workflows polled by a client that keeps the roles as they are,
    in a task that is cancelled during the wait before the
    verification: the two steps made so far are lost with the call. *)
Example cancelled_before_verification_loses_steps :
  Cancellation.namenode_failover cancelled_before_verification steady false start
  = (inl CancelledError,
     {| clock := 2; nn_calls := 1; rm_calls := 0;
        log := [("info", "Starting NameNode failover...")] |})
  /\ exists r w', Failover.namenode_failover steady false start = (inr r, w')
                  /\ length (steps r) = 3%nat.
Proof. split; [vm_compute; reflexivity|]. vm_compute. by eexists _, _. Qed.

(** C1 (amended): [except Exception] lets [asyncio.CancelledError]
    pass.  Each workflow, in any task, with any client and force flag,
    either returns a result or raises [CancelledError] to its caller;
    it never raises an exception derived from [Exception].  It returns
    when the task is not cancelled.  When it returns, [success] is true
    exactly when the verification step was reached and succeeded; the
    result either ends with a step of kind "error" next to an
    unsuccessful status check, with the top-level error set to "Failed
    to get initial ... status", or holds the three steps with no
    top-level error; an exception raised by a status request is stored
    as the error of the step that made the request.  A task cancelled
    during the first status request, or during the command after a
    status check that found the roles, gets [CancelledError] and no
    result.  An exception raised by the first status request, in a task
    not cancelled meanwhile, makes the call return the failed check and
    the step of kind "error". *)
Theorem failover_result_complete (task : Task) (self : FailoverManager)
    (force : bool) (w : World) :
  let nn_run := Cancellation.namenode_failover task self force w in
  let rm_run := Cancellation.resourcemanager_failover task self force w in
  ((returns nn_run (namenode_result_complete self w)
    \/ (cancelled nn_run /\ ~ quiet task))
   /\ ~ raises_exception nn_run
   /\ (quiet task -> returns nn_run (namenode_result_complete self w))
   /\ (cancelled_in_namenode_request task (nn_calls w) = true -> cancelled nn_run)
   /\ (cancelled_in_namenode_request task (nn_calls w) = false ->
       (exists old_active, nn_roles_found self w old_active) ->
       cancelled_in_sleep task (clock w) = true -> cancelled nn_run)
   /\ (forall e,
         cancelled_in_namenode_request task (nn_calls w) = false ->
         get_namenode_status (hadoop_client self) (nn_calls w) = inl e ->
         returns nn_run
           (fun r => steps r = [check_failed (clock w) e;
                                error_step (clock w)
                                  "Failed to get initial NameNode status"]
                     /\ success r = false
                     /\ error r = Some "Failed to get initial NameNode status")))
  /\ ((returns rm_run (resourcemanager_result_complete self w)
       \/ (cancelled rm_run /\ ~ quiet task))
      /\ ~ raises_exception rm_run
      /\ (quiet task -> returns rm_run (resourcemanager_result_complete self w))
      /\ (cancelled_in_resourcemanager_request task (rm_calls w) = true ->
          cancelled rm_run)
      /\ (cancelled_in_resourcemanager_request task (rm_calls w) = false ->
          (exists old_active, rm_roles_found self w old_active) ->
          cancelled_in_sleep task (clock w) = true -> cancelled rm_run)
      /\ (forall e,
            cancelled_in_resourcemanager_request task (rm_calls w) = false ->
            get_resourcemanager_status (hadoop_client self) (rm_calls w) = inl e ->
            returns rm_run
              (fun r => steps r = [check_failed (clock w) e;
                                   error_step (clock w)
                                     "Failed to get initial ResourceManager status"]
                        /\ success r = false
                        /\ error r
                           = Some "Failed to get initial ResourceManager status"))).
Proof.
  intros nn_run rm_run. subst nn_run rm_run. split.
  - pose proof (namenode_failover_outcome task self force w) as Hout.
    split; [exact Hout|]. split; [by eapply returns_or_cancelled_no_exception|].
    split; [by destruct Hout as [H|[_ H]]|].
    split; [apply namenode_request_cancelled|].
    split; [apply namenode_command_cancelled|].
    intros e. apply namenode_check_exception.
  - pose proof (resourcemanager_failover_outcome task self force w) as Hout.
    split; [exact Hout|]. split; [by eapply returns_or_cancelled_no_exception|].
    split; [by destruct Hout as [H|[_ H]]|].
    split; [apply resourcemanager_request_cancelled|].
    split; [apply resourcemanager_command_cancelled|].
    intros e. apply resourcemanager_check_exception.
Qed.

Lemma failover_result_complete_at_sample_tasks :
  returns (Cancellation.namenode_failover undisturbed unreachable false start)
    (fun r => steps r = [check_failed 0 "connection refused";
                         error_step 0 "Failed to get initial NameNode status"]
              /\ success r = false
              /\ error r = Some "Failed to get initial NameNode status")
  /\ cancelled (Cancellation.resourcemanager_failover cancelled_during_command
                  steady true start)
  /\ cancelled (Cancellation.namenode_failover cancelled_at_first_request
                  steady false start).
Proof.
  split; [|split].
  - destruct (failover_result_complete undisturbed unreachable false start)
      as [(_ & _ & _ & _ & _ & H) _].
    exact (H "connection refused" eq_refl eq_refl).
  - destruct (failover_result_complete cancelled_during_command steady true start)
      as [_ (_ & _ & _ & _ & H & _)].
    apply H; [reflexivity| |reflexivity].
    exists "active-rm", (pair true false). by repeat split.
  - destruct (failover_result_complete cancelled_at_first_request steady false start)
      as [(_ & _ & _ & H & _) _].
    exact (H eq_refl).
Defined.

End CancellationFacts.
